(** * Train/evaluate glue of the time-series forecast plugin

    A shallow embedding of [python-lib/constants.py],
    [python-lib/gluonts_forecasts/model.py] and the train/evaluate recipe
    script, together with the properties established about them.

    The forecasting library, pandas, the model handler base class and the
    plugin utilities are outside the embedded files: their types are the
    carriers of [Carriers] and their operations the fields of [External]. *)

From stdpp Require Import base option list gmap strings sorting.
From Stdlib Require Import ZArith Ascii.

Local Open Scope string_scope.
Local Open Scope list_scope.
#[local] Set Warnings "-clear-no-such-hyp".

(** ** constants.py *)

Module METRICS_DATASET.
Definition TARGET_COLUMN : string := "target_column".
Definition MODEL_COLUMN : string := "model".
Definition AGGREGATED_ROW : string := "aggregated".
Definition MODEL_PARAMETERS : string := "model_params".
Definition SESSION : string := "session".
End METRICS_DATASET.

Module TIMESERIES_KEYS.
Definition START : string := "start".
Definition TARGET : string := "target".
Definition TARGET_NAME : string := "target_name".
Definition TIME_COLUMN_NAME : string := "time_column_name".
Definition FEAT_DYNAMIC_REAL : string := "feat_dynamic_real".
Definition FEAT_DYNAMIC_REAL_COLUMNS_NAMES : string := "feat_dynamic_real_columns_names".
Definition IDENTIFIERS : string := "identifiers".
End TIMESERIES_KEYS.

Definition EVALUATION_METRICS_DESCRIPTIONS : list (string * string) :=
  [ ("MSE", "Mean Squared Error");
    ("MASE", "Mean Absolute Scaled Error");
    ("MAPE", "Mean Absolute Percentage Error");
    ("sMAPE", "Symmetric Mean Absolute Percentage Error");
    ("MSIS", "Mean Scaled Interval Score");
    ("RMSE", "Root Mean Square Error");
    ("ND", "Normalized Deviation");
    ("mean_wQuantileLoss", "Mean Weight Quantile Loss") ].

(** ** Python dictionaries

    A [dict] keeps its keys in insertion order and assigning to a key that
    is present replaces the value in place.  The keys of a real dictionary
    are pairwise distinct; statements that need it assume [NoDup (keys d)]. *)

Section pydict.
Context {K V : Type} `{EqDecision K}.

Definition keys (d : list (K * V)) : list K := d.*1.

Fixpoint dict_get (k : K) (d : list (K * V)) : option V :=
  match d with
  | [] => None
  | (k', v) :: d' => if decide (k' = k) then Some v else dict_get k d'
  end.

Fixpoint dict_set (k : K) (v : V) (d : list (K * V)) : list (K * V) :=
  match d with
  | [] => [(k, v)]
  | (k', v') :: d' =>
      if decide (k' = k) then (k, v) :: d' else (k', v') :: dict_set k v d'
  end.
End pydict.

(** A dictionary whose keys are compared with Python's [==], given as
    [eqb stored key]: the lookup finds the entry whose key equals [key],
    and an assignment to such an entry replaces its value and keeps the key
    that is stored.  The keys of a dictionary being pairwise different for
    [==], at most one entry can be found. *)
Section pydict_by.
Context {K V : Type} (eqb : K → K → bool).

Fixpoint dict_get_by (k : K) (d : list (K * V)) : option V :=
  match d with
  | [] => None
  | (k', v) :: d' => if eqb k' k then Some v else dict_get_by k d'
  end.

Fixpoint dict_set_by (k : K) (v : V) (d : list (K * V)) : list (K * V) :=
  match d with
  | [] => [(k, v)]
  | (k', v') :: d' =>
      if eqb k' k then (k', v) :: d' else (k', v') :: dict_set_by k v d'
  end.
End pydict_by.

(** ** Carriers of the external libraries *)

Class Carriers := {
  float : Type;            (* Python floats: metric values, clock readings *)
  Context_ : Type;         (* mxnet.context.Context *)
  Trainer : Type;          (* gluonts Trainer *)
  Estimator : Type;        (* gluonts Estimator *)
  Predictor : Type;        (* gluonts Predictor *)
  Forecast : Type;         (* gluonts Forecast *)
  TsIterator : Type;       (* the ts_it of make_evaluation_predictions *)
  Series : Type;           (* pandas Series *)
  Frames : Type;           (* the forecasts frames built by the utils *)
  Offset : Type;           (* pandas DateOffset *)
  PyErr : Type;            (* an exception object raised by external code *)
  float_eq_dec :: EqDecision float;
}.

Section data.
Context `{Carriers}.

(** Exceptions this code can end with: the ones Python raises for the
    operations written in model.py, the module's own
    [ModelTrainingError], and whatever external code raised. *)
Inductive exn :=
  | IndexError
  | KeyError (key : string)
  | ValueError
  | ZeroDivisionError
  | ModelTrainingError (msg : string)
  | Propagated (e : PyErr).

Inductive result (A : Type) :=
  | Ok (a : A)
  | Raise (e : exn).
Global Arguments Ok {A} a.
Global Arguments Raise {A} e.

Global Instance result_ret : MRet result := λ A a, Ok a.
Global Instance result_bind : MBind result := λ A B f r,
  match r with Ok a => f a | Raise e => Raise e end.

Definition is_Ok {A} (r : result A) : Prop := ∃ a, r = Ok a.

(** subscripting a dict: [d[k]] *)
Definition dict_item {V} (k : string) (d : list (string * V)) : result V :=
  match dict_get k d with Some v => Ok v | None => Raise (KeyError k) end.

(** A value held by a DataFrame cell, a metrics dict or an identifier. *)
Inductive cell :=
  | CStr (s : string)
  | CInt (z : Z)
  | CFloat (x : float)
  | NaN.

Global Instance cell_eq_dec : EqDecision cell.
Proof. solve_decision. Defined.

(** What json.dumps is given. *)
#[local] Unset Elimination Schemes.
Inductive json :=
  | JNull
  | JBool (b : bool)
  | JInt (z : Z)
  | JFloat (x : float)
  | JStr (s : string)
  | JList (l : list json)
  | JObject (fields : list (string * json)).
#[local] Set Elimination Schemes.

(** Keyword arguments handed to the model handler. *)
Inductive kwval :=
  | KStr (s : string)
  | KInt (z : Z)
  | KBool (b : bool)
  | KContext (c : option Context_)
  | KTrainer (t : Trainer).

(** One entry of [ListDataset.list_data].  The producer of the dataset
    always stores the target and its name; the identifiers are present
    only when the series are grouped, which the code tests with [in]. *)
Record timeseries := {
  target : list float;
  target_name : string;
  identifiers : option (list (string * cell));
}.

Record ListDataset := { list_data : list timeseries }.

(** *** pandas DataFrame, column by column

    [df_columns] lists the columns in order with their values; every
    column of a frame holds [df_nrows] values. *)
Record DataFrame := {
  df_nrows : nat;
  df_columns : list (string * list cell);
}.

Definition df_names (df : DataFrame) : list string := keys (df_columns df).

Definition df_column (c : string) (df : DataFrame) : option (list cell) :=
  dict_get c (df_columns df).

(** [df[c] = v] with a scalar [v] *)
Definition df_set_scalar (c : string) (v : cell) (df : DataFrame) : DataFrame :=
  {| df_nrows := df_nrows df;
     df_columns := dict_set c (replicate (df_nrows df) v) (df_columns df) |}.

(** [df[c] = vs] with a list: the lengths must agree, except that a
    frame without rows takes its index from a non-empty [vs], the
    columns it had being filled with NaN. *)
Definition df_set_list (c : string) (vs : list cell) (df : DataFrame) : result DataFrame :=
  if decide (length vs = df_nrows df) then
    Ok {| df_nrows := df_nrows df; df_columns := dict_set c vs (df_columns df) |}
  else if decide (df_nrows df = 0) then
    Ok {| df_nrows := length vs;
          df_columns :=
            dict_set c vs ((λ kv, (kv.1, replicate (length vs) NaN)) <$> df_columns df) |}
  else Raise ValueError.

(** [df.append(d, ignore_index=True)] with a dict: one more row; a column
    the dict lacks gets NaN there, a key the frame lacks becomes a new
    column that is NaN above.  The new columns come after the old ones;
    pandas decides their order, here that of the dict, and _format_metrics
    selects its columns by name right after. *)
Definition df_append (d : list (string * cell)) (df : DataFrame) : DataFrame :=
  {| df_nrows := S (df_nrows df);
     df_columns :=
       ((λ kv, (kv.1, kv.2 ++ [default NaN (dict_get kv.1 d)])) <$> df_columns df)
       ++ ((λ kv, (kv.1, replicate (df_nrows df) NaN ++ [kv.2]))
             <$> filter (λ kv, kv.1 ∉ df_names df) d) |}.

(** [df[names]]: the listed columns in the listed order, KeyError when
    one is absent. *)
Fixpoint select_columns (names : list string) (columns : list (string * list cell))
    : result (list (string * list cell)) :=
  match names with
  | [] => Ok []
  | c :: rest =>
      values ← dict_item c columns;
      selected ← select_columns rest columns;
      Ok ((c, values) :: selected)
  end.

Definition df_select (names : list string) (df : DataFrame) : result DataFrame :=
  columns ← select_columns names (df_columns df);
  Ok {| df_nrows := df_nrows df; df_columns := columns |}.
End data.

(** ** Operations of the external libraries

    Each field stands for code outside the embedded files.  A call that
    can fail returns [inr err] with the exception object it raised. *)

Class External `{Carriers} := {
  (** floats: the literal 0, [+], [-], [round(x, 2)] and the literal 0.5 *)
  float_zero : float;
  fadd : float → float → float;
  fsub : float → float → float;
  round2 : float → float;
  float_half : float;
  (** [x == y] between two floats and [x == n] between a float and an int *)
  float_eq : float → float → bool;
  float_eq_int : float → Z → bool;
  (** time.perf_counter: the reading its n-th call returns *)
  perf_counter : nat → float;
  (** multiprocessing.cpu_count *)
  cpu_count : nat;
  (** str of an exception and of a context, isinstance(err, Exception) *)
  str_err : PyErr → string;
  str_context : Context_ → string;
  is_Exception : PyErr → bool;
  json_dumps : json → string;
  (** pandas.tseries.frequencies.to_offset and the offset's name *)
  to_offset : string → Offset + PyErr;
  offset_name : Offset → string;
  (** model.py imports CUSTOMISABLE_FREQUENCIES_OFFSETS and reads
      METRICS_DATASET.TRAINING_TIME from constants, where neither is
      defined: the isinstance test against the former and the value of
      the latter are taken as given. *)
  is_customisable : Offset → bool;
  TRAINING_TIME : string;
  (** gluonts_forecasts.model_handler.ModelHandler, by model name *)
  handler_init : string → unit + PyErr;
  get_label : string → string;
  can_use_external_feature : string → bool;
  can_use_seasonality : string → bool;
  needs_num_samples : string → bool;
  handler_trainer : string → gmap string kwval → option Trainer + PyErr;
  handler_estimator : string → json → gmap string kwval → option Estimator + PyErr;
  handler_predictor : string → gmap string kwval → Predictor + PyErr;
  (** gluonts: Estimator.train, make_evaluation_predictions followed by
      list(forecast_it), and Evaluator(num_workers)(ts_it, forecasts, num_series) *)
  estimator_train : Estimator → ListDataset → Predictor + PyErr;
  make_evaluation_predictions :
    ListDataset → Predictor → nat → (list Forecast * TsIterator) + PyErr;
  Evaluator :
    nat → TsIterator → list Forecast → nat → (list (string * cell) * DataFrame) + PyErr;
  (** gluonts_forecasts.utils *)
  quantile_forecasts_series : Forecast → float → string → Series;
  series_rename : Series → string → Series;
  concat_timeseries_per_identifiers :
    list (option (list (string * cell)) * list Series) → Frames + PyErr;
  concat_all_timeseries : Frames → Frames + PyErr;
}.

Section model.
Context `{External}.
Import METRICS_DATASET.

(** the outcome of an external call, as this code sees it *)
Definition ext {A} (r : A + PyErr) : result A :=
  match r with inl a => Ok a | inr e => Raise (Propagated e) end.

(** [s.split("-")[0]]: what precedes the first dash *)
Fixpoint split_dash_head (s : string) : string :=
  match s with
  | EmptyString => EmptyString
  | String c s' => if decide (c = "-"%char) then EmptyString else String c (split_dash_head s')
  end.

Record Model := {
  model_name : string;
  model_parameters : json;
  custom_frequency : string;
  frequency : string;
  prediction_length : Z;
  epoch : Z;
  use_external_features : bool;
  use_seasonality : bool;
  mxnet_context : option Context_;
  estimator_kwargs : gmap string kwval;
  batch_size : option Z;
  num_batches_per_epoch : option Z;
  trainer : option Trainer;
  season_length : option Z;
  estimator : option Estimator;
  predictor : option Predictor;
  evaluation_time : float;
  retraining_time : float;
}.

(** [d.update({k: v})] when [o] is [Some v], nothing otherwise *)
Definition update_if {V} (k : string) (o : option V) (d : gmap string V) : gmap string V :=
  match o with Some v => <[k := v]> d | None => d end.

(** [l[i]] *)
Definition list_item {A} (i : nat) (l : list A) : result A :=
  match l !! i with Some a => Ok a | None => Raise IndexError end.

(** [round(a / b)] for integers [0 <= a] and [0 <= b]: Python divides
    as floats and rounds halves to the even neighbour.  The quotient is
    taken exactly here, which is what the float computation yields as
    long as [a] stays below 2^52. *)
Definition round_div (a b : Z) : result Z :=
  if decide (b = 0)%Z then Raise ZeroDivisionError
  else
    let q := (a / b)%Z in
    let r := (a mod b)%Z in
    Ok (if decide (2 * r < b)%Z then q
        else if decide (b < 2 * r)%Z then (q + 1)%Z
        else if Z.even q then q else (q + 1)%Z).

(** Model.__init__ *)
Definition __init__ (model_name : string) (model_parameters : json)
    (frequency : string) (prediction_length epoch : Z)
    (use_external_features : bool)
    (batch_size num_batches_per_epoch season_length : option Z)
    (mxnet_context : option Context_) : result Model :=
  _ ← ext (handler_init model_name);
  offset ← ext (to_offset frequency);
  let custom_frequency := frequency in
  let frequency :=
    if negb (is_customisable offset) then frequency
    else split_dash_head (offset_name offset) in
  let use_external_features :=
    use_external_features && can_use_external_feature model_name in
  let use_seasonality := can_use_seasonality model_name in
  let estimator_kwargs : gmap string kwval :=
    <["prediction_length" := KInt prediction_length]> (<["freq" := KStr frequency]> ∅) in
  let trainer_kwargs : gmap string kwval :=
    <["epochs" := KInt epoch]> (<["ctx" := KContext mxnet_context]> ∅) in
  let trainer_kwargs := update_if "batch_size" (KInt <$> batch_size) trainer_kwargs in
  let trainer_kwargs :=
    update_if "num_batches_per_epoch" (KInt <$> num_batches_per_epoch) trainer_kwargs in
  trainer ← ext (handler_trainer model_name trainer_kwargs);
  let estimator_kwargs := update_if "trainer" (KTrainer <$> trainer) estimator_kwargs in
  let mxnet_context := if trainer is Some _ then mxnet_context else None in
  let estimator_kwargs :=
    if use_seasonality
    then update_if "season_length" (KInt <$> season_length) estimator_kwargs
    else estimator_kwargs in
  let estimator_kwargs :=
    if use_external_features
    then <["use_feat_dynamic_real" := KBool true]> estimator_kwargs
    else estimator_kwargs in
  estimator ← ext (handler_estimator model_name model_parameters estimator_kwargs);
  Ok {| model_name := model_name;
        model_parameters := model_parameters;
        custom_frequency := custom_frequency;
        frequency := frequency;
        prediction_length := prediction_length;
        epoch := epoch;
        use_external_features := use_external_features;
        use_seasonality := use_seasonality;
        mxnet_context := mxnet_context;
        estimator_kwargs := estimator_kwargs;
        batch_size := batch_size;
        num_batches_per_epoch := num_batches_per_epoch;
        trainer := trainer;
        season_length := season_length;
        estimator := estimator;
        predictor := None;
        evaluation_time := float_zero;
        retraining_time := float_zero |}.

(** *** The methods that only read [self] *)

Definition json_of_option (o : option Z) : json :=
  match o with Some z => JInt z | None => JNull end.

(** Model._get_model_parameters_json *)
Definition _get_model_parameters_json (self : Model)
    (train_list_dataset : ListDataset) : result string :=
  let timeseries_number := length (list_data train_list_dataset) in
  let timeseries_total_length :=
    sum_list ((λ ts, length (target ts)) <$> list_data train_list_dataset) in
  average ← round_div (Z.of_nat timeseries_total_length) (Z.of_nat timeseries_number);
  let model_params : list (string * json) :=
    [ ("model_name", JStr (get_label (model_name self)));
      ("frequency", JStr (frequency self));
      ("prediction_length", JInt (prediction_length self));
      ("use_external_features", JBool (use_external_features self));
      ("timeseries_number", JInt (Z.of_nat timeseries_number));
      ("timeseries_average_length", JInt average);
      ("model_parameters", model_parameters self) ] in
  let model_params :=
    if trainer self is Some _ then
      dict_set "num_batches_per_epoch" (json_of_option (num_batches_per_epoch self))
        (dict_set "batch_size" (json_of_option (batch_size self))
           (dict_set "epoch" (JInt (epoch self)) model_params))
    else model_params in
  let model_params :=
    match use_seasonality self, season_length self with
    | true, Some n => dict_set "season_length" (JInt n) model_params
    | _, _ => model_params
    end in
  let model_params :=
    match mxnet_context self with
    | Some ctx => dict_set "mxnet.context" (JStr (str_context ctx)) model_params
    | None => model_params
    end in
  Ok (json_dumps (JObject model_params)).

(** The inner loop of _format_metrics over the identifiers columns, for
    one series: [identifiers_values[c] += [ts["identifiers"][c]]]. *)
Fixpoint add_identifiers_values (ts : timeseries) (identifiers_columns : list string)
    (identifiers_values : list (string * list cell)) : result (list (string * list cell)) :=
  match identifiers_columns with
  | [] => Ok identifiers_values
  | c :: rest =>
      values ← dict_item c identifiers_values;
      ids ← match identifiers ts with
            | Some ids => Ok ids
            | None => Raise (KeyError TIMESERIES_KEYS.IDENTIFIERS)
            end;
      v ← dict_item c ids;
      add_identifiers_values ts rest (dict_set c (values ++ [v]) identifiers_values)
  end.

(** The loop of _format_metrics over the series. *)
Fixpoint collect_columns (series : list timeseries) (identifiers_columns : list string)
    (target_columns : list string) (identifiers_values : list (string * list cell))
    : result (list string * list (string * list cell)) :=
  match series with
  | [] => Ok (target_columns, identifiers_values)
  | ts :: rest =>
      let target_columns := target_columns ++ [target_name ts] in
      identifiers_values ← add_identifiers_values ts identifiers_columns identifiers_values;
      collect_columns rest identifiers_columns target_columns identifiers_values
  end.

(** The loop of _format_metrics that stores the identifiers columns. *)
Fixpoint set_identifiers_columns (identifiers_columns : list string)
    (identifiers_values : list (string * list cell))
    (item_metrics : DataFrame) (agg_metrics : list (string * cell))
    : result (DataFrame * list (string * cell)) :=
  match identifiers_columns with
  | [] => Ok (item_metrics, agg_metrics)
  | c :: rest =>
      values ← dict_item c identifiers_values;
      item_metrics ← df_set_list c values item_metrics;
      set_identifiers_columns rest identifiers_values item_metrics
        (dict_set c (CStr AGGREGATED_ROW) agg_metrics)
  end.

(** The columns _format_metrics selects, in order. *)
Definition metrics_columns (identifiers_columns : list string) : list string :=
  [TARGET_COLUMN] ++ identifiers_columns ++ [MODEL_COLUMN]
    ++ keys EVALUATION_METRICS_DESCRIPTIONS ++ [TRAINING_TIME].

(** Model._format_metrics *)
Definition _format_metrics (self : Model) (agg_metrics : list (string * cell))
    (item_metrics : DataFrame) (train_list_dataset : ListDataset)
    : result (DataFrame * list string) :=
  let label := CStr (get_label (model_name self)) in
  let item_metrics := df_set_scalar MODEL_COLUMN label item_metrics in
  let agg_metrics := dict_set MODEL_COLUMN label agg_metrics in
  first ← list_item 0 (list_data train_list_dataset);
  let identifiers_columns :=
    match identifiers first with Some ids => keys ids | None => [] end in
  let identifiers_values := (λ c, (c, [])) <$> identifiers_columns in
  '(target_columns, identifiers_values) ←
    collect_columns (list_data train_list_dataset) identifiers_columns [] identifiers_values;
  item_metrics ← df_set_list TARGET_COLUMN (CStr <$> target_columns) item_metrics;
  let agg_metrics := dict_set TARGET_COLUMN (CStr AGGREGATED_ROW) agg_metrics in
  let agg_metrics :=
    dict_set TRAINING_TIME
      (CFloat (round2 (fadd (evaluation_time self) (retraining_time self)))) agg_metrics in
  '(item_metrics, agg_metrics) ←
    set_identifiers_columns identifiers_columns identifiers_values item_metrics agg_metrics;
  let metrics := df_append agg_metrics item_metrics in
  metrics ← df_select (metrics_columns identifiers_columns) metrics;
  model_params ← _get_model_parameters_json self train_list_dataset;
  Ok (df_set_scalar MODEL_PARAMETERS (CStr model_params) metrics, identifiers_columns).

(** [sorted(d.items())]: the keys of a dict are pairwise distinct, so
    the comparison of two items is decided by their keys. *)
Definition item_le (a b : string * cell) : Prop := String.le a.1 b.1.

Global Instance item_le_dec : RelDecision item_le.
Proof. intros a b. unfold item_le. apply _. Defined.

Definition sorted_items (d : list (string * cell)) : list (string * cell) :=
  merge_sort item_le d.

(** the key under which a series is grouped *)
Definition timeseries_identifier_key (ts : timeseries) : option (list (string * cell)) :=
  sorted_items <$> identifiers ts.

(** [v == w] for two identifier values: a str equals the same str only,
    an int the same int and the floats of its value, and NaN equals
    nothing, itself included.  A dictionary lookup tries [v is w] before
    [v == w], which matters for NaN alone: the NaN of two different series
    are taken to be two float objects. *)
Definition cell_eq (v w : cell) : bool :=
  match v, w with
  | CStr s, CStr t => bool_decide (s = t)
  | CInt m, CInt n => bool_decide (m = n)
  | CInt n, CFloat x | CFloat x, CInt n => float_eq_int x n
  | CFloat x, CFloat y => float_eq x y
  | _, _ => false
  end.

(** [==] on two tuples of items: the same length, and item by item the
    same name and equal values *)
Fixpoint items_eq (a b : list (string * cell)) : bool :=
  match a, b with
  | [], [] => true
  | (k, v) :: a', (k', w) :: b' => bool_decide (k = k') && cell_eq v w && items_eq a' b'
  | _, _ => false
  end.

(** [==] on two grouping keys, each None or a tuple of items *)
Definition key_eq (a b : option (list (string * cell))) : bool :=
  match a, b with
  | None, None => true
  | Some a, Some b => items_eq a b
  | _, _ => false
  end.

(** the name given to the median series of a target *)
Definition series_name (self : Model) (ts : timeseries) : string :=
  model_name self +:+ "_" +:+ target_name ts.

Definition median_series (self : Model) (sample_forecasts : Forecast) (ts : timeseries)
    : Series :=
  series_rename
    (quantile_forecasts_series sample_forecasts float_half (custom_frequency self))
    (series_name self ts).

(** The body of the loop of _compute_median_forecasts_timeseries, once the
    series of the forecast is known: its median series is appended to the
    list under its key, or starts that list.  The dictionary compares the
    key with the keys it holds by [==]. *)
Definition add_median_series (self : Model)
    (median_forecasts_timeseries : list (option (list (string * cell)) * list Series))
    (forecast_of : Forecast * timeseries)
    : list (option (list (string * cell)) * list Series) :=
  let series := median_series self forecast_of.1 forecast_of.2 in
  let key := timeseries_identifier_key forecast_of.2 in
  match dict_get_by key_eq key median_forecasts_timeseries with
  | Some l => dict_set_by key_eq key (l ++ [series]) median_forecasts_timeseries
  | None => dict_set_by key_eq key [series] median_forecasts_timeseries
  end.

(** The loop of _compute_median_forecasts_timeseries from index [i] on. *)
Fixpoint median_forecasts_loop (self : Model) (train_list_dataset : ListDataset)
    (i : nat) (forecasts_list : list Forecast)
    (median_forecasts_timeseries : list (option (list (string * cell)) * list Series))
    : result (list (option (list (string * cell)) * list Series)) :=
  match forecasts_list with
  | [] => Ok median_forecasts_timeseries
  | sample_forecasts :: rest =>
      ts ← list_item i (list_data train_list_dataset);
      median_forecasts_loop self train_list_dataset (S i) rest
        (add_median_series self median_forecasts_timeseries (sample_forecasts, ts))
  end.

(** Model._compute_median_forecasts_timeseries *)
Definition _compute_median_forecasts_timeseries (self : Model)
    (forecasts_list : list Forecast) (train_list_dataset : ListDataset)
    : result (list (option (list (string * cell)) * list Series)) :=
  median_forecasts_loop self train_list_dataset 0 forecasts_list [].

(** *** The methods that call the libraries or assign to [self]

    A method runs on the object and on the world around it: the number
    of clock readings taken so far and the library calls made so far,
    oldest first.  An exception leaves both as they were when it was
    raised.  The messages sent to the logger are left out: they change
    neither the object nor what the methods return. *)

Inductive call :=
  | HandlerEstimator (kwargs : gmap string kwval)
  | HandlerPredictor (kwargs : gmap string kwval)
  | EstimatorTrain (e : Estimator) (dataset : ListDataset)
  | MakeEvaluationPredictions (dataset : ListDataset) (p : Predictor)
  | Evaluate (forecasts : list Forecast) (num_series : nat)
  | ConcatTimeseriesPerIdentifiers
  | ConcatAllTimeseries.

Record World := { ticks : nat; trace : list call }.

Definition M (A : Type) : Type := Model * World → result A * (Model * World).

Global Instance M_ret : MRet M := λ A a s, (Ok a, s).
Global Instance M_bind : MBind M := λ A B f m s,
  match m s with
  | (Ok a, s') => f a s'
  | (Raise e, s') => (Raise e, s')
  end.

Definition get_self : M Model := λ s, (Ok s.1, s).
Definition set_self (f : Model → Model) : M unit := λ s, (Ok (), (f s.1, s.2)).
Definition lift {A} (r : result A) : M A := λ s, (r, s).
Definition raise {A} (e : exn) : M A := lift (Raise e).

(** a library call: it is recorded, then its outcome is known *)
Definition library {A} (c : call) (r : A + PyErr) : M (A + PyErr) := λ s,
  (Ok r, (s.1, {| ticks := ticks s.2; trace := trace s.2 ++ [c] |})).

Definition library_call {A} (c : call) (r : A + PyErr) : M A :=
  r ← library c r; lift (ext r).

(** [perf_counter()] *)
Definition clock : M float := λ s,
  (Ok (perf_counter (ticks s.2)),
   (s.1, {| ticks := S (ticks s.2); trace := trace s.2 |})).

Definition with_estimator (e : option Estimator) (m : Model) : Model :=
  {| model_name := model_name m; model_parameters := model_parameters m;
     custom_frequency := custom_frequency m; frequency := frequency m;
     prediction_length := prediction_length m; epoch := epoch m;
     use_external_features := use_external_features m;
     use_seasonality := use_seasonality m; mxnet_context := mxnet_context m;
     estimator_kwargs := estimator_kwargs m; batch_size := batch_size m;
     num_batches_per_epoch := num_batches_per_epoch m; trainer := trainer m;
     season_length := season_length m; estimator := e;
     predictor := predictor m; evaluation_time := evaluation_time m;
     retraining_time := retraining_time m |}.

Definition with_predictor (p : option Predictor) (m : Model) : Model :=
  {| model_name := model_name m; model_parameters := model_parameters m;
     custom_frequency := custom_frequency m; frequency := frequency m;
     prediction_length := prediction_length m; epoch := epoch m;
     use_external_features := use_external_features m;
     use_seasonality := use_seasonality m; mxnet_context := mxnet_context m;
     estimator_kwargs := estimator_kwargs m; batch_size := batch_size m;
     num_batches_per_epoch := num_batches_per_epoch m; trainer := trainer m;
     season_length := season_length m; estimator := estimator m;
     predictor := p; evaluation_time := evaluation_time m;
     retraining_time := retraining_time m |}.

Definition with_evaluation_time (t : float) (m : Model) : Model :=
  {| model_name := model_name m; model_parameters := model_parameters m;
     custom_frequency := custom_frequency m; frequency := frequency m;
     prediction_length := prediction_length m; epoch := epoch m;
     use_external_features := use_external_features m;
     use_seasonality := use_seasonality m; mxnet_context := mxnet_context m;
     estimator_kwargs := estimator_kwargs m; batch_size := batch_size m;
     num_batches_per_epoch := num_batches_per_epoch m; trainer := trainer m;
     season_length := season_length m; estimator := estimator m;
     predictor := predictor m; evaluation_time := t;
     retraining_time := retraining_time m |}.

Definition with_retraining_time (t : float) (m : Model) : Model :=
  {| model_name := model_name m; model_parameters := model_parameters m;
     custom_frequency := custom_frequency m; frequency := frequency m;
     prediction_length := prediction_length m; epoch := epoch m;
     use_external_features := use_external_features m;
     use_seasonality := use_seasonality m; mxnet_context := mxnet_context m;
     estimator_kwargs := estimator_kwargs m; batch_size := batch_size m;
     num_batches_per_epoch := num_batches_per_epoch m; trainer := trainer m;
     season_length := season_length m; estimator := estimator m;
     predictor := predictor m; evaluation_time := evaluation_time m;
     retraining_time := t |}.

(** the message of the ModelTrainingError raised by _train_estimator *)
Definition training_error_message (name : string) (err : PyErr) : string :=
  "GluonTS '" +:+ name +:+ "' model crashed during training. Full error: "
    +:+ str_err err.

(** the keyword arguments _train_estimator gives ModelHandler.predictor;
    [self.season_length] is tested for truth there: neither None nor 0 *)
Definition predictor_kwargs (self : Model) : gmap string kwval :=
  let kwargs : gmap string kwval :=
    <["prediction_length" := KInt (prediction_length self)]>
      (<["freq" := KStr (frequency self)]> ∅) in
  let kwargs :=
    if needs_num_samples (model_name self)
    then <["num_samples" := KInt 100]> kwargs else kwargs in
  match use_seasonality self, season_length self with
  | true, Some n =>
      if decide (n = 0)%Z then kwargs else <["season_length" := KInt n]> kwargs
  | _, _ => kwargs
  end.

(** Model._train_estimator *)
Definition _train_estimator (train_list_dataset : ListDataset) : M Predictor :=
  self ← get_self;
  match estimator self with
  | None =>
      let kwargs := predictor_kwargs self in
      library_call (HandlerPredictor kwargs) (handler_predictor (model_name self) kwargs)
  | Some e =>
      r ← library (EstimatorTrain e train_list_dataset)
            (estimator_train e train_list_dataset);
      match r with
      | inl predictor => mret predictor
      | inr err =>
          if is_Exception err
          then raise (ModelTrainingError (training_error_message (model_name self) err))
          else raise (Propagated err)
      end
  end.

(** Model.train *)
Definition train (train_list_dataset : ListDataset) (reinit : bool) : M unit :=
  start ← clock;
  _ ← (if reinit then
         self ← get_self;
         e ← library_call (HandlerEstimator (estimator_kwargs self))
               (handler_estimator (model_name self) (model_parameters self)
                  (estimator_kwargs self));
         set_self (with_estimator e)
       else mret ());
  p ← _train_estimator train_list_dataset;
  _ ← set_self (with_predictor (Some p));
  stop ← clock;
  set_self (with_retraining_time (fsub stop start)).

(** Model._make_evaluation_predictions *)
Definition _make_evaluation_predictions (predictor : Predictor)
    (test_list_dataset : ListDataset)
    : M (list (string * cell) * DataFrame * list Forecast) :=
  '(forecasts, ts_it) ←
    library_call (MakeEvaluationPredictions test_list_dataset predictor)
      (make_evaluation_predictions test_list_dataset predictor 100);
  let num_series := length (list_data test_list_dataset) in
  '(agg_metrics, item_metrics) ←
    library_call (Evaluate forecasts num_series)
      (Evaluator (min 2 cpu_count) ts_it forecasts num_series);
  mret (agg_metrics, item_metrics, forecasts).

(** Model.train_evaluate; the third component of the value is the
    forecasts frame, returned only when [make_forecasts] holds. *)
Definition train_evaluate (train_list_dataset test_list_dataset : ListDataset)
    (make_forecasts retrain : bool) : M (DataFrame * list string * option Frames) :=
  start ← clock;
  evaluation_predictor ← _train_estimator train_list_dataset;
  '(agg_metrics, item_metrics, forecasts) ←
    _make_evaluation_predictions evaluation_predictor test_list_dataset;
  stop ← clock;
  _ ← set_self (with_evaluation_time (fsub stop start));
  _ ← (if retrain then train test_list_dataset true else mret ());
  self ← get_self;
  '(metrics, identifiers_columns) ←
    lift (_format_metrics self agg_metrics item_metrics train_list_dataset);
  if make_forecasts then
    median_forecasts_timeseries ←
      lift (_compute_median_forecasts_timeseries self forecasts train_list_dataset);
    multiple_df ←
      library_call ConcatTimeseriesPerIdentifiers
        (concat_timeseries_per_identifiers median_forecasts_timeseries);
    forecasts_df ← library_call ConcatAllTimeseries (concat_all_timeseries multiple_df);
    mret (metrics, identifiers_columns, Some forecasts_df)
  else mret (metrics, identifiers_columns, None).

(** *** Vocabulary of the statements *)

(** what training yields for a model: the estimator's [train] on the
    dataset when there is an estimator, the handler's predictor otherwise *)
Definition training_outcome (self : Model) (dataset : ListDataset) : Predictor + PyErr :=
  match estimator self with
  | Some e => estimator_train e dataset
  | None => handler_predictor (model_name self) (predictor_kwargs self)
  end.

(** the library call _train_estimator makes *)
Definition training_call (self : Model) (dataset : ListDataset) : call :=
  match estimator self with
  | Some e => EstimatorTrain e dataset
  | None => HandlerPredictor (predictor_kwargs self)
  end.

Definition record_call (c : call) (w : World) : World :=
  {| ticks := ticks w; trace := trace w ++ [c] |}.

(** the value a series holds for an identifier key, if any *)
Definition identifier_value (c : string) (ts : timeseries) : option cell :=
  identifiers ts ≫= dict_get c.

(** the identifiers columns _format_metrics works with: the identifier
    keys of the first series *)
Definition first_identifiers (ds : ListDataset) : list string :=
  match list_data ds with
  | ts :: _ => match identifiers ts with Some ids => keys ids | None => [] end
  | [] => []
  end.

(** the total length of the targets of a dataset *)
Definition total_target_length (ds : ListDataset) : nat :=
  sum_list ((λ ts, length (target ts)) <$> list_data ds).






(** the characters of a string *)
Fixpoint chars (s : string) : list ascii :=
  match s with
  | EmptyString => []
  | String c s' => c :: chars s'
  end.

(** the calls that build or train a model *)
Definition is_training (c : call) : bool :=
  match c with
  | HandlerEstimator _ | HandlerPredictor _ | EstimatorTrain _ _ => true
  | _ => false
  end.

Definition is_evaluation (c : call) : bool :=
  match c with Evaluate _ _ => true | _ => false end.
End model.

(** ** The train/evaluate recipe script

    The script is a straight line of calls into the plugin and the
    platform, none of which is among the embedded files, with one branch
    on the [make_forecasts] parameter.  A run attempts the calls in order
    and stops at the first one that raises. *)

Inductive output := evaluation_dataset | evaluation_forecasts.

Inductive step :=
  | GetRecipeConfig
  | LoadTrainingConfig
  | UtcNow
  | GetModelsParameters
  | GetDataframe
  | AssertContinuousTimeColumn
  | NewGlobalModels
  | InitAllModels
  | EvaluateAll
  | FitAll
  | SaveAll
  | GetMetricsDf
  | GetEvaluationForecastsDf
  | WriteWithSchema (dataset : output)
  | CreateMetricsColumnDescription
  | CreateEvaluationForecastsColumnDescription
  | SetColumnDescription (dataset : output).

Global Instance output_eq_dec : EqDecision output.
Proof. solve_decision. Defined.
Global Instance step_eq_dec : EqDecision step.
Proof. solve_decision. Defined.

Inductive outcome := Completed | Crashed (at_step : step).

(** the calls attempted and how the run ended, [raises] telling which
    calls raise *)
Fixpoint run (raises : step → bool) (steps : list step) : list step * outcome :=
  match steps with
  | [] => ([], Completed)
  | s :: rest =>
      if raises s then ([s], Crashed s)
      else let '(done, o) := run raises rest in (s :: done, o)
  end.

Definition recipe_steps (make_forecasts : bool) : list step :=
  [ GetRecipeConfig; LoadTrainingConfig; UtcNow; GetModelsParameters; GetDataframe;
    AssertContinuousTimeColumn; NewGlobalModels; InitAllModels;
    EvaluateAll;
    FitAll;
    SaveAll;
    GetMetricsDf; WriteWithSchema evaluation_dataset;
    CreateMetricsColumnDescription; SetColumnDescription evaluation_dataset ]
  ++ (if make_forecasts then
        [ GetEvaluationForecastsDf; WriteWithSchema evaluation_forecasts;
          CreateEvaluationForecastsColumnDescription;
          SetColumnDescription evaluation_forecasts ]
      else []).

Definition recipe (make_forecasts : bool) (raises : step → bool) : list step * outcome :=
  run raises (recipe_steps make_forecasts).

(** [a] is attempted before [b] in a run: every occurrence of [b] comes
    after one of [a] *)
Definition before (a b : step) (calls : list step) : Prop :=
  ∀ j, calls !! j = Some b → ∃ i, i < j ∧ calls !! i = Some a.

(** ** A small instance of the libraries

    Floats are counted in hundredths, the other carriers are strings.  Two
    models are known: "deepar", which has a trainer and an estimator, and
    "trivial_identity", which has neither and only a predictor. *)

Module Sample.
Global Instance carriers : Carriers := {|
  float := Z;
  Context_ := string;
  Trainer := string;
  Estimator := string;
  Predictor := list string;
  Forecast := string;
  TsIterator := nat;
  Series := string;
  Frames := list string;
  Offset := string;
  PyErr := string;
|}.

Definition metric_values : list (string * cell) :=
  (λ k, (k, CInt 1)) <$> keys EVALUATION_METRICS_DESCRIPTIONS.

Definition item_frame (n : nat) : DataFrame :=
  {| df_nrows := n;
     df_columns := [("item_id", replicate n NaN); ("MSE", replicate n (CInt 2))] |}.

Global Instance external : External := {|
  float_zero := 0%Z;
  fadd := Z.add;
  fsub := Z.sub;
  round2 := id;
  float_half := 50%Z;
  float_eq := Z.eqb;
  float_eq_int := λ x n, (x =? 100 * n)%Z;
  perf_counter := λ n, (100 * Z.of_nat n)%Z;
  cpu_count := 4;
  str_err := id;
  str_context := id;
  is_Exception := λ e, bool_decide (e ≠ "KeyboardInterrupt");
  json_dumps := λ j,
    match j with
    | JObject fields => "{" +:+ String.concat ", " (keys fields) +:+ "}"
    | _ => "null"
    end;
  to_offset := λ f, if decide (f = EmptyString) then inr "Invalid frequency" else inl f;
  offset_name := id;
  is_customisable := λ o, bool_decide (split_dash_head o = "W");
  TRAINING_TIME := "training_time";
  handler_init := λ name,
    if decide (name ∈ ["deepar"; "trivial_identity"]) then inl ()
    else inr "unknown model";
  get_label := id;
  can_use_external_feature := λ name, bool_decide (name = "deepar");
  can_use_seasonality := λ _, false;
  needs_num_samples := λ name, bool_decide (name = "trivial_identity");
  handler_trainer := λ name _,
    inl (if decide (name = "deepar") then Some "trainer" else None);
  handler_estimator := λ name _ _,
    inl (if decide (name = "deepar") then Some "deepar" else None);
  handler_predictor := λ name _, inl [name];
  estimator_train := λ e ds,
    match list_data ds with
    | [] => inr "no series to train on"
    | ts :: _ =>
        if decide (target_name ts = "interrupted") then inr "KeyboardInterrupt"
        else inl (e :: (target_name <$> list_data ds))
    end;
  make_evaluation_predictions := λ ds _ _,
    inl (target_name <$> list_data ds, length (list_data ds));
  Evaluator := λ _ _ _ n, inl (metric_values, item_frame n);
  quantile_forecasts_series := λ f _ _, f;
  series_rename := λ _ name, name;
  concat_timeseries_per_identifiers := λ d, inl (mjoin d.*2);
  concat_all_timeseries := λ fs, inl fs;
|}.

Definition deepar (frequency : string) (use_external_features : bool) : result Model :=
  __init__ "deepar" (JObject []) frequency 7 10 use_external_features
    (Some 32%Z) None None (Some "cpu").


Definition from_ok {A} (r : result A) (d : A) : A :=
  match r with Ok a => a | Raise _ => d end.

Definition no_model : Model :=
  {| model_name := EmptyString; model_parameters := JNull;
     custom_frequency := EmptyString; frequency := EmptyString;
     prediction_length := 0; epoch := 0; use_external_features := false;
     use_seasonality := false; mxnet_context := None; estimator_kwargs := ∅;
     batch_size := None; num_batches_per_epoch := None; trainer := None;
     season_length := None; estimator := None; predictor := None;
     evaluation_time := 0%Z; retraining_time := 0%Z |}.

Definition deepar_model : Model := from_ok (deepar "W-MON" true) no_model.

Definition series (name : string) (n : nat) (ids : option (list (string * cell)))
    : timeseries :=
  {| target := replicate n 0%Z; target_name := name; identifiers := ids |}.

Definition sales : ListDataset :=
  {| list_data :=
       [ series "revenue" 5 (Some [("store", CInt 1); ("country", CStr "FR")]);
         series "revenue" 4 (Some [("country", CStr "FR"); ("store", CInt 2)]);
         series "visits" 5 (Some [("country", CStr "FR"); ("store", CInt 1)]) ] |}.

Definition ungrouped : ListDataset :=
  {| list_data := [ series "revenue" 5 None; series "visits" 6 None ] |}.

Definition sales_test : ListDataset :=
  {| list_data :=
       [ series "revenue" 12 (Some [("store", CInt 1); ("country", CStr "FR")]);
         series "revenue" 11 (Some [("country", CStr "FR"); ("store", CInt 2)]);
         series "visits" 12 (Some [("country", CStr "FR"); ("store", CInt 1)]) ] |}.

Definition empty : ListDataset := {| list_data := [] |}.


(** the second series lacks the identifiers of the first *)
Definition ragged : ListDataset :=
  {| list_data := [ series "revenue" 5 (Some [("store", CInt 1)]); series "visits" 5 None ] |}.

(** datasets with an identifier named like a column of the metrics *)
Definition named_target : ListDataset :=
  {| list_data := [ series "revenue" 5 (Some [("target_column", CStr "A")]) ] |}.

Definition named_model : ListDataset :=
  {| list_data := [ series "revenue" 5 (Some [("model", CStr "A")]) ] |}.

Definition named_model_params : ListDataset :=
  {| list_data := [ series "revenue" 5 (Some [("model_params", CStr "A")]) ] |}.

Definition world0 : World := {| ticks := 0; trace := [] |}.

Definition no_frame : DataFrame := {| df_nrows := 0; df_columns := [] |}.

(** a run of train_evaluate with forecasts and retraining *)
Definition evaluation_run :
    result (DataFrame * list string * option Frames) * (Model * World) :=
  train_evaluate sales sales_test true true (deepar_model, world0).

Definition evaluation_result : DataFrame * list string * option Frames :=
  from_ok evaluation_run.1 (no_frame, [], None).
End Sample.

(** ** A second instance, with a seasonal model

    The libraries of [Sample], where the model "seasonal_naive" can use a
    seasonality, has neither trainer nor estimator, and draws samples. *)

Module Seasonal.
#[local] Existing Instance Sample.carriers.

Definition external : External := {|
  float_zero := @float_zero _ Sample.external;
  fadd := @fadd _ Sample.external;
  fsub := @fsub _ Sample.external;
  round2 := @round2 _ Sample.external;
  float_half := @float_half _ Sample.external;
  float_eq := @float_eq _ Sample.external;
  float_eq_int := @float_eq_int _ Sample.external;
  perf_counter := @perf_counter _ Sample.external;
  cpu_count := 1;
  str_err := @str_err _ Sample.external;
  str_context := @str_context _ Sample.external;
  is_Exception := @is_Exception _ Sample.external;
  json_dumps := @json_dumps _ Sample.external;
  to_offset := @to_offset _ Sample.external;
  offset_name := @offset_name _ Sample.external;
  is_customisable := @is_customisable _ Sample.external;
  TRAINING_TIME := "training_time";
  handler_init := λ name,
    if decide (name ∈ ["deepar"; "seasonal_naive"]) then inl ()
    else inr "unknown model";
  get_label := id;
  can_use_external_feature := λ name, bool_decide (name = "deepar");
  can_use_seasonality := λ name, bool_decide (name = "seasonal_naive");
  needs_num_samples := λ name, bool_decide (name = "seasonal_naive");
  handler_trainer := λ name _,
    inl (if decide (name = "deepar") then Some "trainer" else None);
  handler_estimator := λ name _ _,
    inl (if decide (name = "deepar") then Some "deepar" else None);
  handler_predictor := λ name _, inl [name];
  estimator_train := @estimator_train _ Sample.external;
  make_evaluation_predictions := @make_evaluation_predictions _ Sample.external;
  Evaluator := @Evaluator _ Sample.external;
  quantile_forecasts_series := @quantile_forecasts_series _ Sample.external;
  series_rename := @series_rename _ Sample.external;
  concat_timeseries_per_identifiers :=
    @concat_timeseries_per_identifiers _ Sample.external;
  concat_all_timeseries := @concat_all_timeseries _ Sample.external;
|}.

(** a seasonal model built with the given season length and a context *)
Definition seasonal_naive (season_length : option Z) : result Model :=
  __init__ (H0 := external) "seasonal_naive" (JObject []) "W-MON" 7 10 true
    None None season_length (Some "cpu").

Definition seasonal_model (season_length : option Z) : Model :=
  Sample.from_ok (seasonal_naive season_length) Sample.no_model.
End Seasonal.

(** ** Properties *)

(** a decidable fact settled by evaluation *)
Ltac computed := apply (bool_decide_unpack _); vm_compute; exact I.

Section pydict_properties.
Context {K V : Type} `{EqDecision K}.
Implicit Types (d : list (K * V)) (k : K) (v : V).

Lemma dict_get_set_eq d k v : dict_get k (dict_set k v d) = Some v.
Proof.
  induction d as [|[k' v'] d IH]; simpl.
  - by rewrite decide_True.
  - destruct (decide (k' = k)) as [->|Hne]; simpl.
    + by rewrite decide_True.
    + by rewrite decide_False.
Qed.

Lemma dict_get_set_ne d k k' v : k ≠ k' → dict_get k' (dict_set k v d) = dict_get k' d.
Proof.
  intros Hne. induction d as [|[k'' v''] d IH]; simpl.
  - by rewrite decide_False.
  - destruct (decide (k'' = k)) as [->|Hne']; simpl.
    + by rewrite !decide_False.
    + by rewrite IH.
Qed.

Lemma dict_get_Some_keys d k v : dict_get k d = Some v → k ∈ keys d.
Proof.
  induction d as [|[k' v'] d IH]; simpl; [done|].
  destruct (decide (k' = k)) as [->|Hne]; [intros _; left|right; auto].
Qed.

Lemma dict_get_None d k : dict_get k d = None ↔ k ∉ keys d.
Proof.
  induction d as [|[k' v'] d IH]; simpl.
  - split; [intros _; apply not_elem_of_nil|done].
  - rewrite not_elem_of_cons. destruct (decide (k' = k)) as [->|Hne].
    + split; [done|]. by intros [? _].
    + rewrite IH. naive_solver.
Qed.

Lemma dict_get_is_Some d k : is_Some (dict_get k d) ↔ k ∈ keys d.
Proof.
  destruct (dict_get k d) as [v|] eqn:Hget.
  - split; [intros _; by eapply dict_get_Some_keys|by eexists].
  - apply dict_get_None in Hget. split; [by intros [? ?]|done].
Qed.

Lemma keys_dict_set_elem d k v : k ∈ keys d → keys (dict_set k v d) = keys d.
Proof.
  induction d as [|[k' v'] d IH]; simpl.
  - by intros ?%elem_of_nil.
  - destruct (decide (k' = k)) as [->|Hne]; simpl; [done|].
    intros [?|?]%elem_of_cons; [congruence|]. f_equal. by apply IH.
Qed.

Lemma keys_dict_set_fresh d k v : k ∉ keys d → keys (dict_set k v d) = keys d ++ [k].
Proof.
  induction d as [|[k' v'] d IH]; simpl; [done|].
  rewrite not_elem_of_cons. intros [Hne Hd].
  rewrite decide_False by done. simpl. f_equal. by apply IH.
Qed.

Lemma NoDup_keys_dict_set d k v : NoDup (keys d) → NoDup (keys (dict_set k v d)).
Proof.
  intros Hd. destruct (decide (k ∈ keys d)) as [Hin|Hout].
  - by rewrite keys_dict_set_elem.
  - rewrite keys_dict_set_fresh by done.
    apply NoDup_app. split_and!; [done| |apply NoDup_singleton].
    intros k' Hk' ->%list_elem_of_singleton. done.
Qed.

Lemma elem_of_keys_dict_set d k k' v :
  k' ∈ keys (dict_set k v d) ↔ k' = k ∨ k' ∈ keys d.
Proof.
  destruct (decide (k ∈ keys d)) as [Hin|Hout].
  - rewrite keys_dict_set_elem by done. naive_solver.
  - rewrite keys_dict_set_fresh, elem_of_app, list_elem_of_singleton by done.
    naive_solver.
Qed.

Lemma dict_get_fromkeys (ks : list K) k v :
  k ∈ ks → dict_get k ((λ k', (k', v)) <$> ks) = Some v.
Proof.
  induction ks as [|k' ks IH]; csimpl; [by intros ?%elem_of_nil|].
  destruct (decide (k' = k)) as [->|Hne]; [done|].
  intros [?|?]%elem_of_cons; [congruence|by apply IH].
Qed.
End pydict_properties.

Section pydict_by_properties.
Context {K V : Type} (eqb : K → K → bool).
Implicit Types (d : list (K * V)).

End pydict_by_properties.

Section init_properties.
Context `{External}.

Lemma bind_Ok {A B} (r : result A) (f : A → result B) (b : B) :
  r ≫= f = Ok b → ∃ a, r = Ok a ∧ f a = Ok b.
Proof. destruct r as [a|e]; [eauto|discriminate]. Qed.

Lemma ext_Ok {A} (r : A + PyErr) (a : A) : ext r = Ok a → r = inl a.
Proof. destruct r; simpl; congruence. Qed.

Lemma lookup_update_if_ne {V} (k k' : string) (o : option V) (d : gmap string V) :
  k ≠ k' → update_if k o d !! k' = d !! k'.
Proof. intros ?. destruct o; simpl; [by rewrite lookup_insert_ne|done]. Qed.

Ltac skip_other_keys :=
  repeat first [rewrite lookup_insert_ne by done | rewrite lookup_update_if_ne by done].


(** C7: a constructed Model uses external features exactly when it was
    asked to and the handler says the model can, and [estimator_kwargs]
    holds "use_feat_dynamic_real": True exactly in that case. *)
Theorem external_features_translation name params freq plen ep uef bs nb sl ctx
    (m : Model) :
  __init__ name params freq plen ep uef bs nb sl ctx = Ok m →
  (use_external_features m = true ↔ uef = true ∧ can_use_external_feature name = true)
  ∧ (estimator_kwargs m !! "use_feat_dynamic_real" = Some (KBool true)
       ↔ use_external_features m = true).
Proof.
  unfold __init__. intros Hm.
  apply bind_Ok in Hm as (_ & _ & Hm).
  apply bind_Ok in Hm as (offset & _ & Hm).
  apply bind_Ok in Hm as (tr & _ & Hm).
  apply bind_Ok in Hm as (est & _ & Hm).
  injection Hm as <-. simpl. split; [apply andb_true_iff|].
  destruct (uef && can_use_external_feature name).
  - by rewrite lookup_insert_eq.
  - split; [|done].
    destruct (can_use_seasonality name); by skip_other_keys.
Qed.
End init_properties.


Lemma external_features_translation_witness :
  use_external_features Sample.deepar_model = true
  ∧ estimator_kwargs Sample.deepar_model !! "use_feat_dynamic_real" = Some (KBool true).
Proof.
  destruct (external_features_translation (H0 := Sample.external) "deepar" (JObject []) "W-MON" 7 10 true
              (Some 32%Z) None None (Some "cpu") Sample.deepar_model eq_refl)
    as (H1 & H2).
  split; [apply H1; by split|apply H2, H1; by split].
Defined.

Section training_properties.
Context `{External}.

Lemma _train_estimator_unfold (self : Model) (w : World) (ds : ListDataset) :
  _train_estimator ds (self, w) =
    (match training_outcome self ds with
     | inl p => Ok p
     | inr err =>
         match estimator self with
         | Some _ =>
             if is_Exception err
             then Raise (ModelTrainingError (training_error_message (model_name self) err))
             else Raise (Propagated err)
         | None => Raise (Propagated err)
         end
     end, (self, record_call (training_call self ds) w)).
Proof.
  unfold _train_estimator, training_outcome, training_call, record_call.
  unfold mbind, M_bind, get_self, library_call, library, lift, raise, lift, mret, M_ret.
  simpl. destruct (estimator self) as [e|]; simpl.
  - destruct (estimator_train e ds) as [p|err]; simpl; [done|].
    by destruct (is_Exception err).
  - unfold mbind, M_bind. simpl.
    by destruct (handler_predictor (model_name self) (predictor_kwargs self)).
Qed.


Ltac run_methods :=
  unfold train_evaluate, train, _make_evaluation_predictions, clock, set_self, get_self,
    library_call, library, lift, raise;
  generalize (min 2 cpu_count); intros workers;
  repeat (unfold mbind, M_bind, mret, M_ret; simpl;
          rewrite ?_train_estimator_unfold).

(** case analysis on the outcomes of the calls, innermost first *)
Ltac case_outcomes :=
  repeat match goal with
    | |- context [match ?x with _ => _ end] =>
        lazymatch x with
        | context [match _ with _ => _ end] => fail
        | _ => destruct x eqn:?; simpl; rewrite ?_train_estimator_unfold; simpl
        end
    end.

(** C9: with retrain=False, train_evaluate leaves every field of the
    Model but [evaluation_time] as it was, whatever the outcome; and
    whenever Model.train returns, [predictor] is the predictor just trained
    and [retraining_time] the time elapsed between its two clock readings. *)
Theorem evaluation_frame (self : Model) (w : World) :
  (∀ train_ds test_ds make_forecasts,
     let self' := (train_evaluate train_ds test_ds make_forecasts false (self, w)).2.1 in
     self' = with_evaluation_time (evaluation_time self') self
     ∧ predictor self' = predictor self
     ∧ retraining_time self' = retraining_time self
     ∧ estimator self' = estimator self
     ∧ estimator_kwargs self' = estimator_kwargs self)
  ∧ (∀ ds reinit self' w',
       train ds reinit (self, w) = (Ok (), (self', w')) →
       ∃ p, training_outcome self' ds = inl p
         ∧ predictor self' = Some p
         ∧ retraining_time self' =
             fsub (perf_counter (S (ticks w))) (perf_counter (ticks w))).
Proof.
  split.
  - intros train_ds test_ds mf. simpl.
    assert (with_evaluation_time (evaluation_time self) self = self) as Hid
      by by destruct self.
    run_methods. case_outcomes; simpl; rewrite ?Hid; done.
  - intros ds reinit self' w'. destruct reinit; run_methods.
    + destruct (handler_estimator _ _ _) as [e|err]; simpl; [|done].
      rewrite _train_estimator_unfold. simpl.
      destruct (training_outcome (with_estimator e self) ds) as [p|err] eqn:Hp; simpl.
      * intros ?; simplify_eq. exists p. split; [exact Hp|done].
      * by case_outcomes.
    + destruct (training_outcome self ds) as [p|err] eqn:Hp; simpl.
      * intros ?; simplify_eq. exists p. split; [exact Hp|done].
      * by case_outcomes.
Qed.

(** A returning train_evaluate has trained on
    [train_ds] for the predictor it evaluates, has computed the metrics
    from the predictions of that predictor over [test_ds], and has made
    its library calls in this order: the training on [train_ds], the
    evaluation on [test_ds], then, only with [retrain], the estimator
    renewal and the training on [test_ds]. *)
Lemma train_evaluate_order (self : Model) (w : World) train_ds test_ds
    (make_forecasts retrain : bool) r (self' : Model) (w' : World) :
  train_evaluate train_ds test_ds make_forecasts retrain (self, w) = (Ok r, (self', w')) →
  ∃ p forecasts ts_it agg_metrics item_metrics,
    training_outcome self train_ds = inl p
    ∧ make_evaluation_predictions test_ds p 100 = inl (forecasts, ts_it)
    ∧ Evaluator (min 2 cpu_count) ts_it forecasts (length (list_data test_ds))
        = inl (agg_metrics, item_metrics)
    ∧ _format_metrics self' agg_metrics item_metrics train_ds = Ok r.1
    ∧ trace w' =
        trace w
        ++ [ training_call self train_ds;
             MakeEvaluationPredictions test_ds p;
             Evaluate forecasts (length (list_data test_ds)) ]
        ++ (if retrain
            then [HandlerEstimator (estimator_kwargs self); training_call self' test_ds]
            else [])
        ++ (if make_forecasts
            then [ConcatTimeseriesPerIdentifiers; ConcatAllTimeseries] else []).
Proof.
  unfold train_evaluate, train, _make_evaluation_predictions, clock, set_self, get_self,
    library_call, library, lift, raise.
  repeat (unfold mbind, M_bind, mret, M_ret; simpl; rewrite ?_train_estimator_unfold).
  destruct (training_outcome self train_ds) as [p|] eqn:Hp; simpl; [|by case_outcomes].
  destruct (make_evaluation_predictions test_ds p 100) as [[fs ts_it]|] eqn:Hfs;
    simpl; [|done].
  destruct (Evaluator _ _ _ _) as [[agg item]|] eqn:Hev; simpl; [|done].
  intros Hrun. exists p, fs, ts_it, agg, item. split_and!; [done..| |].
  - revert Hrun. destruct retrain; simpl.
    + unfold mbind, M_bind; simpl.
      destruct (handler_estimator _ _ _) as [e|]; simpl; [|done].
      rewrite _train_estimator_unfold; simpl.
      destruct (training_outcome _ test_ds); simpl; [|by case_outcomes].
      destruct (_format_metrics _ _ _ _) as [[m ids]|] eqn:Hfm; simpl; [|done].
      destruct make_forecasts; case_outcomes; intros ?; by simplify_eq.
    + destruct (_format_metrics _ _ _ _) as [[m ids]|] eqn:Hfm; simpl; [|done].
      destruct make_forecasts; case_outcomes; intros ?; by simplify_eq.
  - revert Hrun. destruct retrain; simpl.
    + unfold mbind, M_bind; simpl.
      destruct (handler_estimator _ _ _) as [e|]; simpl; [|done].
      rewrite _train_estimator_unfold; simpl.
      destruct (training_outcome _ test_ds); simpl; [|by case_outcomes].
      destruct (_format_metrics _ _ _ _) as [[m ids]|] eqn:Hfm; simpl; [|done].
      destruct make_forecasts; case_outcomes; intros ?; simplify_eq; simpl;
        by rewrite <-?(assoc_L (++)).
    + destruct (_format_metrics _ _ _ _) as [[m ids]|] eqn:Hfm; simpl; [|done].
      destruct make_forecasts; case_outcomes; intros ?; simplify_eq; simpl;
        by rewrite <-?(assoc_L (++)).
Qed.

(** Whatever the outcome of train_evaluate, its first library call
    is the training on [train_ds]; a later call that builds or trains a
    model comes after the evaluator has run, and there is none without
    [retrain]. *)
Lemma train_evaluate_retrains_last (self : Model) (w : World) train_ds test_ds
    (make_forecasts retrain : bool) :
  let w' := (train_evaluate train_ds test_ds make_forecasts retrain (self, w)).2.2 in
  ∃ rest,
    trace w' = trace w ++ training_call self train_ds :: rest
    ∧ (retrain = false → Forall (λ c, is_training c = false) rest)
    ∧ (∀ i c, rest !! i = Some c → is_training c = true →
         ∃ j c', j < i ∧ rest !! j = Some c' ∧ is_evaluation c' = true).
Proof.
  simpl. run_methods.
  destruct retrain, make_forecasts; simpl; case_outcomes;
    rewrite <-?(assoc_L (++)); simpl;
    (eexists; split; [reflexivity|]); simpl;
    (split; [intros ?; simplify_eq; repeat constructor|]);
    intros i c Hi Hc;
    repeat (destruct i as [|i]; simplify_eq/=);
    try (eexists 1, _; split_and!; [lia|reflexivity|reflexivity]).
Qed.
End training_properties.

Section recipe_properties.

Lemma run_prefix (raises : step → bool) (steps : list step) :
  (run raises steps).1 `prefix_of` steps.
Proof.
  induction steps as [|s steps IH]; simpl; [done|].
  destruct (raises s); simpl.
  - by apply prefix_cons, prefix_nil.
  - destruct (run raises steps) as [calls o]. by apply prefix_cons.
Qed.

Lemma run_completed (raises : step → bool) (steps calls : list step) :
  run raises steps = (calls, Completed) → calls = steps.
Proof.
  revert calls. induction steps as [|s steps IH]; intros calls; simpl.
  - by intros [= <-].
  - destruct (raises s); [done|].
    destruct (run raises steps) as [calls' o]. intros [= <- ->].
    f_equal. by apply IH.
Qed.

Lemma before_prefix (a b : step) (calls steps : list step) :
  calls `prefix_of` steps → before a b steps → before a b calls.
Proof.
  intros Hpre Hsteps j Hj.
  destruct (Hsteps j) as (i & Hlt & Hi); [by eapply prefix_lookup_Some|].
  exists i. split; [done|].
  rewrite (prefix_lookup_lt calls steps i); [done| |done].
  apply lookup_lt_Some in Hj. lia.
Qed.

Lemma before_steps (a b : step) (steps : list step) (i : nat) :
  steps !! i = Some a →
  (∀ j, (j ≤ i)%nat → steps !! j ≠ Some b) →
  before a b steps.
Proof.
  intros Ha Hb j Hj. exists i. split; [|done].
  destruct (decide (i < j)); [done|]. destruct (Hb j); [lia|done].
Qed.

(** a call attempted after another one shows that this one was attempted
    and returned *)
Lemma run_after (raises : step → bool) (steps : list step) (i j : nat) (a b : step) :
  NoDup steps → steps !! i = Some a → steps !! j = Some b → i < j →
  b ∈ (run raises steps).1 → a ∈ (run raises steps).1 ∧ raises a = false.
Proof.
  revert i j. induction steps as [|s steps IH]; intros i j Hnodup Ha Hb Hlt; [done|].
  apply NoDup_cons in Hnodup as [Hs Hnodup].
  destruct j as [|j]; [lia|]. simpl in Hb.
  assert (b ≠ s) as Hne by (intros ->; apply Hs; by eapply list_elem_of_lookup_2).
  simpl. destruct (raises s) eqn:Hraises; simpl.
  - by intros ?%list_elem_of_singleton.
  - destruct (run raises steps) as [calls o] eqn:Hrun. simpl in *.
    intros [?|Hin]%elem_of_cons; [done|].
    destruct i as [|i]; simpl in Ha.
    + simplify_eq. split; [by left|done].
    + destruct (IH i j) as [? ?]; [done..|lia|done|]. split; [by right|done].
Qed.

(** a call that returned is followed by the next call of the script *)
Lemma run_continues (raises : step → bool) (steps : list step) (i : nat) (a b : step) :
  NoDup steps → steps !! i = Some a → steps !! S i = Some b →
  a ∈ (run raises steps).1 → raises a = false → b ∈ (run raises steps).1.
Proof.
  revert i. induction steps as [|s steps IH]; intros i Hnodup Ha Hb; [done|].
  apply NoDup_cons in Hnodup as [Hs Hnodup]. simpl in Hb.
  simpl. destruct i as [|i]; simpl in Ha.
  - simplify_eq. intros _ ->.
    destruct steps as [|b' steps]; simplify_eq/=.
    destruct (raises b); simpl; [by right; left|].
    destruct (run raises steps). by right; left.
  - assert (a ≠ s) as Hne by (intros ->; apply Hs; by eapply list_elem_of_lookup_2).
    destruct (raises s); simpl.
    + by intros ?%list_elem_of_singleton.
    + destruct (run raises steps) as [calls o] eqn:Hrun. simpl in *.
      intros [?|Hin]%elem_of_cons Hreturns; [done|]. right. by eapply IH.
Qed.

Lemma recipe_steps_NoDup (make_forecasts : bool) : NoDup (recipe_steps make_forecasts).
Proof. destruct make_forecasts; by computed. Qed.

(** in the recipe, what is attempted from fit_all on shows that
    evaluate_all returned, fit_all follows an evaluate_all that returned,
    and a completed run has done them all *)
Lemma recipe_evaluation_returned (make_forecasts : bool) (raises : step → bool) :
  let calls := (recipe make_forecasts raises).1 in
  (∀ s, s ∈ [ FitAll; SaveAll; WriteWithSchema evaluation_dataset;
              WriteWithSchema evaluation_forecasts ] →
     s ∈ calls → EvaluateAll ∈ calls ∧ raises EvaluateAll = false)
  ∧ (EvaluateAll ∈ calls → raises EvaluateAll = false → FitAll ∈ calls)
  ∧ ((recipe make_forecasts raises).2 = Completed →
       EvaluateAll ∈ calls ∧ FitAll ∈ calls ∧ SaveAll ∈ calls
       ∧ WriteWithSchema evaluation_dataset ∈ calls).
Proof.
  simpl. pose proof (recipe_steps_NoDup make_forecasts) as Hnodup.
  pose proof (run_prefix raises (recipe_steps make_forecasts)) as Hpre.
  unfold recipe. split_and!.
  - intros s Hs Hin.
    assert (∃ j, 8 < j ∧ recipe_steps make_forecasts !! j = Some s) as (j & Hlt & Hj).
    { apply list_elem_of_lookup in Hin as [j Hj].
      pose proof (prefix_lookup_Some _ _ _ _ Hj Hpre) as Hj'.
      exists j. split; [|done].
      destruct (decide (8 < j)) as [|Hle]; [done|].
      repeat (apply elem_of_cons in Hs as [->|Hs]); [..|by apply elem_of_nil in Hs];
        do 9 (destruct j as [|j]; [by destruct make_forecasts|]); lia. }
    by apply (run_after raises _ 8 j EvaluateAll s).
  - apply (run_continues raises _ 8); try done; by destruct make_forecasts.
  - destruct (run raises (recipe_steps make_forecasts)) as [calls o] eqn:Hrun.
    simpl. intros ->. apply run_completed in Hrun as ->.
    split_and!; destruct make_forecasts; by computed.
Qed.

Lemma recipe_evaluates_first (make_forecasts : bool) (raises : step → bool) :
  let calls := (recipe make_forecasts raises).1 in
  before EvaluateAll FitAll calls
  ∧ before EvaluateAll SaveAll calls
  ∧ ∀ dataset, before EvaluateAll (WriteWithSchema dataset) calls.
Proof.
  simpl. split_and!; [| |intros dataset];
    apply (before_prefix _ _ _ (recipe_steps make_forecasts)), before_steps with 8;
    try apply run_prefix; try (by destruct make_forecasts);
    intros j Hle; do 9 (destruct j as [|j]; [done|]); lia.
Qed.

(** C6: in a completed run of the recipe the evaluation dataset is
    written and its column descriptions are set afterwards; the forecasts
    dataset is written, and then described, exactly when [make_forecasts]
    holds.  Without [make_forecasts] no run, completed or not, fetches,
    writes or describes the forecasts. *)
Theorem column_description_bookkeeping (make_forecasts : bool) (raises : step → bool) :
  (∀ calls, recipe make_forecasts raises = (calls, Completed) →
     WriteWithSchema evaluation_dataset ∈ calls
     ∧ SetColumnDescription evaluation_dataset ∈ calls
     ∧ before (WriteWithSchema evaluation_dataset)
         (SetColumnDescription evaluation_dataset) calls
     ∧ (WriteWithSchema evaluation_forecasts ∈ calls ↔ make_forecasts = true)
     ∧ (SetColumnDescription evaluation_forecasts ∈ calls ↔ make_forecasts = true)
     ∧ before (WriteWithSchema evaluation_forecasts)
         (SetColumnDescription evaluation_forecasts) calls)
  ∧ (make_forecasts = false →
     ∀ s, s ∈ (recipe make_forecasts raises).1 →
       s ∉ [ GetEvaluationForecastsDf; WriteWithSchema evaluation_forecasts;
             CreateEvaluationForecastsColumnDescription;
             SetColumnDescription evaluation_forecasts ]).
Proof.
  split.
  - intros calls ->%run_completed. split_and!.
    + destruct make_forecasts; by computed.
    + destruct make_forecasts; by computed.
    + apply before_steps with 12; [by destruct make_forecasts|].
      intros j Hle. do 13 (destruct j as [|j]; [by destruct make_forecasts|]). lia.
    + destruct make_forecasts; split; [done|by computed| |done].
      intros Hin. apply (bool_decide_pack _) in Hin. by vm_compute in Hin.
    + destruct make_forecasts; split; [done|by computed| |done].
      intros Hin. apply (bool_decide_pack _) in Hin. by vm_compute in Hin.
    + destruct make_forecasts.
      * apply before_steps with 16; [done|].
        intros j Hle. do 17 (destruct j as [|j]; [done|]). lia.
      * intros j Hj. repeat (destruct j as [|j]; simplify_eq/=).
  - intros -> s Hs Hforecast.
    assert (s ∈ recipe_steps false) as Hin.
    { destruct (run_prefix raises (recipe_steps false)) as [k Hk].
      unfold recipe in Hs. rewrite Hk. apply elem_of_app. by left. }
    repeat (apply elem_of_cons in Hforecast as [->|Hforecast]);
      try (apply (bool_decide_pack _) in Hin; by vm_compute in Hin).
    by apply elem_of_nil in Hforecast.
Qed.
End recipe_properties.

Section returning_properties.
Context `{External}.

(** train_evaluate, called without forecasts and without retraining,
    returns as soon as the training, the evaluation and the formatting of
    the metrics do. *)
Lemma train_evaluate_returns (self : Model) (w : World) train_ds test_ds
    p forecasts ts_it agg_metrics item_metrics metrics ids :
  training_outcome self train_ds = inl p →
  make_evaluation_predictions test_ds p 100 = inl (forecasts, ts_it) →
  Evaluator (min 2 cpu_count) ts_it forecasts (length (list_data test_ds))
    = inl (agg_metrics, item_metrics) →
  _format_metrics
    (with_evaluation_time
       (fsub (perf_counter (S (ticks w))) (perf_counter (ticks w))) self)
    agg_metrics item_metrics train_ds = Ok (metrics, ids) →
  (train_evaluate train_ds test_ds false false (self, w)).1 = Ok (metrics, ids, None).
Proof.
  intros Hp Hfs Hev Hformat.
  unfold train_evaluate, train, _make_evaluation_predictions, clock, set_self, get_self,
    library_call, library, lift, raise.
  revert Hev. generalize (min 2 cpu_count). intros workers Hev.
  repeat (unfold mbind, M_bind, mret, M_ret; simpl; rewrite ?_train_estimator_unfold).
  rewrite Hp. simpl. rewrite Hfs. simpl. rewrite Hev. simpl. by rewrite Hformat.
Qed.
End returning_properties.

Section order_properties.
Context `{External}.

(** C3: a returning train_evaluate has trained the predictor it
    evaluates on [train_ds], has computed its metrics from the predictions
    of that predictor over [test_ds], and has retrained, on [test_ds],
    only after that and only with [retrain]; whatever the outcome, a call
    that builds or trains a model after the first training comes after the
    evaluator has run and is absent without [retrain].  In every run of
    the recipe evaluate_all comes before fit_all, save_all and the writing
    of an output dataset; when one of these is attempted evaluate_all has
    been attempted and has returned; fit_all is attempted as soon as
    evaluate_all has returned; and a completed run has evaluated, fitted
    and saved the models and written the evaluation dataset. *)
Theorem evaluation_before_retraining :
  (∀ (self : Model) (w : World) train_ds test_ds make_forecasts retrain r self' w',
     train_evaluate train_ds test_ds make_forecasts retrain (self, w)
       = (Ok r, (self', w')) →
     ∃ p forecasts ts_it agg_metrics item_metrics,
       training_outcome self train_ds = inl p
       ∧ make_evaluation_predictions test_ds p 100 = inl (forecasts, ts_it)
       ∧ Evaluator (min 2 cpu_count) ts_it forecasts (length (list_data test_ds))
           = inl (agg_metrics, item_metrics)
       ∧ _format_metrics self' agg_metrics item_metrics train_ds = Ok r.1
       ∧ trace w' =
           trace w
           ++ [ training_call self train_ds;
                MakeEvaluationPredictions test_ds p;
                Evaluate forecasts (length (list_data test_ds)) ]
           ++ (if retrain
               then [HandlerEstimator (estimator_kwargs self); training_call self' test_ds]
               else [])
           ++ (if make_forecasts
               then [ConcatTimeseriesPerIdentifiers; ConcatAllTimeseries] else []))
  ∧ (∀ (self : Model) (w : World) train_ds test_ds make_forecasts retrain,
       let w' := (train_evaluate train_ds test_ds make_forecasts retrain (self, w)).2.2 in
       ∃ rest,
         trace w' = trace w ++ training_call self train_ds :: rest
         ∧ (retrain = false → Forall (λ c, is_training c = false) rest)
         ∧ (∀ i c, rest !! i = Some c → is_training c = true →
              ∃ j c', j < i ∧ rest !! j = Some c' ∧ is_evaluation c' = true))
  ∧ (∀ make_forecasts raises,
       let calls := (recipe make_forecasts raises).1 in
       before EvaluateAll FitAll calls
       ∧ before EvaluateAll SaveAll calls
       ∧ (∀ dataset, before EvaluateAll (WriteWithSchema dataset) calls)
       ∧ (∀ s, s ∈ [ FitAll; SaveAll; WriteWithSchema evaluation_dataset;
                     WriteWithSchema evaluation_forecasts ] →
            s ∈ calls → EvaluateAll ∈ calls ∧ raises EvaluateAll = false)
       ∧ (EvaluateAll ∈ calls → raises EvaluateAll = false → FitAll ∈ calls)
       ∧ ((recipe make_forecasts raises).2 = Completed →
            EvaluateAll ∈ calls ∧ FitAll ∈ calls ∧ SaveAll ∈ calls
            ∧ WriteWithSchema evaluation_dataset ∈ calls)).
Proof.
  split_and!.
  - apply train_evaluate_order.
  - apply train_evaluate_retrains_last.
  - intros make_forecasts raises.
    destruct (recipe_evaluates_first make_forecasts raises) as (? & ? & ?).
    destruct (recipe_evaluation_returned make_forecasts raises) as (? & ? & ?).
    by split_and!.
Qed.
End order_properties.


Lemma evaluation_frame_witness :
  predictor (train Sample.sales true (Sample.deepar_model, Sample.world0)).2.1
    = Some ["deepar"; "revenue"; "revenue"; "visits"]
  ∧ retraining_time (train Sample.sales true (Sample.deepar_model, Sample.world0)).2.1
    = 100%Z.
Proof.
  destruct (proj2 (evaluation_frame (H0 := Sample.external)
                     Sample.deepar_model Sample.world0)
              Sample.sales true
              (train Sample.sales true (Sample.deepar_model, Sample.world0)).2.1
              (train Sample.sales true (Sample.deepar_model, Sample.world0)).2.2)
    as (p & Hp & Hpredictor & Htime).
  { vm_compute. reflexivity. }
  vm_compute in Hp. injection Hp as <-.
  vm_compute in Hpredictor, Htime.
  split; vm_compute; [exact Hpredictor|exact Htime].
Defined.

Lemma evaluation_before_retraining_witness :
  trace Sample.evaluation_run.2.2 =
    [ EstimatorTrain "deepar" Sample.sales;
      MakeEvaluationPredictions Sample.sales_test ["deepar"; "revenue"; "revenue"; "visits"];
      Evaluate ["revenue"; "revenue"; "visits"] 3;
      HandlerEstimator (estimator_kwargs Sample.deepar_model);
      EstimatorTrain "deepar" Sample.sales_test;
      ConcatTimeseriesPerIdentifiers;
      ConcatAllTimeseries ]
  ∧ FitAll ∈ (recipe true (λ _, false)).1
  ∧ EvaluateAll ∈ (recipe false (λ s, bool_decide (s = SaveAll))).1
  ∧ FitAll ∉ (recipe true (λ s, bool_decide (s = EvaluateAll))).1.
Proof.
  destruct (evaluation_before_retraining (H0 := Sample.external))
    as (Hreturns & _ & Hrecipe).
  split_and!.
  - destruct (Hreturns Sample.deepar_model Sample.world0 Sample.sales Sample.sales_test
                true true Sample.evaluation_result Sample.evaluation_run.2.1
                Sample.evaluation_run.2.2)
      as (p & fs & ts_it & agg & item & Hp & Hfs & _ & _ & Htrace).
    { vm_compute. reflexivity. }
    vm_compute in Hp. injection Hp as <-.
    vm_compute in Hfs. injection Hfs as <- <-.
    rewrite Htrace. reflexivity.
  - destruct (Hrecipe true (λ _, false)) as (_ & _ & _ & _ & _ & Hcompleted).
    by destruct Hcompleted as (_ & ? & _).
  - destruct (Hrecipe false (λ s, bool_decide (s = SaveAll))) as (_ & _ & _ & Hafter & _).
    destruct (Hafter SaveAll) as [? _]; [set_solver|by computed|done].
  - destruct (Hrecipe true (λ s, bool_decide (s = EvaluateAll)))
      as (_ & _ & _ & Hafter & _).
    intros Hfit. by destruct (Hafter FitAll) as [_ ?]; [set_solver|done|].
Defined.

Lemma column_description_bookkeeping_witness :
  WriteWithSchema evaluation_forecasts ∈ (recipe true (λ _, false)).1
  ∧ SetColumnDescription evaluation_dataset ∈ (recipe false (λ _, false)).1.
Proof.
  split.
  - apply (proj1 (column_description_bookkeeping true (λ _, false)) _ eq_refl).
    reflexivity.
  - apply (proj1 (column_description_bookkeeping false (λ _, false)) _ eq_refl).
Defined.

Section parameters_properties.
Context `{External}.

Lemma round_div_nearest (a b : Z) :
  (0 ≤ a)%Z → (0 < b)%Z →
  ∃ r, round_div a b = Ok r
    ∧ (2 * Z.abs (b * r - a) ≤ b)%Z
    ∧ ((2 * Z.abs (b * r - a))%Z = b → Z.even r = true).
Proof.
  intros Ha Hb. unfold round_div.
  rewrite decide_False by lia.
  pose proof (Z.div_mod a b ltac:(lia)) as Hdiv.
  pose proof (Z.mod_pos_bound a b Hb) as Hmod.
  set (q := (a / b)%Z) in *. set (m := (a mod b)%Z) in *.
  eexists; split; [done|].
  repeat case_decide.
  - split; [nia|]. intros ?. exfalso. nia.
  - split; [nia|]. intros ?. exfalso. nia.
  - destruct (Z.even q) eqn:Hq; (split; [nia|]); [done|].
    intros _. by rewrite Z.even_add, Hq.
Qed.

(** the entries _get_model_parameters_json adds after the fixed seven *)
Lemma model_parameters_fields (self : Model) (ds : ListDataset) (s : string) :
  _get_model_parameters_json self ds = Ok s →
  ∃ fields average,
    s = json_dumps (JObject fields)
    ∧ round_div (Z.of_nat (total_target_length ds)) (Z.of_nat (length (list_data ds)))
        = Ok average
    ∧ NoDup (keys fields)
    ∧ dict_get "timeseries_number" fields = Some (JInt (Z.of_nat (length (list_data ds))))
    ∧ dict_get "timeseries_average_length" fields = Some (JInt average).
Proof.
  unfold _get_model_parameters_json. fold (total_target_length ds).
  intros (average & Havg & Hs)%bind_Ok. injection Hs as <-.
  eexists _, average. split; [reflexivity|]. split; [done|].
  split_and!.
  - repeat match goal with
           | |- context [match ?x with _ => _ end] => destruct x
           end;
      repeat apply NoDup_keys_dict_set;
      apply (bool_decide_unpack _); by vm_compute.
  - repeat match goal with
           | |- context [match ?x with _ => _ end] => destruct x
           end;
      rewrite ?dict_get_set_ne by done; reflexivity.
  - repeat match goal with
           | |- context [match ?x with _ => _ end] => destruct x
           end;
      rewrite ?dict_get_set_ne by done; reflexivity.
Qed.

Lemma get_model_parameters_total (self : Model) (ds : ListDataset) :
  list_data ds ≠ [] → is_Ok (_get_model_parameters_json self ds).
Proof.
  intros Hne. unfold _get_model_parameters_json, round_div.
  rewrite decide_False; [by eexists|].
  destruct (list_data ds); [done|simpl; lia].
Qed.

(** C8: on a dataset with at least one series
    _get_model_parameters_json returns the dump of a JSON object, with
    distinct keys, whose "timeseries_number" is the number of series and
    whose "timeseries_average_length" is an integer nearest to the total
    target length divided by that number, the even one when two are
    equally near; on a dataset without series it raises ZeroDivisionError. *)
Theorem parameters_json_counts (self : Model) (ds : ListDataset) :
  let n := Z.of_nat (length (list_data ds)) in
  let total := Z.of_nat (total_target_length ds) in
  (list_data ds ≠ [] →
     ∃ fields average,
       _get_model_parameters_json self ds = Ok (json_dumps (JObject fields))
       ∧ NoDup (keys fields)
       ∧ dict_get "timeseries_number" fields = Some (JInt n)
       ∧ dict_get "timeseries_average_length" fields = Some (JInt average)
       ∧ (2 * Z.abs (n * average - total) ≤ n)%Z
       ∧ ((2 * Z.abs (n * average - total))%Z = n → Z.even average = true))
  ∧ (list_data ds = [] → _get_model_parameters_json self ds = Raise ZeroDivisionError).
Proof.
  simpl. split.
  - intros Hne.
    destruct (round_div_nearest (Z.of_nat (total_target_length ds))
                (Z.of_nat (length (list_data ds)))) as (r & Hr & Hnear & Heven); [lia| |].
    { destruct (list_data ds); [done|simpl; lia]. }
    destruct (_get_model_parameters_json self ds) as [s|e] eqn:Hjson.
    + destruct (model_parameters_fields self ds s Hjson)
        as (fields & average & -> & Havg & Hnodup & Hnum & Hlen).
      rewrite Hr in Havg. injection Havg as <-. by exists fields, r.
    + unfold _get_model_parameters_json in Hjson. fold (total_target_length ds) in Hjson.
      by rewrite Hr in Hjson.
  - intros Hnil. unfold _get_model_parameters_json. by rewrite Hnil.
Qed.
End parameters_properties.

Lemma parameters_json_counts_witness :
  list_data Sample.sales ≠ []
  ∧ _get_model_parameters_json Sample.deepar_model Sample.sales
    = Ok "{model_name, frequency, prediction_length, use_external_features, timeseries_number, timeseries_average_length, model_parameters, epoch, batch_size, num_batches_per_epoch, mxnet.context}"
  ∧ _get_model_parameters_json Sample.deepar_model Sample.empty = Raise ZeroDivisionError.
Proof.
  split; [done|].
  destruct (parameters_json_counts (H0 := Sample.external) Sample.deepar_model Sample.sales)
    as [Hsome _].
  destruct Hsome as (fields & average & Hjson & _); [done|].
  split; [reflexivity|].
  apply (proj2 (parameters_json_counts (H0 := Sample.external)
                  Sample.deepar_model Sample.empty)).
  reflexivity.
Defined.

Section median_properties.
Context `{External}.
Implicit Types (d : list (option (list (string * cell)) * list Series)).
Implicit Types (x y z : nat * (Forecast * timeseries)).
Implicit Types (D : list (option (list (string * cell)) * list (nat * (Forecast * timeseries)))).

Global Instance item_le_total : Total item_le.
Proof. intros a b. unfold item_le. apply (total String.le). Qed.
Global Instance item_le_trans : Transitive item_le.
Proof. intros a b c. unfold item_le. apply (transitivity (R := String.le)). Qed.



Lemma median_forecasts_loop_fold (self : Model) (ds : ListDataset) fs i d :
  (i + length fs ≤ length (list_data ds))%nat →
  median_forecasts_loop self ds i fs d
    = Ok (foldl (add_median_series self) d (zip fs (drop i (list_data ds)))).
Proof.
  revert i d. induction fs as [|f fs IH]; intros i d Hlen; simpl; [done|].
  simpl in Hlen. unfold list_item.
  destruct (list_data ds !! i) as [ts|] eqn:Hts; simpl.
  - rewrite (drop_S _ _ _ Hts). simpl. apply IH. lia.
  - apply lookup_ge_None in Hts. lia.
Qed.












End median_properties.


Section frame_properties.
Context `{Carriers}.
Implicit Types (df : DataFrame) (c : string) (vs : list cell) (agg : list (string * cell)).

Lemma dict_item_Ok {V} (k : string) (d : list (string * V)) (v : V) :
  dict_item k d = Ok v ↔ dict_get k d = Some v.
Proof. unfold dict_item. destruct (dict_get k d); naive_solver. Qed.

Lemma df_set_scalar_names df c v c' :
  c' ∈ df_names (df_set_scalar c v df) ↔ c' = c ∨ c' ∈ df_names df.
Proof. apply elem_of_keys_dict_set. Qed.

Lemma df_set_scalar_column_eq df c v :
  df_column c (df_set_scalar c v df) = Some (replicate (df_nrows df) v).
Proof. apply dict_get_set_eq. Qed.

Lemma df_set_scalar_column_ne df c c' v :
  c ≠ c' → df_column c' (df_set_scalar c v df) = df_column c' df.
Proof. apply dict_get_set_ne. Qed.

(** a list of the frame's length is stored as it is *)
Lemma df_set_list_fit df c vs :
  length vs = df_nrows df →
  df_set_list c vs df
    = Ok {| df_nrows := df_nrows df; df_columns := dict_set c vs (df_columns df) |}.
Proof. intros Hlen. unfold df_set_list. by rewrite decide_True. Qed.

Lemma df_set_list_nrows df df' c vs :
  df_set_list c vs df = Ok df' → df_nrows df' = length vs.
Proof.
  unfold df_set_list. repeat case_decide; intros ?; simplify_eq; simpl; congruence.
Qed.

Lemma df_set_list_column_eq df df' c vs :
  df_set_list c vs df = Ok df' → df_column c df' = Some vs.
Proof.
  unfold df_set_list, df_column.
  repeat case_decide; intros ?; simplify_eq; simpl; apply dict_get_set_eq.
Qed.

Lemma dict_get_fmap_values {A B} (f : string * A → B) (d : list (string * A)) c :
  dict_get c ((λ kv, (kv.1, f kv)) <$> d) = (λ v, f (c, v)) <$> dict_get c d.
Proof.
  induction d as [|[k v] d IH]; csimpl; [done|].
  destruct (decide (k = c)) as [->|]; [done|apply IH].
Qed.

Lemma keys_fmap_values {A B} (f : string * A → B) (d : list (string * A)) :
  keys ((λ kv, (kv.1, f kv)) <$> d) = keys d.
Proof. unfold keys. rewrite <-list_fmap_compose. by apply list_fmap_ext. Qed.

Lemma dict_get_app_l {V} (d1 d2 : list (string * V)) c v :
  dict_get c d1 = Some v → dict_get c (d1 ++ d2) = Some v.
Proof.
  induction d1 as [|[k w] d1 IH]; simpl; [done|].
  destruct (decide (k = c)); [done|apply IH].
Qed.

Lemma df_append_nrows agg df : df_nrows (df_append agg df) = S (df_nrows df).
Proof. done. Qed.

Lemma df_append_column df agg c vs :
  df_column c df = Some vs →
  df_column c (df_append agg df) = Some (vs ++ [default NaN (dict_get c agg)]).
Proof.
  unfold df_column, df_append. intros Hc. simpl.
  apply dict_get_app_l.
  by rewrite (dict_get_fmap_values (λ kv, kv.2 ++ [default NaN (dict_get kv.1 agg)])), Hc.
Qed.

Lemma df_append_names df agg c :
  c ∈ df_names (df_append agg df) ↔ c ∈ df_names df ∨ c ∈ keys agg.
Proof.
  unfold df_names, df_append, keys. simpl.
  rewrite fmap_app, elem_of_app, <-!list_fmap_compose, !list_elem_of_fmap.
  setoid_rewrite list_elem_of_filter.
  split.
  - intros [(kv & -> & Hkv)|(kv & -> & _ & Hkv)]; [left|right]; by exists kv.
  - intros [(kv & -> & Hkv)|(kv & -> & Hkv)]; [left; by exists kv|].
    destruct (decide (kv.1 ∈ (df_columns df).*1)) as [Hold|Hnew].
    + left. apply list_elem_of_fmap in Hold as (kv' & Heq & Hkv'). by exists kv'.
    + right. by exists kv.
Qed.

Lemma select_columns_Ok (names : list string) columns selected :
  select_columns names columns = Ok selected →
  keys selected = names
  ∧ (∀ c, c ∈ names → dict_get c selected = dict_get c columns)
  ∧ (∀ c, c ∈ names → c ∈ keys columns).
Proof.
  revert selected. induction names as [|c names IH]; intros selected; simpl.
  - intros [= <-]. split_and!; [done|intros ? []%elem_of_nil..].
  - intros (vs & Hvs%dict_item_Ok & Hrest)%bind_Ok.
    apply bind_Ok in Hrest as (rest & Hrest & [= <-]).
    destruct (IH _ Hrest) as (IH1 & IH2 & IH3). split_and!.
    + simpl. by rewrite IH1.
    + intros c' Hc'. simpl. destruct (decide (c = c')) as [->|Hne]; [done|].
      apply elem_of_cons in Hc' as [?|?]; [congruence|by apply IH2].
    + intros c' [->|?]%elem_of_cons; [by eapply dict_get_Some_keys|by apply IH3].
Qed.

Lemma select_columns_total (names : list string) columns :
  (∀ c, c ∈ names → c ∈ keys columns) → is_Ok (select_columns names columns).
Proof.
  induction names as [|c names IH]; intros Hin; simpl; [by eexists|].
  destruct (proj2 (dict_get_is_Some columns c)) as [vs Hvs]; [apply Hin; by left|].
  destruct IH as [rest Hrest]; [intros; apply Hin; by right|].
  unfold dict_item. rewrite Hvs. simpl. rewrite Hrest. by eexists.
Qed.

Lemma df_select_Ok (names : list string) df df' :
  df_select names df = Ok df' →
  df_nrows df' = df_nrows df
  ∧ df_names df' = names
  ∧ (∀ c, c ∈ names → df_column c df' = df_column c df)
  ∧ (∀ c, c ∈ names → c ∈ df_names df).
Proof.
  unfold df_select. intros (cols & Hcols & [= <-])%bind_Ok.
  destruct (select_columns_Ok _ _ _ Hcols) as (? & ? & ?). by split_and!.
Qed.

Lemma df_select_total (names : list string) df :
  (∀ c, c ∈ names → c ∈ df_names df) → is_Ok (df_select names df).
Proof.
  intros Hin. unfold df_select.
  destruct (select_columns_total names (df_columns df) Hin) as [cols ->].
  by eexists.
Qed.
End frame_properties.

Section columns_properties.
Context `{External}.
Implicit Types (ts : timeseries) (cs : list string) (iv : list (string * list cell)).

Lemma add_identifiers_values_Ok ts cs iv iv' :
  add_identifiers_values ts cs iv = Ok iv' → NoDup cs →
  keys iv' = keys iv
  ∧ (∀ c, c ∈ cs → ∃ vs w,
       dict_get c iv = Some vs ∧ identifier_value c ts = Some w
       ∧ dict_get c iv' = Some (vs ++ [w]))
  ∧ (∀ c, c ∉ cs → dict_get c iv' = dict_get c iv).
Proof.
  revert iv. induction cs as [|c cs IH]; intros iv; simpl.
  - intros [= <-] _. split_and!; [done| |done]. by intros ? ?%elem_of_nil.
  - intros (vs & Hvs%dict_item_Ok & Hrun)%bind_Ok [Hc Hcs]%NoDup_cons.
    apply bind_Ok in Hrun as (ids & Hids & Hrun).
    apply bind_Ok in Hrun as (w & Hw%dict_item_Ok & Hrun).
    destruct (IH _ Hrun Hcs) as (IH1 & IH2 & IH3).
    assert (identifier_value c ts = Some w) as Hvalue.
    { unfold identifier_value. destruct (identifiers ts); by simplify_eq/=. }
    split_and!.
    + rewrite IH1. apply keys_dict_set_elem. by eapply dict_get_Some_keys.
    + intros c' [->|Hc']%elem_of_cons.
      * exists vs, w. by rewrite IH3, dict_get_set_eq.
      * destruct (IH2 c' Hc') as (vs' & w' & Hget & ? & ?).
        exists vs', w'. rewrite dict_get_set_ne in Hget by set_solver. done.
    + intros c' [Hne Hc']%not_elem_of_cons.
      by rewrite IH3, dict_get_set_ne.
Qed.

Lemma add_identifiers_values_total ts cs iv :
  (∀ c, c ∈ cs → c ∈ keys iv ∧ is_Some (identifier_value c ts)) →
  is_Ok (add_identifiers_values ts cs iv).
Proof.
  revert iv. induction cs as [|c cs IH]; intros iv Hcs; simpl; [by eexists|].
  destruct (Hcs c) as [[vs Hvs]%dict_get_is_Some [w Hw]]; [by left|].
  unfold identifier_value in Hw.
  rewrite (proj2 (dict_item_Ok c iv vs) Hvs). simpl.
  destruct (identifiers ts) as [ids|]; [|done]. simpl in *.
  rewrite (proj2 (dict_item_Ok c ids w) Hw). simpl. apply IH.
  intros c' Hc'. destruct (Hcs c') as [? ?]; [by right|].
  split; [|done]. apply elem_of_keys_dict_set. by right.
Qed.

Lemma collect_columns_Ok (tss : list timeseries) cs (tc tc' : list string) iv iv' :
  collect_columns tss cs tc iv = Ok (tc', iv') → NoDup cs →
  tc' = tc ++ (target_name <$> tss)
  ∧ keys iv' = keys iv
  ∧ (∀ c vs, c ∈ cs → dict_get c iv = Some vs →
       ∃ ws, dict_get c iv' = Some (vs ++ ws)
         ∧ Forall2 (λ ts w, identifier_value c ts = Some w) tss ws).
Proof.
  revert tc iv. induction tss as [|ts tss IH]; intros tc iv; simpl.
  - intros [= <- <-] _. split_and!; [by rewrite (right_id_L [] (++))|done|].
    intros c vs _ Hvs. exists []. by rewrite (right_id_L [] (++)).
  - intros (iv1 & Hiv1 & Hrun)%bind_Ok Hcs.
    destruct (add_identifiers_values_Ok _ _ _ _ Hiv1 Hcs) as (A1 & A2 & A3).
    destruct (IH _ _ Hrun Hcs) as (IH1 & IH2 & IH3).
    split_and!.
    + by rewrite IH1, <-(assoc_L (++)).
    + by rewrite IH2.
    + intros c vs Hc Hvs.
      destruct (A2 c Hc) as (vs' & w & Hvs' & Hw & Hget). simplify_eq.
      destruct (IH3 c _ Hc Hget) as (ws & Hws & Hall).
      exists (w :: ws). split; [by rewrite Hws, <-(assoc_L (++))|by constructor].
Qed.

Lemma collect_columns_total (tss : list timeseries) cs (tc : list string) iv :
  (∀ c, c ∈ cs → c ∈ keys iv) →
  (∀ ts c, ts ∈ tss → c ∈ cs → is_Some (identifier_value c ts)) →
  NoDup cs →
  is_Ok (collect_columns tss cs tc iv).
Proof.
  revert tc iv. induction tss as [|ts tss IH]; intros tc iv Hkeys Hvalues Hcs; simpl.
  - by eexists.
  - destruct (add_identifiers_values_total ts cs iv) as [iv1 Hiv1].
    { intros c Hc. split; [by apply Hkeys|]. apply Hvalues; [by left|done]. }
    rewrite Hiv1. simpl.
    destruct (add_identifiers_values_Ok _ _ _ _ Hiv1 Hcs) as (A1 & _).
    apply IH; [|intros; apply Hvalues; [by right|done]|done].
    intros c Hc. rewrite A1. by apply Hkeys.
Qed.

Lemma set_identifiers_columns_Ok cs iv (item item' : DataFrame)
    (agg agg' : list (string * cell)) :
  set_identifiers_columns cs iv item agg = Ok (item', agg') → NoDup cs →
  (∀ c vs, c ∈ cs → dict_get c iv = Some vs → length vs = df_nrows item) →
  df_nrows item' = df_nrows item
  ∧ (∀ c, c ∈ cs → is_Some (dict_get c iv) ∧ df_column c item' = dict_get c iv)
  ∧ (∀ c, c ∉ cs → df_column c item' = df_column c item)
  ∧ (∀ c, c ∈ cs → dict_get c agg' = Some (CStr METRICS_DATASET.AGGREGATED_ROW))
  ∧ (∀ c, c ∉ cs → dict_get c agg' = dict_get c agg).
Proof.
  revert item agg. induction cs as [|c cs IH]; intros item agg; simpl.
  - intros [= <- <-] _ _. split_and!; try done; by intros ? ?%elem_of_nil.
  - intros (vs & Hvs%dict_item_Ok & Hrun)%bind_Ok [Hc Hcs]%NoDup_cons Hlen.
    apply bind_Ok in Hrun as (item1 & Hitem1 & Hrun).
    rewrite df_set_list_fit in Hitem1 by (eapply Hlen; [by left|done]).
    injection Hitem1 as <-.
    destruct (IH _ _ Hrun Hcs) as (IH1 & IH2 & IH3 & IH4 & IH5).
    { intros c' vs' Hc' Hvs'. simpl. eapply Hlen; [by right|done]. }
    simpl in *. split_and!.
    + done.
    + intros c' [->|Hc']%elem_of_cons; [|by apply IH2].
      split; [by eexists|]. rewrite IH3 by done.
      unfold df_column. simpl. by rewrite dict_get_set_eq.
    + intros c' [Hne Hc']%not_elem_of_cons. rewrite IH3 by done.
      unfold df_column. simpl. by rewrite dict_get_set_ne.
    + intros c' [->|Hc']%elem_of_cons; [|by apply IH4].
      by rewrite IH5, dict_get_set_eq.
    + intros c' [Hne Hc']%not_elem_of_cons. by rewrite IH5, dict_get_set_ne.
Qed.

Lemma set_identifiers_columns_total cs iv (item : DataFrame) (agg : list (string * cell)) :
  (∀ c, c ∈ cs → ∃ vs, dict_get c iv = Some vs ∧ length vs = df_nrows item) →
  is_Ok (set_identifiers_columns cs iv item agg).
Proof.
  revert item agg. induction cs as [|c cs IH]; intros item agg Hcs; simpl; [by eexists|].
  destruct (Hcs c) as (vs & Hvs & Hlen); [by left|].
  rewrite (proj2 (dict_item_Ok c iv vs) Hvs). simpl.
  rewrite df_set_list_fit by done. simpl.
  apply IH. intros c' Hc'. simpl. apply Hcs. by right.
Qed.
End columns_properties.

Section metrics_properties.
Context `{External}.
Import METRICS_DATASET.

Lemma format_metrics_ids (self : Model) (agg : list (string * cell)) (item : DataFrame)
    (ds : ListDataset) (metrics : DataFrame) (ids : list string) :
  _format_metrics self agg item ds = Ok (metrics, ids) → ids = first_identifiers ds.
Proof.
  unfold _format_metrics, first_identifiers, list_item. intros Hrun.
  apply bind_Ok in Hrun as (first & Hfirst & Hrun).
  destruct (list_data ds) as [|ts tss]; [done|]. simpl in Hfirst. simplify_eq.
  apply bind_Ok in Hrun as ([targets iv] & _ & Hrun).
  apply bind_Ok in Hrun as (item1 & _ & Hrun).
  apply bind_Ok in Hrun as ([item2 agg2] & _ & Hrun).
  apply bind_Ok in Hrun as (selected & _ & Hrun).
  apply bind_Ok in Hrun as (model_params & _ & Hrun).
  by injection Hrun as _ <-.
Qed.

(** What a returning _format_metrics has built. *)
Lemma format_metrics_Ok (self : Model) (agg : list (string * cell)) (item : DataFrame)
    (ds : ListDataset) (metrics : DataFrame) (ids : list string) :
  _format_metrics self agg item ds = Ok (metrics, ids) → NoDup ids →
  list_data ds ≠ [] ∧ ids = first_identifiers ds
  ∧ df_nrows metrics = S (length (list_data ds))
  ∧ (MODEL_PARAMETERS ∉ metrics_columns ids →
       df_names metrics = metrics_columns ids ++ [MODEL_PARAMETERS])
  ∧ (∀ c, c ∈ ids → c ≠ MODEL_PARAMETERS →
       ∃ values, df_column c metrics = Some (values ++ [CStr AGGREGATED_ROW])
         ∧ Forall2 (λ ts v, identifier_value c ts = Some v) (list_data ds) values)
  ∧ (TARGET_COLUMN ∉ ids → TRAINING_TIME ≠ TARGET_COLUMN →
       df_column TARGET_COLUMN metrics
         = Some (((CStr ∘ target_name) <$> list_data ds) ++ [CStr AGGREGATED_ROW]))
  ∧ (df_nrows item = length (list_data ds) →
     MODEL_COLUMN ∉ ids → TRAINING_TIME ≠ MODEL_COLUMN →
       df_column MODEL_COLUMN metrics
         = Some (replicate (S (length (list_data ds))) (CStr (get_label (model_name self)))))
  ∧ (∃ model_params, _get_model_parameters_json self ds = Ok model_params
       ∧ df_column MODEL_PARAMETERS metrics
           = Some (replicate (S (length (list_data ds))) (CStr model_params))).
Proof.
  unfold _format_metrics. intros Hrun Hids.
  apply bind_Ok in Hrun as (first & Hfirst & Hrun).
  apply bind_Ok in Hrun as ([targets iv] & Hcollect & Hrun).
  apply bind_Ok in Hrun as (item1 & Hitem1 & Hrun).
  apply bind_Ok in Hrun as ([item2 agg2] & Hset & Hrun).
  apply bind_Ok in Hrun as (selected & Hselect & Hrun).
  apply bind_Ok in Hrun as (model_params & Hjson & Hrun).
  injection Hrun as <- <-.
  unfold list_item in Hfirst.
  destruct (list_data ds) as [|ts tss] eqn:Hds; [done|]. simpl in Hfirst. simplify_eq.
  set (cs := match identifiers first with Some d => keys d | None => [] end) in *.
  set (label := CStr (get_label (model_name self))) in *.
  rewrite <-Hds in *. set (n := length (list_data ds)).
  destruct (collect_columns_Ok _ _ _ _ _ _ Hcollect Hids) as (-> & Hkeys & Hvalues).
  simpl in *.
  assert (∀ c, c ∈ cs → ∃ ws, dict_get c iv = Some ws
            ∧ Forall2 (λ ts w, identifier_value c ts = Some w) (list_data ds) ws)
    as Hiv.
  { intros c Hc. apply (Hvalues c [] Hc). by apply dict_get_fromkeys. }
  assert (df_nrows item1 = n) as Hn1.
  { rewrite (df_set_list_nrows _ _ _ _ Hitem1). by rewrite !length_fmap. }
  destruct (set_identifiers_columns_Ok _ _ _ _ _ _ Hset Hids)
    as (Hn2 & Hcol_in & Hcol_out & Hagg_in & Hagg_out).
  { intros c vs Hc Hvs. destruct (Hiv c Hc) as (ws & ? & Hall). simplify_eq.
    rewrite Hn1. symmetry. by eapply Forall2_length. }
  destruct (df_select_Ok _ _ _ Hselect) as (Hn3 & Hnames & Hsel & _).
  split_and!.
  - by rewrite Hds.
  - unfold first_identifiers. by rewrite Hds.
  - simpl. rewrite Hn3. simpl. by rewrite Hn2, Hn1.
  - intros Hfresh. unfold df_names in *. simpl.
    rewrite keys_dict_set_fresh by (by rewrite Hnames). by rewrite Hnames.
  - intros c Hc Hne. destruct (Hiv c Hc) as (ws & Hws & Hall).
    exists ws. split; [|done].
    rewrite df_set_scalar_column_ne by done.
    rewrite Hsel by (unfold metrics_columns; set_solver).
    erewrite df_append_column; [|by rewrite (proj2 (Hcol_in c Hc))].
    by rewrite (Hagg_in c Hc).
  - intros Hout Href.
    rewrite df_set_scalar_column_ne by done.
    rewrite Hsel by (unfold metrics_columns; set_solver).
    erewrite df_append_column;
      [|rewrite Hcol_out by done; by eapply df_set_list_column_eq].
    rewrite Hagg_out by done.
    rewrite dict_get_set_ne, dict_get_set_eq by done. simpl.
    by rewrite list_fmap_compose.
  - intros Hrows Hout Href.
    rewrite df_set_scalar_column_ne by done.
    rewrite Hsel by (unfold metrics_columns; set_solver).
    rewrite df_set_list_fit in Hitem1 by (by rewrite !length_fmap).
    injection Hitem1 as <-.
    erewrite df_append_column.
    2:{ rewrite Hcol_out by done. unfold df_column. simpl.
        rewrite dict_get_set_ne by done. apply dict_get_set_eq. }
    rewrite Hagg_out by done.
    rewrite !dict_get_set_ne, dict_get_set_eq by done. simpl.
    rewrite Hrows. fold n. by rewrite <-replicate_S_end.
  - exists model_params. split; [done|].
    rewrite df_set_scalar_column_eq. by rewrite Hn3, df_append_nrows, Hn2, Hn1.
Qed.

Lemma set_identifiers_columns_names cs iv (item item' : DataFrame)
    (agg agg' : list (string * cell)) c :
  set_identifiers_columns cs iv item agg = Ok (item', agg') → NoDup cs →
  (∀ c vs, c ∈ cs → dict_get c iv = Some vs → length vs = df_nrows item) →
  (c ∈ cs ∨ c ∈ df_names item → c ∈ df_names item')
  ∧ (c ∈ cs ∨ c ∈ keys agg → c ∈ keys agg').
Proof.
  intros Hset Hcs Hlen.
  destruct (set_identifiers_columns_Ok _ _ _ _ _ _ Hset Hcs Hlen)
    as (_ & Hcol_in & Hcol_out & Hagg_in & Hagg_out).
  unfold df_names. rewrite <-!dict_get_is_Some.
  destruct (decide (c ∈ cs)) as [Hc|Hc].
  - split; intros _.
    + destruct (Hcol_in c Hc) as [? Heq]. unfold df_column in Heq. by rewrite Heq.
    + by rewrite Hagg_in.
  - split; (intros [?|?]; [done|]).
    + specialize (Hcol_out c Hc). unfold df_column in Hcol_out. by rewrite Hcol_out.
    + by rewrite Hagg_out.
Qed.

(** When _format_metrics returns. *)
Lemma format_metrics_total (self : Model) (agg : list (string * cell)) (item : DataFrame)
    (ds : ListDataset) :
  list_data ds ≠ [] →
  NoDup (first_identifiers ds) →
  (∀ ts c, ts ∈ list_data ds → c ∈ first_identifiers ds →
     is_Some (identifier_value c ts)) →
  df_nrows item = length (list_data ds) →
  (∀ c, c ∈ keys EVALUATION_METRICS_DESCRIPTIONS → c ∈ df_names item ∨ c ∈ keys agg) →
  is_Ok (_format_metrics self agg item ds).
Proof.
  intros Hne Hids Hvalues Hrows Hkeys. unfold _format_metrics, first_identifiers in *.
  destruct (list_data ds) as [|first tss] eqn:Hds; [done|].
  with_strategy opaque [collect_columns] simpl.
  set (cs := match identifiers first with Some d => keys d | None => [] end) in *.
  set (label := CStr (get_label (model_name self))).
  destruct (collect_columns_total (first :: tss) cs [] ((λ c, (c, [])) <$> cs))
    as [[targets iv] Hcollect]; [|done..|].
  { intros c Hc. apply dict_get_is_Some. rewrite dict_get_fromkeys by done. by eexists. }
  rewrite Hcollect. simpl.
  destruct (collect_columns_Ok (first :: tss) cs _ _ _ _ Hcollect Hids)
    as (-> & _ & Hiv).
  rewrite df_set_list_fit by (simpl in *; by rewrite !length_fmap, Hrows).
  simpl.
  match goal with
  | |- context [set_identifiers_columns cs iv ?i ?a] => set (item1 := i); set (agg1 := a)
  end.
  assert (∀ c vs, c ∈ cs → dict_get c iv = Some vs → length vs = df_nrows item1) as Hlen.
  { intros c vs Hc Hvs.
    destruct (Hiv c [] Hc) as (ws & Hws & Hall); [by apply dict_get_fromkeys|].
    simplify_eq. simpl. rewrite Hrows. symmetry. by apply Forall2_length in Hall. }
  destruct (set_identifiers_columns_total cs iv item1 agg1) as [[item2 agg2] Hset].
  { intros c Hc.
    destruct (Hiv c [] Hc) as (ws & Hws & Hall); [by apply dict_get_fromkeys|].
    exists ws. split; [done|]. by eapply Hlen. }
  rewrite Hset. simpl.
  destruct (df_select_total (metrics_columns cs) (df_append agg2 item2)) as [selected ->].
  { intros c Hc. apply df_append_names.
    pose proof (set_identifiers_columns_names _ _ _ _ _ _ c Hset Hids Hlen) as [Hi Ha].
    unfold metrics_columns in Hc.
    rewrite !elem_of_app, !list_elem_of_singleton in Hc.
    assert (∀ c', c' ∈ keys agg1 ↔
              c' = TRAINING_TIME ∨ c' = TARGET_COLUMN ∨ c' = MODEL_COLUMN ∨ c' ∈ keys agg)
      as Hagg1.
    { intros c'. unfold agg1. by rewrite !elem_of_keys_dict_set. }
    assert (∀ c', c' ∈ df_names item1 ↔
              c' = TARGET_COLUMN ∨ c' = MODEL_COLUMN ∨ c' ∈ df_names item) as Hitem1.
    { intros c'. unfold item1, df_names. simpl. by rewrite !elem_of_keys_dict_set. }
    destruct Hc as [->|[Hc|[->|[Hc| ->]]]].
    - right. apply Ha. right. apply Hagg1. auto.
    - right. apply Ha. by left.
    - right. apply Ha. right. apply Hagg1. auto.
    - destruct (Hkeys c Hc).
      + left. apply Hi. right. apply Hitem1. auto.
      + right. apply Ha. right. apply Hagg1. auto.
    - right. apply Ha. right. apply Hagg1. auto. }
  simpl.
  destruct (get_model_parameters_total self ds) as [model_params Hjson];
    [by rewrite Hds|].
  rewrite Hjson. by eexists.
Qed.

(** C1, as amended.  Take a dataset with at least one series, all of
    which hold a value for each identifier key of the first, none of these
    keys being "model" or "model_params"; an [item_metrics] with one row
    per series; and the eight metric keys each a column of [item_metrics]
    or a key of [agg_metrics].  Then _format_metrics returns a frame with
    one row per series and one more, the aggregated row.  Its columns are,
    in order, target_column, the identifiers columns, model, the eight
    metrics, the training time and model_params.  The target_column holds
    "aggregated" in the last row and, unless an identifier has that name,
    the target names of the series above it; each identifiers column holds
    the values of the series and "aggregated" in the last row; the model
    column holds the label of the model in every row.  The name of the
    training time column is not fixed by constants.py: it is taken to
    differ from "target_column", "model" and "model_params". *)
Theorem format_metrics_shape (self : Model) (agg_metrics : list (string * cell))
    (item_metrics : DataFrame) (ds : ListDataset) :
  list_data ds ≠ [] →
  NoDup (first_identifiers ds) →
  (∀ ts c, ts ∈ list_data ds → c ∈ first_identifiers ds →
     is_Some (identifier_value c ts)) →
  (∀ c, c ∈ [MODEL_COLUMN; MODEL_PARAMETERS] → c ∉ first_identifiers ds) →
  (∀ c, c ∈ [TARGET_COLUMN; MODEL_COLUMN; MODEL_PARAMETERS] → TRAINING_TIME ≠ c) →
  df_nrows item_metrics = length (list_data ds) →
  (∀ c, c ∈ keys EVALUATION_METRICS_DESCRIPTIONS →
     c ∈ df_names item_metrics ∨ c ∈ keys agg_metrics) →
  ∃ metrics,
    _format_metrics self agg_metrics item_metrics ds = Ok (metrics, first_identifiers ds)
    ∧ df_nrows metrics = S (length (list_data ds))
    ∧ df_names metrics =
        [TARGET_COLUMN] ++ first_identifiers ds ++ [MODEL_COLUMN]
        ++ ["MSE"; "MASE"; "MAPE"; "sMAPE"; "MSIS"; "RMSE"; "ND"; "mean_wQuantileLoss"]
        ++ [TRAINING_TIME] ++ [MODEL_PARAMETERS]
    ∧ (∃ values,
         df_column TARGET_COLUMN metrics = Some (values ++ [CStr AGGREGATED_ROW])
         ∧ length values = length (list_data ds)
         ∧ (TARGET_COLUMN ∉ first_identifiers ds →
              values = (CStr ∘ target_name) <$> list_data ds))
    ∧ (∀ c, c ∈ first_identifiers ds →
         ∃ values, df_column c metrics = Some (values ++ [CStr AGGREGATED_ROW])
           ∧ Forall2 (λ ts v, identifier_value c ts = Some v) (list_data ds) values)
    ∧ df_column MODEL_COLUMN metrics
        = Some (replicate (S (length (list_data ds)))
                  (CStr (get_label (model_name self)))).
Proof.
  intros Hne Hids Hvalues Hreserved Htime Hrows Hkeys.
  destruct (format_metrics_total self agg_metrics item_metrics ds)
    as [[metrics ids] Hrun]; [done..|].
  pose proof (format_metrics_ids _ _ _ _ _ _ Hrun) as ->.
  destruct (format_metrics_Ok _ _ _ _ _ _ Hrun Hids)
    as (_ & _ & Hn & Hnames & Hidc & Htarget & Hmodel & _).
  pose proof (Hreserved MODEL_COLUMN ltac:(set_solver)).
  pose proof (Hreserved MODEL_PARAMETERS ltac:(set_solver)).
  pose proof (Htime TARGET_COLUMN ltac:(set_solver)).
  pose proof (Htime MODEL_COLUMN ltac:(set_solver)).
  pose proof (Htime MODEL_PARAMETERS ltac:(set_solver)).
  exists metrics. split_and!; [done|done| | | |by apply Hmodel].
  - rewrite Hnames; [unfold metrics_columns; by rewrite <-!(assoc_L (++))|].
    unfold metrics_columns. rewrite !elem_of_app, !list_elem_of_singleton.
    intros [?|[?|[?|[Hin|?]]]]; try done.
    apply (bool_decide_pack _) in Hin. by vm_compute in Hin.
  - destruct (decide (TARGET_COLUMN ∈ first_identifiers ds)) as [Hin|Hout].
    + destruct (Hidc TARGET_COLUMN Hin) as (values & Hcolumn & Hall); [done|].
      exists values. split_and!; [done| |done].
      symmetry. by eapply Forall2_length.
    + eexists. split_and!; [by apply Htarget| |done]. by rewrite length_fmap.
  - intros c Hc. apply Hidc; [done|]. by intros ->.
Qed.
End metrics_properties.

Lemma format_metrics_shape_witness :
  (∃ metrics,
     _format_metrics Sample.deepar_model Sample.metric_values (Sample.item_frame 3)
       Sample.sales
       = Ok (metrics, ["store"; "country"])
     ∧ df_names metrics =
         [ "target_column"; "store"; "country"; "model"; "MSE"; "MASE"; "MAPE"; "sMAPE";
           "MSIS"; "RMSE"; "ND"; "mean_wQuantileLoss"; "training_time"; "model_params" ]
     ∧ df_column "store" metrics = Some [CInt 1; CInt 2; CInt 1; CStr "aggregated"])
  ∧ (∃ metrics,
       _format_metrics Sample.deepar_model Sample.metric_values (Sample.item_frame 1)
         Sample.named_target
         = Ok (metrics, ["target_column"])
       ∧ df_names metrics =
           [ "target_column"; "target_column"; "model"; "MSE"; "MASE"; "MAPE"; "sMAPE";
             "MSIS"; "RMSE"; "ND"; "mean_wQuantileLoss"; "training_time"; "model_params" ]
       ∧ df_column "target_column" metrics = Some [CStr "A"; CStr "aggregated"]
       ∧ df_column "model" metrics = Some [CStr "deepar"; CStr "deepar"]).
Proof.
  split.
  - destruct (format_metrics_shape (H0 := Sample.external) Sample.deepar_model
                Sample.metric_values (Sample.item_frame 3) Sample.sales)
      as (metrics & Hrun & _ & Hnames & _); [done|by computed| | | |done| |].
    + intros ts c Hts Hc. unfold first_identifiers in Hc. simpl in Hts, Hc.
      repeat (apply elem_of_cons in Hts as [->|Hts]);
        [repeat (apply elem_of_cons in Hc as [->|Hc]); try (by eexists);
         by apply elem_of_nil in Hc..|by apply elem_of_nil in Hts].
    + intros c Hc.
      repeat (apply elem_of_cons in Hc as [->|Hc]); [..|by apply elem_of_nil in Hc];
        intros Hin; apply (bool_decide_pack _) in Hin; by vm_compute in Hin.
    + intros c Hc.
      repeat (apply elem_of_cons in Hc as [->|Hc]); [done..|by apply elem_of_nil in Hc].
    + intros c Hc. right. apply (bool_decide_pack _) in Hc. by apply (bool_decide_unpack _).
    + exists metrics. split; [exact Hrun|]. split; [exact Hnames|].
      vm_compute in Hrun. injection Hrun as <-. reflexivity.
  - destruct (format_metrics_shape (H0 := Sample.external) Sample.deepar_model
                Sample.metric_values (Sample.item_frame 1) Sample.named_target)
      as (metrics & Hrun & _ & Hnames & _ & _ & Hmodel); [done|by computed| | | |done| |].
    + intros ts c Hts Hc. unfold first_identifiers in Hc. simpl in Hts, Hc.
      repeat (apply elem_of_cons in Hts as [->|Hts]);
        [repeat (apply elem_of_cons in Hc as [->|Hc]); try (by eexists);
         by apply elem_of_nil in Hc..|by apply elem_of_nil in Hts].
    + intros c Hc.
      repeat (apply elem_of_cons in Hc as [->|Hc]); [..|by apply elem_of_nil in Hc];
        intros Hin; apply (bool_decide_pack _) in Hin; by vm_compute in Hin.
    + intros c Hc.
      repeat (apply elem_of_cons in Hc as [->|Hc]); [done..|by apply elem_of_nil in Hc].
    + intros c Hc. right. apply (bool_decide_pack _) in Hc. by apply (bool_decide_unpack _).
    + exists metrics. split; [exact Hrun|]. split; [exact Hnames|].
      split; [|exact Hmodel].
      vm_compute in Hrun. injection Hrun as <-. reflexivity.
Defined.

(** C1 as it was stated fails on these inputs: without series
    _format_metrics raises IndexError; when a later series lacks the
    identifiers of the first it raises KeyError; when a metric key is in
    neither [agg_metrics] nor [item_metrics] it raises KeyError; with an
    identifier named "model" the model column holds the identifier, not
    the label; and with an identifier named "model_params" the column of
    that name is not the last one and holds the JSON of the parameters in
    the aggregated row, not "aggregated". *)
Lemma format_metrics_shape_counterexample :
  _format_metrics Sample.deepar_model Sample.metric_values (Sample.item_frame 0) Sample.empty
    = Raise IndexError
  ∧ _format_metrics Sample.deepar_model Sample.metric_values (Sample.item_frame 2)
      Sample.ragged
    = Raise (KeyError "identifiers")
  ∧ (∃ key, _format_metrics Sample.deepar_model [] (Sample.item_frame 3) Sample.sales
              = Raise (KeyError key))
  ∧ (∃ metrics,
       _format_metrics Sample.deepar_model Sample.metric_values (Sample.item_frame 1)
         Sample.named_model
         = Ok (metrics, ["model"])
       ∧ get_label (model_name Sample.deepar_model) = "deepar"
       ∧ df_column "model" metrics = Some [CStr "A"; CStr "aggregated"])
  ∧ ∃ metrics model_params,
      _format_metrics Sample.deepar_model Sample.metric_values (Sample.item_frame 1)
        Sample.named_model_params
        = Ok (metrics, ["model_params"])
      ∧ df_names metrics =
          [ "target_column"; "model_params"; "model"; "MSE"; "MASE"; "MAPE"; "sMAPE";
            "MSIS"; "RMSE"; "ND"; "mean_wQuantileLoss"; "training_time" ]
      ∧ df_column "model_params" metrics = Some [CStr model_params; CStr model_params]
      ∧ model_params ≠ "aggregated".
Proof.
  split; [reflexivity|]. split; [reflexivity|]. split; [by eexists|]. split.
  - eexists. split; [vm_compute; reflexivity|]. split; reflexivity.
  - eexists _, _. split; [vm_compute; reflexivity|].
    split; [reflexivity|]. split; [reflexivity|]. by computed.
Qed.

Section identifiers_properties.
Context `{External}.
Import METRICS_DATASET.

(** C2, as amended.  The keys of the identifiers of the first series
    being distinct, as those of a dict are, a returning train_evaluate
    gives no identifiers column when the first series of the training
    dataset has no identifiers, and otherwise the keys of its identifiers,
    in their order; and each identifiers column not named "model_params"
    then holds, series by series in dataset order, the value of the series
    for that key, followed by "aggregated" in the last row. *)
Theorem identifiers_columns_returned (self : Model) (w : World)
    (train_ds test_ds : ListDataset) (make_forecasts retrain : bool)
    (r : DataFrame * list string * option Frames) (self' : Model) (w' : World) :
  train_evaluate train_ds test_ds make_forecasts retrain (self, w) = (Ok r, (self', w')) →
  NoDup (first_identifiers train_ds) →
  ∃ first,
    head (list_data train_ds) = Some first
    ∧ match identifiers first with
      | None => r.1.2 = []
      | Some ids =>
          r.1.2 = keys ids
          ∧ ∀ c, c ∈ keys ids → c ≠ MODEL_PARAMETERS →
              ∃ values,
                df_column c r.1.1 = Some (values ++ [CStr AGGREGATED_ROW])
                ∧ Forall2 (λ ts v, identifier_value c ts = Some v)
                    (list_data train_ds) values
      end.
Proof.
  intros Hrun Hids.
  destruct (train_evaluate_order _ _ _ _ _ _ _ _ _ Hrun)
    as (p & fs & ts_it & agg & item & _ & _ & _ & Hformat & _).
  destruct r as [[metrics ids] forecasts]. simpl in *.
  pose proof (format_metrics_ids _ _ _ _ _ _ Hformat) as ->.
  destruct (format_metrics_Ok _ _ _ _ _ _ Hformat Hids) as (Hne & _ & _ & _ & Hidc & _).
  unfold first_identifiers in *.
  destruct (list_data train_ds) as [|first tss] eqn:Hds; [done|].
  exists first. split; [done|].
  destruct (identifiers first) as [d|]; [|done].
  split; [done|]. intros c Hc Hne'. by apply Hidc.
Qed.
End identifiers_properties.

Lemma identifiers_columns_returned_witness :
  Sample.evaluation_result.1.2 = ["store"; "country"]
  ∧ df_column "store" Sample.evaluation_result.1.1
    = Some [CInt 1; CInt 2; CInt 1; CStr "aggregated"]
  ∧ df_column "country" Sample.evaluation_result.1.1
    = Some [CStr "FR"; CStr "FR"; CStr "FR"; CStr "aggregated"].
Proof.
  destruct (identifiers_columns_returned (H0 := Sample.external)
              Sample.deepar_model Sample.world0 Sample.sales Sample.sales_test true true
              Sample.evaluation_result Sample.evaluation_run.2.1 Sample.evaluation_run.2.2)
    as (first & Hfirst & Hcolumns).
  { vm_compute. reflexivity. }
  { by computed. }
  injection Hfirst as <-. pose proof (Hcolumns : _ ∧ _) as [Hids _].
  split; [exact Hids|]. split; vm_compute; reflexivity.
Defined.

(** C2 as it was stated fails on an identifier named "model_params":
    train_evaluate returns it among the identifiers columns, but the column
    of that name holds the JSON of the model parameters, not the value "A"
    of the series. *)
Lemma identifiers_columns_returned_counterexample :
  ∃ metrics model_params,
    (train_evaluate Sample.named_model_params Sample.named_model_params false false
       (Sample.deepar_model, Sample.world0)).1
      = Ok (metrics, ["model_params"], None)
    ∧ identifier_value "model_params" (Sample.series "revenue" 5 (Some [("model_params", CStr "A")]))
      = Some (CStr "A")
    ∧ _get_model_parameters_json Sample.deepar_model Sample.named_model_params
      = Ok model_params
    ∧ df_column "model_params" metrics = Some [CStr model_params; CStr model_params].
Proof.
  eexists _, _. split; [vm_compute; reflexivity|].
  split; [reflexivity|]. split; reflexivity.
Qed.

(** * Further properties of the embedded code *)

Section construction_properties.
Context `{External}.

Lemma is_Some_insert {V} (d : gmap string V) (k k' : string) (v : V) :
  is_Some (<[k := v]> d !! k') → k' = k ∨ is_Some (d !! k').
Proof.
  destruct (decide (k = k')) as [->|Hne]; [by left|].
  rewrite lookup_insert_ne by done. by right.
Qed.

Lemma is_Some_update_if {V} (d : gmap string V) (k k' : string) (o : option V) :
  is_Some (update_if k o d !! k') → k' = k ∨ is_Some (d !! k').
Proof. destruct o; simpl; [apply is_Some_insert|by right]. Qed.

Lemma lookup_update_if_eq {V} (d : gmap string V) (k : string) (o : option V) :
  d !! k = None → update_if k o d !! k = o.
Proof. intros Hk. destruct o; simpl; [by rewrite lookup_insert_eq|done]. Qed.

Ltac other_keys :=
  repeat first [rewrite lookup_insert_ne by done | rewrite lookup_update_if_ne by done].

Ltac fresh_key := apply lookup_update_if_eq; other_keys; by rewrite ?lookup_empty.

(** X1, lines 67-74 of model.py: the trainer of a constructed Model is what
    the handler returns for keyword arguments holding the context and the
    epochs it was given, the batch size and the number of batches per
    epoch when these are not None, and nothing else. *)
Theorem init_trainer_kwargs name params freq plen ep uef bs nb sl ctx (m : Model) :
  __init__ name params freq plen ep uef bs nb sl ctx = Ok m →
  ∃ kwargs : gmap string kwval,
    handler_trainer name kwargs = inl (trainer m)
    ∧ kwargs !! "ctx" = Some (KContext ctx)
    ∧ kwargs !! "epochs" = Some (KInt ep)
    ∧ kwargs !! "batch_size" = KInt <$> bs
    ∧ kwargs !! "num_batches_per_epoch" = KInt <$> nb
    ∧ ∀ k, is_Some (kwargs !! k) →
        k ∈ ["ctx"; "epochs"; "batch_size"; "num_batches_per_epoch"].
Proof.
  intros Hm. unfold __init__ in Hm.
  apply bind_Ok in Hm as (_ & _ & Hm).
  apply bind_Ok in Hm as (offset & Hoffset%ext_Ok & Hm).
  apply bind_Ok in Hm as (tr & Htr%ext_Ok & Hm).
  apply bind_Ok in Hm as (est & Hest%ext_Ok & Hm).
  injection Hm as <-. simpl.
  eexists. split; [eassumption|]. split_and!.
  - by other_keys.
  - by other_keys.
  - other_keys. fresh_key.
  - fresh_key.
  - intros k Hk.
    apply is_Some_update_if in Hk as [->|Hk]; [set_solver|].
    apply is_Some_update_if in Hk as [->|Hk]; [set_solver|].
    apply is_Some_insert in Hk as [->|Hk]; [set_solver|].
    apply is_Some_insert in Hk as [->|Hk]; [set_solver|].
    rewrite lookup_empty in Hk. by destruct Hk.
Qed.

(** X2, lines 75-78 of model.py: a constructed Model keeps the mxnet context
    it was given only if the handler gave it a trainer, and then its
    estimator_kwargs hold that trainer; without a trainer the context is
    None and estimator_kwargs have no "trainer" entry. *)
Theorem init_context_needs_trainer name params freq plen ep uef bs nb sl ctx (m : Model) :
  __init__ name params freq plen ep uef bs nb sl ctx = Ok m →
  match trainer m with
  | Some t => mxnet_context m = ctx ∧ estimator_kwargs m !! "trainer" = Some (KTrainer t)
  | None => mxnet_context m = None ∧ estimator_kwargs m !! "trainer" = None
  end.
Proof.
  intros Hm. unfold __init__ in Hm.
  apply bind_Ok in Hm as (_ & _ & Hm).
  apply bind_Ok in Hm as (offset & Hoffset%ext_Ok & Hm).
  apply bind_Ok in Hm as (tr & Htr%ext_Ok & Hm).
  apply bind_Ok in Hm as (est & Hest%ext_Ok & Hm).
  injection Hm as <-. simpl.
  destruct tr as [t|]; simpl; (split; [done|]);
    destruct (uef && can_use_external_feature name), (can_use_seasonality name);
    other_keys; by rewrite ?lookup_insert_eq.
Qed.

(** X3, lines 63-66 and 76-84 of model.py: the estimator of a constructed Model
    is what the handler returns for its model_parameters and its
    estimator_kwargs, and these hold the prediction length, a season length
    exactly when the model can use a seasonality and one was given (zero
    included), and no key besides "freq", "prediction_length", "trainer",
    "season_length" and "use_feat_dynamic_real". *)
Theorem init_estimator_kwargs name params freq plen ep uef bs nb sl ctx (m : Model) :
  __init__ name params freq plen ep uef bs nb sl ctx = Ok m →
  handler_estimator name (model_parameters m) (estimator_kwargs m) = inl (estimator m)
  ∧ model_parameters m = params
  ∧ estimator_kwargs m !! "prediction_length" = Some (KInt plen)
  ∧ estimator_kwargs m !! "season_length"
      = (if can_use_seasonality name then KInt <$> sl else None)
  ∧ ∀ k, is_Some (estimator_kwargs m !! k) →
      k ∈ ["freq"; "prediction_length"; "trainer"; "season_length";
           "use_feat_dynamic_real"].
Proof.
  intros Hm. unfold __init__ in Hm.
  apply bind_Ok in Hm as (_ & _ & Hm).
  apply bind_Ok in Hm as (offset & Hoffset%ext_Ok & Hm).
  apply bind_Ok in Hm as (tr & Htr%ext_Ok & Hm).
  apply bind_Ok in Hm as (est & Hest%ext_Ok & Hm).
  injection Hm as <-. simpl.
  split; [done|]. split; [done|]. split_and!.
  - destruct (uef && can_use_external_feature name), (can_use_seasonality name);
      other_keys; by rewrite lookup_insert_eq.
  - destruct (uef && can_use_external_feature name), (can_use_seasonality name);
      other_keys; rewrite ?lookup_empty; try done; fresh_key.
  - intros k Hk.
    destruct (uef && can_use_external_feature name), (can_use_seasonality name);
      repeat first
        [ apply is_Some_insert in Hk as [->|Hk]; [set_solver|]
        | apply is_Some_update_if in Hk as [->|Hk]; [set_solver|] ];
      rewrite lookup_empty in Hk; by destruct Hk.
Qed.
End construction_properties.

Lemma init_trainer_kwargs_witness :
  ∃ kwargs : gmap string kwval,
    handler_trainer "deepar" kwargs = inl (trainer Sample.deepar_model)
    ∧ kwargs !! "batch_size" = Some (KInt 32)
    ∧ kwargs !! "num_batches_per_epoch" = None.
Proof.
  destruct (init_trainer_kwargs (H0 := Sample.external) "deepar" (JObject []) "W-MON" 7 10
              true (Some 32%Z) None None (Some "cpu") Sample.deepar_model eq_refl)
    as (kwargs & Htrainer & _ & _ & Hbatch & Hnum & _).
  by exists kwargs.
Defined.

Lemma init_context_needs_trainer_witness :
  mxnet_context Sample.deepar_model = Some "cpu"
  ∧ mxnet_context (Seasonal.seasonal_model None) = None.
Proof.
  split.
  - apply (init_context_needs_trainer (H0 := Sample.external) "deepar" (JObject [])
             "W-MON" 7 10 true (Some 32%Z) None None (Some "cpu")
             Sample.deepar_model eq_refl).
  - apply (init_context_needs_trainer (H0 := Seasonal.external) "seasonal_naive"
             (JObject []) "W-MON" 7 10 true None None None (Some "cpu")
             (Seasonal.seasonal_model None) eq_refl).
Defined.

Lemma init_estimator_kwargs_witness :
  estimator_kwargs (Seasonal.seasonal_model (Some 0%Z)) !! "season_length"
    = Some (KInt 0).
Proof.
  apply (init_estimator_kwargs (H0 := Seasonal.external) "seasonal_naive"
           (JObject []) "W-MON" 7 10 true None None (Some 0%Z) (Some "cpu")
           (Seasonal.seasonal_model (Some 0%Z)) eq_refl).
Defined.

Section frequency_properties.
Context `{External}.

Lemma split_dash_head_spec (s : string) :
("-"%char ∉ chars (split_dash_head s))
  ∧ ∃ rest, s = split_dash_head s +:+ rest
      ∧ (rest = EmptyString ∨ ∃ rest', rest = String "-" rest').
Proof.
  induction s as [|c s [IH1 (rest & IH2 & IH3)]]; simpl.
  - split; [apply not_elem_of_nil|]. exists EmptyString. by split; [|left].
  - destruct (decide (c = "-"%char)) as [->|Hne]; simpl.
    + split; [apply not_elem_of_nil|]. exists (String "-" s). split; [done|]. right. eauto.
    + split; [apply not_elem_of_cons; by split|].
      exists rest. split; [|done].
      change (String c s = String c (split_dash_head s +:+ rest)). by f_equal.
Qed.

(** X4, line 56 of model.py: when the frequency parses to a customisable
    offset, the frequency of the constructed Model holds no dash and is the
    name of the offset up to its first dash, the whole name if it has none. *)
Theorem init_frequency_without_dash name params freq plen ep uef bs nb sl ctx
    (m : Model) (offset : Offset) :
  __init__ name params freq plen ep uef bs nb sl ctx = Ok m →
  to_offset freq = inl offset →
  is_customisable offset = true →
  ("-"%char ∉ chars (frequency m))
  ∧ ∃ rest, offset_name offset = frequency m +:+ rest
      ∧ (rest = EmptyString ∨ ∃ rest', rest = String "-" rest').
Proof.
  intros Hm Hoffset Hcustom. unfold __init__ in Hm.
  apply bind_Ok in Hm as (_ & _ & Hm).
  apply bind_Ok in Hm as (offset' & Hoffset'%ext_Ok & Hm).
  apply bind_Ok in Hm as (tr & _ & Hm).
  apply bind_Ok in Hm as (est & _ & Hm).
  injection Hm as <-. simpl.
  rewrite Hoffset in Hoffset'. injection Hoffset' as <-.
  rewrite Hcustom. simpl. apply split_dash_head_spec.
Qed.

(** X5, lines 213-218 of model.py: the keyword arguments _train_estimator
    gives the handler's predictor hold the frequency and the prediction
    length, 100 samples exactly when the model needs samples, a season
    length exactly when the model uses a seasonality and its season length
    is neither None nor zero, and nothing else. *)
Theorem predictor_keyword_arguments (self : Model) (w : World) (ds : ListDataset) :
  estimator self = None →
  ∃ kwargs : gmap string kwval,
    _train_estimator ds (self, w)
      = (ext (handler_predictor (model_name self) kwargs),
         (self, record_call (HandlerPredictor kwargs) w))
    ∧ kwargs !! "freq" = Some (KStr (frequency self))
    ∧ kwargs !! "prediction_length" = Some (KInt (prediction_length self))
    ∧ kwargs !! "num_samples"
        = (if needs_num_samples (model_name self) then Some (KInt 100) else None)
    ∧ (∀ v, kwargs !! "season_length" = Some v ↔
         ∃ n, v = KInt n ∧ use_seasonality self = true
           ∧ season_length self = Some n ∧ n ≠ 0%Z)
    ∧ ∀ k, is_Some (kwargs !! k) →
        k ∈ ["freq"; "prediction_length"; "num_samples"; "season_length"].
Proof.
  intros Hnone. exists (predictor_kwargs self). split.
  { rewrite _train_estimator_unfold. unfold training_outcome, training_call.
    rewrite Hnone. by destruct (handler_predictor _ _). }
  unfold predictor_kwargs.
  destruct (needs_num_samples (model_name self)), (use_seasonality self),
    (season_length self) as [n|]; try case_decide;
    (split_and!;
     [ by repeat (rewrite lookup_insert_ne by done); rewrite lookup_insert_eq
     | by repeat (rewrite lookup_insert_ne by done); rewrite lookup_insert_eq
     | by repeat (rewrite lookup_insert_ne by done);
         rewrite ?lookup_insert_eq, ?lookup_empty
     | intros v; repeat (rewrite lookup_insert_ne by done);
         rewrite ?lookup_insert_eq, ?lookup_empty; naive_solver
     | intros k Hk;
         repeat (apply is_Some_insert in Hk as [->|Hk]; [set_solver|]);
         rewrite lookup_empty in Hk; by destruct Hk ]).
Qed.

(** X6, lines 80-81 against lines 217-218 of model.py: the predictor of a
    constructed Model is given the season length the estimator was given,
    except a season length of zero, which the estimator gets and the
    predictor does not. *)
Theorem season_length_zero_dropped name params freq plen ep uef bs nb sl ctx (m : Model) :
  __init__ name params freq plen ep uef bs nb sl ctx = Ok m →
  predictor_kwargs m !! "season_length"
    = (if decide (sl = Some 0%Z) then None else estimator_kwargs m !! "season_length").
Proof.
  intros Hm. unfold __init__ in Hm.
  apply bind_Ok in Hm as (_ & _ & Hm).
  apply bind_Ok in Hm as (offset & _ & Hm).
  apply bind_Ok in Hm as (tr & _ & Hm).
  apply bind_Ok in Hm as (est & _ & Hm).
  injection Hm as <-. unfold predictor_kwargs. simpl.
  destruct (uef && can_use_external_feature name), (can_use_seasonality name),
    (needs_num_samples name), sl as [n|]; simpl;
    repeat case_decide; simplify_eq;
    repeat first [ rewrite lookup_insert_eq | rewrite lookup_insert_ne by done
                 | rewrite lookup_update_if_ne by done | rewrite lookup_empty ];
    done.
Qed.
End frequency_properties.

Lemma init_frequency_without_dash_witness :
  frequency Sample.deepar_model = "W"
  ∧ ("-"%char ∉ chars (frequency Sample.deepar_model)).
Proof.
  split; [reflexivity|].
  apply (init_frequency_without_dash (H0 := Sample.external) "deepar" (JObject []) "W-MON"
           7 10 true (Some 32%Z) None None (Some "cpu") Sample.deepar_model "W-MON"
           eq_refl eq_refl eq_refl).
Defined.

Lemma predictor_keyword_arguments_witness :
  ∃ kwargs : gmap string kwval,
    (_train_estimator (H0 := Seasonal.external) Sample.sales
       (Seasonal.seasonal_model (Some 52%Z), Sample.world0)).2.2
      = {| ticks := 0; trace := [HandlerPredictor kwargs] |}
    ∧ kwargs !! "num_samples" = Some (KInt 100)
    ∧ kwargs !! "season_length" = Some (KInt 52).
Proof.
  destruct (predictor_keyword_arguments (H0 := Seasonal.external)
              (Seasonal.seasonal_model (Some 52%Z)) Sample.world0 Sample.sales eq_refl)
    as (kwargs & Hrun & _ & _ & Hsamples & Hseason & _).
  exists kwargs. split; [by rewrite Hrun|]. split; [exact Hsamples|].
  apply Hseason. by exists 52%Z.
Defined.

Lemma season_length_zero_dropped_witness :
  estimator_kwargs (Seasonal.seasonal_model (Some 0%Z)) !! "season_length" = Some (KInt 0)
  ∧ predictor_kwargs (H0 := Seasonal.external) (Seasonal.seasonal_model (Some 0%Z))
      !! "season_length" = None.
Proof.
  split; [reflexivity|].
  apply (season_length_zero_dropped (H0 := Seasonal.external) "seasonal_naive"
           (JObject []) "W-MON" 7 10 true None None (Some 0%Z) (Some "cpu")
           (Seasonal.seasonal_model (Some 0%Z)) eq_refl).
Defined.

Section method_effects.
Context `{External}.

Ltac unfold_methods :=
  unfold train_evaluate, train, _make_evaluation_predictions, clock, set_self, get_self,
    library_call, library, lift, raise;
  repeat (unfold mbind, M_bind, mret, M_ret; simpl; rewrite ?_train_estimator_unfold).

Ltac next_outcome :=
  repeat (unfold mbind, M_bind, mret, M_ret; simpl; rewrite ?_train_estimator_unfold).

(** X7, lines 213-225 of model.py: whatever its outcome, _train_estimator
    leaves the Model and the clock as they were and makes one library
    call; an error of Estimator.train that is not an Exception, and any
    error of the handler's predictor, is raised as it is, not wrapped. *)
Theorem train_estimator_effects (self : Model) (w : World) (ds : ListDataset) :
  (_train_estimator ds (self, w)).2
    = (self, {| ticks := ticks w; trace := trace w ++ [training_call self ds] |})
  ∧ (∀ e err, estimator self = Some e → estimator_train e ds = inr err →
       is_Exception err = false →
       (_train_estimator ds (self, w)).1 = Raise (Propagated err))
  ∧ (∀ err, estimator self = None →
       handler_predictor (model_name self) (predictor_kwargs self) = inr err →
       (_train_estimator ds (self, w)).1 = Raise (Propagated err)).
Proof.
  rewrite _train_estimator_unfold. simpl. unfold training_outcome. split_and!.
  - done.
  - intros e err -> -> ->. done.
  - intros err -> ->. done.
Qed.

(** X8, lines 92-103 of model.py: Model.train changes no field but estimator,
    predictor and retraining_time; it keeps the estimator with
    reinit=False; when it raises, predictor and retraining_time are as
    they were, although the estimator may already be the renewed one; and
    it reads the clock twice when it returns and once when it raises. *)
Theorem train_frame (self : Model) (w : World) (ds : ListDataset) (reinit : bool) :
  let r := (train ds reinit (self, w)).1 in
  let self' := (train ds reinit (self, w)).2.1 in
  let w' := (train ds reinit (self, w)).2.2 in
  with_estimator (estimator self)
    (with_predictor (predictor self)
       (with_retraining_time (retraining_time self) self')) = self
  ∧ (reinit = false → estimator self' = estimator self)
  ∧ (r ≠ Ok () →
       predictor self' = predictor self ∧ retraining_time self' = retraining_time self)
  ∧ ticks w' = (if r is Ok _ then S (S (ticks w)) else S (ticks w)).
Proof.
  simpl. destruct reinit; unfold_methods.
  - destruct (handler_estimator _ _ _) as [e|err]; next_outcome.
    + destruct (training_outcome (with_estimator e self) ds) as [p|err] eqn:Hp; simpl.
      * by destruct self.
      * destruct e, (is_Exception err); simpl; by destruct self.
    + by destruct self.
  - destruct (training_outcome self ds) as [p|err] eqn:Hp; simpl.
    + by destruct self.
    + destruct (estimator self) eqn:He, (is_Exception err); simpl;
        destruct self; simpl in *; by subst.
Qed.

(** X9, lines 119-128 of model.py: train_evaluate sets evaluation_time only
    once the evaluator has returned.  When the training, the predictions or
    the evaluator raise, the Model is left as it was and nothing further is
    called; past them, whatever happens next, evaluation_time is the time
    between the first two readings of the clock. *)
Theorem evaluation_time_set_after_evaluation (self : Model) (w : World)
    (train_ds test_ds : ListDataset) (make_forecasts retrain : bool) :
  let r := (train_evaluate train_ds test_ds make_forecasts retrain (self, w)).1 in
  let self' := (train_evaluate train_ds test_ds make_forecasts retrain (self, w)).2.1 in
  let w' := (train_evaluate train_ds test_ds make_forecasts retrain (self, w)).2.2 in
  let n := length (list_data test_ds) in
  match training_outcome self train_ds with
  | inr _ =>
      self' = self ∧ (∃ e, r = Raise e)
      ∧ trace w' = trace w ++ [training_call self train_ds]
  | inl p =>
      match make_evaluation_predictions test_ds p 100 with
      | inr err =>
          self' = self ∧ r = Raise (Propagated err)
          ∧ trace w' = trace w ++ [training_call self train_ds;
                                   MakeEvaluationPredictions test_ds p]
      | inl (forecasts, ts_it) =>
          match Evaluator (min 2 cpu_count) ts_it forecasts n with
          | inr err =>
              self' = self ∧ r = Raise (Propagated err)
              ∧ trace w' = trace w ++ [training_call self train_ds;
                                       MakeEvaluationPredictions test_ds p;
                                       Evaluate forecasts n]
          | inl _ =>
              evaluation_time self'
                = fsub (perf_counter (S (ticks w))) (perf_counter (ticks w))
          end
      end
  end.
Proof.
  simpl. unfold_methods.
  destruct (training_outcome self train_ds) as [p|err]; simpl.
  - destruct (make_evaluation_predictions test_ds p 100) as [[fs ts_it]|err]; simpl.
    + destruct (Evaluator _ _ _ _) as [[agg item]|err]; simpl.
      * destruct retrain; next_outcome.
        -- destruct (handler_estimator _ _ _) as [e|err]; next_outcome; [|done].
           destruct (training_outcome _ test_ds) as [p'|err]; simpl.
           ++ destruct (_format_metrics _ _ _ _) as [[m ids]|]; simpl; [|done].
              destruct make_forecasts; [|done].
              destruct (_compute_median_forecasts_timeseries _ _ _); simpl; [|done].
              destruct (concat_timeseries_per_identifiers _); simpl; [|done].
              by destruct (concat_all_timeseries _).
           ++ by destruct e, (is_Exception err).
        -- destruct (_format_metrics _ _ _ _) as [[m ids]|]; simpl; [|done].
           destruct make_forecasts; [|done].
           destruct (_compute_median_forecasts_timeseries _ _ _); simpl; [|done].
           destruct (concat_timeseries_per_identifiers _); simpl; [|done].
           by destruct (concat_all_timeseries _).
      * by rewrite <-!(assoc_L (++)).
    + by rewrite <-!(assoc_L (++)).
  - destruct (estimator self), (is_Exception err); simpl; eauto.
Qed.

(** X10, lines 124-128 of model.py: a train_evaluate that returns with
    retrain=True has renewed the estimator from the model parameters and
    the estimator_kwargs, holds the predictor trained with it on the test dataset,
    and has timed the evaluation and the retraining apart: the evaluation
    between the first two readings of the clock, the retraining between the
    next two. *)
Theorem retrain_after_evaluation (self : Model) (w : World)
    (train_ds test_ds : ListDataset) (make_forecasts : bool)
    (r : DataFrame * list string * option Frames) (self' : Model) (w' : World) :
  train_evaluate train_ds test_ds make_forecasts true (self, w) = (Ok r, (self', w')) →
  handler_estimator (model_name self) (model_parameters self) (estimator_kwargs self)
    = inl (estimator self')
  ∧ (∃ p, training_outcome self' test_ds = inl p ∧ predictor self' = Some p)
  ∧ evaluation_time self' = fsub (perf_counter (S (ticks w))) (perf_counter (ticks w))
  ∧ retraining_time self'
      = fsub (perf_counter (S (S (S (ticks w))))) (perf_counter (S (S (ticks w))))
  ∧ ticks w' = S (S (S (S (ticks w)))).
Proof.
  unfold_methods.
  destruct (training_outcome self train_ds) as [p|err]; simpl;
    [|by destruct (estimator self), (is_Exception err)].
  destruct (make_evaluation_predictions test_ds p 100) as [[fs ts_it]|]; simpl; [|done].
  destruct (Evaluator _ _ _ _) as [[agg item]|]; simpl; [|done].
  next_outcome.
  destruct (handler_estimator _ _ _) as [e|] eqn:He; next_outcome; [|done].
  destruct (training_outcome _ test_ds) as [p'|err] eqn:Hp'; simpl;
    [|by destruct e, (is_Exception err)].
  destruct (_format_metrics _ _ _ _) as [[m ids]|]; simpl; [|done].
  destruct make_forecasts; simpl.
  - destruct (_compute_median_forecasts_timeseries _ _ _); simpl; [|done].
    destruct (concat_timeseries_per_identifiers _); simpl; [|done].
    destruct (concat_all_timeseries _); simpl; [|done].
    intros ?; simplify_eq. split_and!; [done| |done..].
    exists p'. split; [exact Hp'|done].
  - intros ?; simplify_eq. split_and!; [done| |done..].
    exists p'. split; [exact Hp'|done].
Qed.

(** X11, lines 132-138 of model.py: a returning train_evaluate gives a forecasts
    frame exactly with make_forecasts, and that frame is what the two
    concatenations of the utils make of the median series of the evaluation
    forecasts, grouped by the identifiers of the training dataset. *)
Theorem forecasts_frame_returned (self : Model) (w : World)
    (train_ds test_ds : ListDataset) (make_forecasts retrain : bool)
    (r : DataFrame * list string * option Frames) (self' : Model) (w' : World) :
  train_evaluate train_ds test_ds make_forecasts retrain (self, w) = (Ok r, (self', w')) →
  match r.2 with
  | None => make_forecasts = false
  | Some forecasts_df =>
      make_forecasts = true
      ∧ ∃ p forecasts ts_it grouped multiple_df,
          training_outcome self train_ds = inl p
          ∧ make_evaluation_predictions test_ds p 100 = inl (forecasts, ts_it)
          ∧ _compute_median_forecasts_timeseries self' forecasts train_ds = Ok grouped
          ∧ concat_timeseries_per_identifiers grouped = inl multiple_df
          ∧ concat_all_timeseries multiple_df = inl forecasts_df
  end.
Proof.
  unfold_methods.
  destruct (training_outcome self train_ds) as [p|err]; simpl;
    [|by destruct (estimator self), (is_Exception err)].
  destruct (make_evaluation_predictions test_ds p 100) as [[fs ts_it]|] eqn:Hfs;
    simpl; [|done].
  destruct (Evaluator _ _ _ _) as [[agg item]|]; simpl; [|done].
  destruct retrain; next_outcome.
  - destruct (handler_estimator _ _ _) as [e|]; next_outcome; [|done].
    destruct (training_outcome _ test_ds) as [p'|err]; simpl;
      [|by destruct e, (is_Exception err)].
    destruct (_format_metrics _ _ _ _) as [[m ids]|]; simpl; [|done].
    destruct make_forecasts; simpl; [|by intros [= <- _ _]].
    destruct (_compute_median_forecasts_timeseries _ _ _) as [d|] eqn:Hd; simpl; [|done].
    destruct (concat_timeseries_per_identifiers _) as [multiple|] eqn:Hm; simpl; [|done].
    destruct (concat_all_timeseries _) as [fdf|] eqn:Hf; simpl; [|done].
    intros [= <- <- _]. simpl. split; [done|]. by exists p, fs, ts_it, d, multiple.
  - destruct (_format_metrics _ _ _ _) as [[m ids]|]; simpl; [|done].
    destruct make_forecasts; simpl; [|by intros [= <- _ _]].
    destruct (_compute_median_forecasts_timeseries _ _ _) as [d|] eqn:Hd; simpl; [|done].
    destruct (concat_timeseries_per_identifiers _) as [multiple|] eqn:Hm; simpl; [|done].
    destruct (concat_all_timeseries _) as [fdf|] eqn:Hf; simpl; [|done].
    intros [= <- <- _]. simpl. split; [done|]. by exists p, fs, ts_it, d, multiple.
Qed.
End method_effects.

Lemma train_estimator_effects_witness :
  (_train_estimator {| list_data := [Sample.series "interrupted" 3 None] |}
     (Sample.deepar_model, Sample.world0)).1
    = Raise (Propagated "KeyboardInterrupt").
Proof.
  destruct (train_estimator_effects (H0 := Sample.external) Sample.deepar_model
              Sample.world0 {| list_data := [Sample.series "interrupted" 3 None] |})
    as (_ & Hpass & _).
  by apply (Hpass "deepar").
Defined.

Lemma retrain_after_evaluation_witness :
  predictor Sample.evaluation_run.2.1 = Some ["deepar"; "revenue"; "revenue"; "visits"]
  ∧ evaluation_time Sample.evaluation_run.2.1 = 100%Z
  ∧ retraining_time Sample.evaluation_run.2.1 = 100%Z
  ∧ ticks Sample.evaluation_run.2.2 = 4.
Proof.
  destruct (retrain_after_evaluation (H0 := Sample.external)
              Sample.deepar_model Sample.world0 Sample.sales Sample.sales_test true
              Sample.evaluation_result Sample.evaluation_run.2.1 Sample.evaluation_run.2.2)
    as (_ & (p & Hp & Hpredictor) & Hev & Hre & Hticks).
  { vm_compute. reflexivity. }
  vm_compute in Hp. injection Hp as <-.
  vm_compute in Hpredictor, Hev, Hre, Hticks.
  split_and!; vm_compute; assumption.
Defined.

Lemma forecasts_frame_returned_witness :
  Sample.evaluation_result.2
    = Some ["deepar_revenue"; "deepar_visits"; "deepar_revenue"].
Proof.
  pose proof (forecasts_frame_returned (H0 := Sample.external)
                Sample.deepar_model Sample.world0 Sample.sales Sample.sales_test
                true true Sample.evaluation_result Sample.evaluation_run.2.1
                Sample.evaluation_run.2.2) as Hframe.
  destruct Sample.evaluation_result.2 as [frame|] eqn:Hresult.
  - vm_compute in Hresult. injection Hresult as <-.
    destruct Hframe as (_ & p & fs & ts_it & d & multiple & _ & _ & Hd & Hm & Hf).
    { vm_compute. reflexivity. }
    reflexivity.
  - by vm_compute in Hresult.
Defined.

Section metrics_columns_properties.
Context `{External}.
Import METRICS_DATASET.

Lemma dict_get_filter_fresh {V} (l : list string) (d : list (string * V)) (c : string) :
  c ∉ l → dict_get c (filter (λ kv, kv.1 ∉ l) d) = dict_get c d.
Proof.
  intros Hc. induction d as [|[k v] d IH]; simpl; [done|].
  rewrite filter_cons. simpl.
  destruct (decide (k = c)) as [->|Hne].
  - rewrite decide_True by done. simpl. by rewrite decide_True.
  - destruct (decide (k ∉ l)); simpl; [by rewrite decide_False|done].
Qed.

Lemma dict_get_app_r {V} (d1 d2 : list (string * V)) c :
  dict_get c d1 = None → dict_get c (d1 ++ d2) = dict_get c d2.
Proof.
  induction d1 as [|[k w] d1 IH]; simpl; [done|].
  destruct (decide (k = c)); [done|apply IH].
Qed.

(** a column of an appended frame *)
Lemma df_append_column_cases (df : DataFrame) (agg : list (string * cell)) (c : string) :
  df_column c (df_append agg df)
    = match df_column c df with
      | Some vs => Some (vs ++ [default NaN (dict_get c agg)])
      | None => (λ v, replicate (df_nrows df) NaN ++ [v]) <$> dict_get c agg
      end.
Proof.
  destruct (df_column c df) as [vs|] eqn:Hc; [by apply df_append_column|].
  unfold df_column, df_append in *. simpl.
  rewrite dict_get_app_r.
  - rewrite (dict_get_fmap_values (λ kv, replicate (df_nrows df) NaN ++ [kv.2])).
    rewrite dict_get_filter_fresh; [done|]. by apply dict_get_None.
  - by rewrite (dict_get_fmap_values (λ kv, kv.2 ++ [default NaN (dict_get kv.1 agg)])), Hc.
Qed.

Lemma select_columns_KeyError (names : list string) (columns : list (string * list cell)) :
  (∃ c, c ∈ names ∧ c ∉ keys columns) →
  ∃ k, select_columns names columns = Raise (KeyError k) ∧ k ∈ names ∧ k ∉ keys columns.
Proof.
  induction names as [|c names IH]; intros (c' & Hin & Hout); simpl.
  { by apply elem_of_nil in Hin. }
  unfold dict_item. destruct (dict_get c columns) as [vs|] eqn:Hc; simpl.
  - destruct IH as (k & -> & ? & ?).
    { exists c'. split; [|done]. apply elem_of_cons in Hin as [->|?]; [|done].
      destruct Hout. by eapply dict_get_Some_keys. }
    exists k. split; [done|]. split; [by right|done].
  - exists c. split; [done|]. split; [by left|]. by apply dict_get_None.
Qed.

Lemma add_identifiers_values_Raise (ts : timeseries) cs iv (e : exn) :
  add_identifiers_values ts cs iv = Raise e → ∃ k, e = KeyError k.
Proof.
  revert iv. induction cs as [|c cs IH]; intros iv; simpl; [done|].
  unfold dict_item. destruct (dict_get c iv); simpl; [|intros [= <-]; eauto].
  destruct (identifiers ts) as [ids|]; simpl; [|intros [= <-]; eauto].
  destruct (dict_get c ids); simpl; [apply IH|intros [= <-]; eauto].
Qed.

Lemma collect_columns_Raise (tss : list timeseries) cs (tc : list string) iv (e : exn) :
  collect_columns tss cs tc iv = Raise e → ∃ k, e = KeyError k.
Proof.
  revert tc iv. induction tss as [|ts tss IH]; intros tc iv; simpl; [done|].
  destruct (add_identifiers_values ts cs iv) as [iv1|e1] eqn:Hadd; simpl.
  - apply IH.
  - intros [= <-]. by eapply add_identifiers_values_Raise.
Qed.

(** What _format_metrics has done once the target names are stored, for
    an [item_metrics] with one row per series: the columns outside the
    identifiers come from [item_metrics] with the model and the target
    names set, completed by the aggregated values. *)
Lemma format_metrics_column (self : Model) (agg : list (string * cell)) (item : DataFrame)
    (ds : ListDataset) (metrics : DataFrame) (ids : list string) (c : string) :
  _format_metrics self agg item ds = Ok (metrics, ids) → NoDup ids →
  df_nrows item = length (list_data ds) →
  c ∈ metrics_columns ids → c ∉ ids → c ≠ MODEL_PARAMETERS →
  let label := CStr (get_label (model_name self)) in
  let n := length (list_data ds) in
  let item1 :=
    {| df_nrows := n;
       df_columns :=
         dict_set TARGET_COLUMN (CStr <$> (target_name <$> list_data ds))
           (dict_set MODEL_COLUMN (replicate n label) (df_columns item)) |} in
  let agg1 :=
    dict_set TRAINING_TIME
      (CFloat (round2 (fadd (evaluation_time self) (retraining_time self))))
      (dict_set TARGET_COLUMN (CStr AGGREGATED_ROW) (dict_set MODEL_COLUMN label agg)) in
  df_column c metrics
    = match df_column c item1 with
      | Some vs => Some (vs ++ [default NaN (dict_get c agg1)])
      | None => (λ v, replicate n NaN ++ [v]) <$> dict_get c agg1
      end.
Proof.
  unfold _format_metrics. intros Hrun Hids Hrows Hc Hout Hne. simpl.
  apply bind_Ok in Hrun as (first & Hfirst & Hrun).
  apply bind_Ok in Hrun as ([targets iv] & Hcollect & Hrun).
  apply bind_Ok in Hrun as (item1 & Hitem1 & Hrun).
  apply bind_Ok in Hrun as ([item2 agg2] & Hset & Hrun).
  apply bind_Ok in Hrun as (selected & Hselect & Hrun).
  apply bind_Ok in Hrun as (model_params & Hjson & Hrun).
  injection Hrun as <- <-.
  set (cs := match identifiers first with Some d => keys d | None => [] end) in *.
  destruct (collect_columns_Ok _ _ _ _ _ _ Hcollect Hids) as (-> & Hkeys & Hvalues).
  simpl in *.
  rewrite df_set_list_fit in Hitem1 by (simpl; by rewrite !length_fmap).
  injection Hitem1 as <-. simpl in *.
  destruct (set_identifiers_columns_Ok _ _ _ _ _ _ Hset Hids)
    as (Hn2 & Hcol_in & Hcol_out & Hagg_in & Hagg_out).
  { intros c' vs Hc' Hvs. simpl.
    destruct (Hvalues c' [] Hc') as (ws & Hws & Hall); [by apply dict_get_fromkeys|].
    simplify_eq. rewrite Hrows. symmetry. by eapply Forall2_length. }
  destruct (df_select_Ok _ _ _ Hselect) as (Hn3 & Hnames & Hsel & _).
  rewrite df_set_scalar_column_ne by done.
  rewrite Hsel by done.
  rewrite df_append_column_cases, Hcol_out, Hagg_out, Hn2 by done.
  simpl. unfold df_column. simpl. by rewrite Hrows.
Qed.

(** X12, lines 182-198 of model.py: in the frame _format_metrics returns for an
    [item_metrics] with one row per series, a metric column that
    [item_metrics] had keeps its values, followed by the value of
    [agg_metrics] for that metric, NaN if it has none; a metric only
    [agg_metrics] had is NaN in the rows of the series. *)
Theorem metric_values_kept (self : Model) (agg_metrics : list (string * cell))
    (item_metrics : DataFrame) (ds : ListDataset) (metrics : DataFrame)
    (ids : list string) (c : string) :
  _format_metrics self agg_metrics item_metrics ds = Ok (metrics, ids) → NoDup ids →
  df_nrows item_metrics = length (list_data ds) →
  c ∈ keys EVALUATION_METRICS_DESCRIPTIONS → c ∉ ids → c ≠ TRAINING_TIME →
  df_column c metrics
    = match df_column c item_metrics with
      | Some values => Some (values ++ [default NaN (dict_get c agg_metrics)])
      | None =>
          (λ v, replicate (length (list_data ds)) NaN ++ [v]) <$> dict_get c agg_metrics
      end.
Proof.
  intros Hrun Hids Hrows Hc Hout Hne.
  assert (c ≠ TARGET_COLUMN ∧ c ≠ MODEL_COLUMN ∧ c ≠ MODEL_PARAMETERS) as (? & ? & ?).
  { split_and!; intros ->; apply (bool_decide_pack _) in Hc; by vm_compute in Hc. }
  rewrite (format_metrics_column _ _ _ _ _ _ c Hrun Hids Hrows); [|set_solver|done..].
  unfold df_column. simpl. by rewrite !dict_get_set_ne by done.
Qed.

(** X13, lines 184-198 of model.py: the training time column of the frame
    _format_metrics returns holds, in the aggregated row, the sum of the
    evaluation time and the retraining time of the Model rounded to two
    decimals, and NaN in the rows of the series, unless [item_metrics]
    came with a column of that name.  The name is taken not to be an
    identifier nor "target_column", "model" or "model_params". *)
Theorem training_time_in_aggregated_row (self : Model) (agg_metrics : list (string * cell))
    (item_metrics : DataFrame) (ds : ListDataset) (metrics : DataFrame)
    (ids : list string) :
  _format_metrics self agg_metrics item_metrics ds = Ok (metrics, ids) → NoDup ids →
  df_nrows item_metrics = length (list_data ds) →
  TRAINING_TIME ∉ ids →
  TRAINING_TIME ∉ [TARGET_COLUMN; MODEL_COLUMN; MODEL_PARAMETERS] →
  TRAINING_TIME ∉ df_names item_metrics →
  df_column TRAINING_TIME metrics
    = Some (replicate (length (list_data ds)) NaN
            ++ [CFloat (round2 (fadd (evaluation_time self) (retraining_time self)))]).
Proof.
  intros Hrun Hids Hrows Hout Hreserved Hitem.
  rewrite (format_metrics_column _ _ _ _ _ _ TRAINING_TIME Hrun Hids Hrows);
    [|unfold metrics_columns; set_solver|done|set_solver].
  unfold df_column. simpl.
  rewrite !dict_get_set_ne by set_solver.
  rewrite (proj2 (dict_get_None _ _) Hitem). by rewrite dict_get_set_eq.
Qed.

(** X14, lines 177-182 of model.py: for a dataset whose series all hold the
    identifiers of the first, _format_metrics raises ValueError when
    [item_metrics] has rows, but not as many as the dataset has series. *)
Theorem rows_mismatch_rejected (self : Model) (agg_metrics : list (string * cell))
    (item_metrics : DataFrame) (ds : ListDataset) :
  list_data ds ≠ [] →
  NoDup (first_identifiers ds) →
  (∀ ts c, ts ∈ list_data ds → c ∈ first_identifiers ds →
     is_Some (identifier_value c ts)) →
  df_nrows item_metrics ≠ length (list_data ds) →
  df_nrows item_metrics ≠ 0 →
  _format_metrics self agg_metrics item_metrics ds = Raise ValueError.
Proof.
  intros Hne Hids Hvalues Hrows Hzero. unfold _format_metrics, first_identifiers in *.
  destruct (list_data ds) as [|first tss] eqn:Hds; [done|].
  with_strategy opaque [collect_columns] simpl.
  set (cs := match identifiers first with Some d => keys d | None => [] end) in *.
  destruct (collect_columns_total (first :: tss) cs [] ((λ c, (c, [])) <$> cs))
    as [[targets iv] Hcollect]; [|done..|].
  { intros c Hc. apply dict_get_is_Some. rewrite dict_get_fromkeys by done. by eexists. }
  rewrite Hcollect. simpl.
  destruct (collect_columns_Ok (first :: tss) cs _ _ _ _ Hcollect Hids) as (-> & _ & _).
  unfold df_set_list. simpl.
  rewrite decide_False by (rewrite !length_fmap; simpl in *; congruence).
  by rewrite decide_False.
Qed.

(** X15, lines 177-180 of model.py: when a series of the dataset has no value
    for an identifier key of the first series, _format_metrics raises
    KeyError. *)
Theorem missing_identifier_rejected (self : Model) (agg_metrics : list (string * cell))
    (item_metrics : DataFrame) (ds : ListDataset) (ts : timeseries) (c : string) :
  NoDup (first_identifiers ds) →
  ts ∈ list_data ds → c ∈ first_identifiers ds → identifier_value c ts = None →
  ∃ k, _format_metrics self agg_metrics item_metrics ds = Raise (KeyError k).
Proof.
  intros Hids Hts Hc Hnone. unfold _format_metrics, first_identifiers in *.
  destruct (list_data ds) as [|first tss] eqn:Hds; [by apply elem_of_nil in Hts|].
  with_strategy opaque [collect_columns] simpl.
  set (cs := match identifiers first with Some d => keys d | None => [] end) in *.
  destruct (collect_columns (first :: tss) cs [] ((λ c, (c, [])) <$> cs))
    as [[targets iv]|e] eqn:Hcollect; simpl.
  - destruct (collect_columns_Ok _ _ _ _ _ _ Hcollect Hids) as (_ & _ & Hvalues).
    destruct (Hvalues c [] Hc) as (ws & _ & Hall); [by apply dict_get_fromkeys|].
    apply list_elem_of_lookup in Hts as [i Hi].
    destruct (Forall2_lookup_l _ _ _ _ _ Hall Hi) as (w & _ & Hw). congruence.
  - destruct (collect_columns_Raise _ _ _ _ _ Hcollect) as [k ->]. by exists k.
Qed.

(** X16, lines 190-198 of model.py: for well-formed series and an
    [item_metrics] with one row per series, _format_metrics raises KeyError,
    for one of the eight metric keys, when one of them is neither a column
    of [item_metrics], nor a key of [agg_metrics], nor an identifier, nor
    the name of the training time column. *)
Theorem missing_metric_rejected (self : Model) (agg_metrics : list (string * cell))
    (item_metrics : DataFrame) (ds : ListDataset) (c : string) :
  list_data ds ≠ [] →
  NoDup (first_identifiers ds) →
  (∀ ts c, ts ∈ list_data ds → c ∈ first_identifiers ds →
     is_Some (identifier_value c ts)) →
  df_nrows item_metrics = length (list_data ds) →
  c ∈ keys EVALUATION_METRICS_DESCRIPTIONS →
  c ∉ df_names item_metrics → c ∉ keys agg_metrics →
  c ∉ first_identifiers ds → c ≠ TRAINING_TIME →
  ∃ k, _format_metrics self agg_metrics item_metrics ds = Raise (KeyError k)
    ∧ k ∈ keys EVALUATION_METRICS_DESCRIPTIONS
    ∧ (k ∉ df_names item_metrics) ∧ (k ∉ keys agg_metrics).
Proof.
  intros Hne Hids Hvalues Hrows Hc Hitem Hagg Hout Htime.
  unfold _format_metrics, first_identifiers in *.
  destruct (list_data ds) as [|first tss] eqn:Hds; [done|].
  with_strategy opaque [collect_columns] simpl.
  set (cs := match identifiers first with Some d => keys d | None => [] end) in *.
  set (label := CStr (get_label (model_name self))).
  destruct (collect_columns_total (first :: tss) cs [] ((λ c, (c, [])) <$> cs))
    as [[targets iv] Hcollect]; [|done..|].
  { intros c' Hc'. apply dict_get_is_Some. rewrite dict_get_fromkeys by done. by eexists. }
  rewrite Hcollect. simpl.
  destruct (collect_columns_Ok (first :: tss) cs _ _ _ _ Hcollect Hids) as (-> & _ & Hiv).
  rewrite df_set_list_fit by (simpl in *; by rewrite !length_fmap, Hrows).
  simpl.
  match goal with
  | |- context [set_identifiers_columns cs iv ?i ?a] => set (item1 := i); set (agg1 := a)
  end.
  assert (∀ c vs, c ∈ cs → dict_get c iv = Some vs → length vs = df_nrows item1) as Hlen.
  { intros c' vs Hc' Hvs.
    destruct (Hiv c' [] Hc') as (ws & Hws & Hall); [by apply dict_get_fromkeys|].
    simplify_eq. simpl. rewrite Hrows. symmetry. by apply Forall2_length in Hall. }
  destruct (set_identifiers_columns_total cs iv item1 agg1) as [[item2 agg2] Hset].
  { intros c' Hc'.
    destruct (Hiv c' [] Hc') as (ws & Hws & Hall); [by apply dict_get_fromkeys|].
    exists ws. split; [done|]. by eapply Hlen. }
  rewrite Hset. simpl.
  destruct (set_identifiers_columns_Ok _ _ _ _ _ _ Hset Hids Hlen)
    as (_ & Hcol_in & Hcol_out & Hagg_in & Hagg_out).
  assert (∀ k, k ∈ df_names (df_append agg2 item2) ↔
            k ∈ cs ∨ k = TARGET_COLUMN ∨ k = MODEL_COLUMN ∨ k = TRAINING_TIME
            ∨ k ∈ df_names item_metrics ∨ k ∈ keys agg_metrics) as Hnames.
  { intros k. rewrite df_append_names. unfold df_names.
    rewrite <-!dict_get_is_Some.
    destruct (decide (k ∈ cs)) as [Hk|Hk].
    - destruct (Hcol_in k Hk) as [Hsome Heq]. unfold df_column in Heq.
      rewrite Heq. naive_solver.
    - specialize (Hcol_out k Hk). unfold df_column in Hcol_out.
      rewrite Hcol_out, (Hagg_out k Hk), !dict_get_is_Some.
      unfold item1, agg1. simpl. rewrite !elem_of_keys_dict_set. naive_solver. }
  unfold df_select.
  destruct (select_columns_KeyError (metrics_columns cs) (df_columns (df_append agg2 item2)))
    as (k & -> & Hk & Hmissing).
  { exists c. split; [unfold metrics_columns; rewrite !elem_of_app; auto 6|].
    fold (df_names (df_append agg2 item2)). rewrite Hnames.
    intros [?|[->|[->|[?|[?|?]]]]]; try done;
      apply (bool_decide_pack _) in Hc; by vm_compute in Hc. }
  exists k. split; [done|].
  fold (df_names (df_append agg2 item2)) in Hmissing. rewrite Hnames in Hmissing.
  unfold metrics_columns in Hk.
  rewrite !elem_of_app, !list_elem_of_singleton in Hk.
  destruct Hk as [->|[?|[->|[?| ->]]]]; try (destruct Hmissing; by auto).
  split; [done|]. split; intros ?; destruct Hmissing; auto 10.
Qed.
End metrics_columns_properties.

Lemma metric_values_kept_witness :
  df_column "MSE" Sample.evaluation_result.1.1
    = Some [CInt 2; CInt 2; CInt 2; CInt 1]
  ∧ df_column "mean_wQuantileLoss" Sample.evaluation_result.1.1
    = Some [NaN; NaN; NaN; CInt 1].
Proof.
  assert (_format_metrics Sample.evaluation_run.2.1 Sample.metric_values
            (Sample.item_frame 3) Sample.sales
          = Ok (Sample.evaluation_result.1.1, Sample.evaluation_result.1.2)) as Hrun
    by (vm_compute; reflexivity).
  split.
  - rewrite (metric_values_kept (H0 := Sample.external) _ _ _ _ _ _ "MSE" Hrun);
      [reflexivity|by computed|done|by computed| |done].
    intros Hin. apply (bool_decide_pack _) in Hin. by vm_compute in Hin.
  - rewrite (metric_values_kept (H0 := Sample.external) _ _ _ _ _ _ "mean_wQuantileLoss"
               Hrun);
      [reflexivity|by computed|done|by computed| |done].
    intros Hin. apply (bool_decide_pack _) in Hin. by vm_compute in Hin.
Defined.

Lemma training_time_in_aggregated_row_witness :
  df_column "training_time" Sample.evaluation_result.1.1
    = Some [NaN; NaN; NaN; CFloat 200%Z].
Proof.
  assert (_format_metrics Sample.evaluation_run.2.1 Sample.metric_values
            (Sample.item_frame 3) Sample.sales
          = Ok (Sample.evaluation_result.1.1, Sample.evaluation_result.1.2)) as Hrun
    by (vm_compute; reflexivity).
  apply (training_time_in_aggregated_row (H0 := Sample.external) _ _ _ _ _ _ Hrun);
    [by computed|done|..];
    intros Hin; apply (bool_decide_pack _) in Hin; by vm_compute in Hin.
Defined.

Lemma rows_mismatch_rejected_witness :
  _format_metrics Sample.deepar_model Sample.metric_values (Sample.item_frame 2) Sample.sales
    = Raise ValueError.
Proof.
  apply (rows_mismatch_rejected (H0 := Sample.external)); [done|by computed| |done|done].
  intros ts c Hts Hc. unfold first_identifiers in Hc. simpl in Hts, Hc.
  repeat (apply elem_of_cons in Hts as [->|Hts]);
    [repeat (apply elem_of_cons in Hc as [->|Hc]); try (by eexists);
     by apply elem_of_nil in Hc..|by apply elem_of_nil in Hts].
Defined.

Lemma missing_identifier_rejected_witness :
  ∃ k, _format_metrics Sample.deepar_model Sample.metric_values (Sample.item_frame 2)
         Sample.ragged = Raise (KeyError k).
Proof.
  apply (missing_identifier_rejected (H0 := Sample.external) _ _ _ _
           (Sample.series "visits" 5 None) "store").
  - by computed.
  - simpl. set_solver.
  - unfold first_identifiers. simpl. set_solver.
  - reflexivity.
Defined.

Lemma missing_metric_rejected_witness :
  ∃ k, _format_metrics Sample.deepar_model [] (Sample.item_frame 3) Sample.sales
         = Raise (KeyError k)
    ∧ k ∈ keys EVALUATION_METRICS_DESCRIPTIONS.
Proof.
  destruct (missing_metric_rejected (H0 := Sample.external) Sample.deepar_model []
              (Sample.item_frame 3) Sample.sales "MASE")
    as (k & Hrun & Hk & _); [done|by computed| |done|by computed|..].
  - intros ts c Hts Hc. unfold first_identifiers in Hc. simpl in Hts, Hc.
    repeat (apply elem_of_cons in Hts as [->|Hts]);
      [repeat (apply elem_of_cons in Hc as [->|Hc]); try (by eexists);
       by apply elem_of_nil in Hc..|by apply elem_of_nil in Hts].
  - intros Hin. apply (bool_decide_pack _) in Hin. by vm_compute in Hin.
  - intros Hin. by apply elem_of_nil in Hin.
  - intros Hin. apply (bool_decide_pack _) in Hin. by vm_compute in Hin.
  - done.
  - by exists k.
Defined.

Section parameters_fields_properties.
Context `{External}.

(** X17, lines 231-248 of model.py: the object _get_model_parameters_json dumps
    has the seven keys of its literal, then "epoch", "batch_size" and
    "num_batches_per_epoch" when the Model has a trainer, "season_length"
    when it uses a seasonality and has a season length, and "mxnet.context"
    when it has a context, in this order; a batch size or a number of
    batches that is None is dumped as null. *)
Theorem parameters_json_keys (self : Model) (ds : ListDataset) (s : string) :
  _get_model_parameters_json self ds = Ok s →
  ∃ fields,
    s = json_dumps (JObject fields)
    ∧ keys fields =
        [ "model_name"; "frequency"; "prediction_length"; "use_external_features";
          "timeseries_number"; "timeseries_average_length"; "model_parameters" ]
        ++ (if trainer self is Some _
            then ["epoch"; "batch_size"; "num_batches_per_epoch"] else [])
        ++ (match use_seasonality self, season_length self with
            | true, Some _ => ["season_length"]
            | _, _ => []
            end)
        ++ (if mxnet_context self is Some _ then ["mxnet.context"] else [])
    ∧ dict_get "model_name" fields = Some (JStr (get_label (model_name self)))
    ∧ dict_get "frequency" fields = Some (JStr (frequency self))
    ∧ dict_get "model_parameters" fields = Some (model_parameters self)
    ∧ (is_Some (trainer self) →
         dict_get "epoch" fields = Some (JInt (epoch self))
         ∧ dict_get "batch_size" fields = Some (json_of_option (batch_size self))
         ∧ dict_get "num_batches_per_epoch" fields
             = Some (json_of_option (num_batches_per_epoch self)))
    ∧ (∀ ctx, mxnet_context self = Some ctx →
         dict_get "mxnet.context" fields = Some (JStr (str_context ctx))).
Proof.
  unfold _get_model_parameters_json.
  intros (average & Havg & Hs)%bind_Ok. injection Hs as <-.
  eexists. split; [reflexivity|].
  destruct (trainer self), (use_seasonality self), (season_length self),
    (mxnet_context self); simpl;
    (split_and!; [reflexivity..| |]);
    first [ by intros [? ?] | intros _; by split_and! | idtac ];
    intros ctx Hctx; by simplify_eq.
Qed.

(** X18, lines 75-78 against lines 240-247 of model.py: the parameters JSON of
    a constructed Model names the mxnet context only when the handler gave
    the Model a trainer, so only together with the epoch; and it names the
    frequency the estimator was given, not the custom one. *)
Theorem parameters_json_context_with_epoch name params freq plen ep uef bs nb sl ctx
    (m : Model) (ds : ListDataset) (s : string) :
  __init__ name params freq plen ep uef bs nb sl ctx = Ok m →
  _get_model_parameters_json m ds = Ok s →
  ∃ fields,
    s = json_dumps (JObject fields)
    ∧ ("epoch" ∈ keys fields ↔ is_Some (trainer m))
    ∧ ("mxnet.context" ∈ keys fields ↔ is_Some (trainer m) ∧ is_Some ctx)
    ∧ Some (JStr (frequency m)) = dict_get "frequency" fields
    ∧ estimator_kwargs m !! "freq" = Some (KStr (frequency m)).
Proof.
  intros Hm Hs. unfold __init__ in Hm.
  apply bind_Ok in Hm as (_ & _ & Hm).
  apply bind_Ok in Hm as (offset & _ & Hm).
  apply bind_Ok in Hm as (tr & _ & Hm).
  apply bind_Ok in Hm as (est & _ & Hm).
  injection Hm as <-.
  unfold _get_model_parameters_json in Hs. simpl in Hs.
  apply bind_Ok in Hs as (average & Havg & Hs). injection Hs as <-.
  eexists. split; [reflexivity|]. simpl.
  assert (∀ A (x : A), ¬ is_Some (@None A) ∧ is_Some (Some x)) as Hopt.
  { intros A x. split; [by intros [? ?]|by eexists]. }
  destruct tr as [t|], (can_use_seasonality name), sl as [n|], ctx as [c|]; simpl;
    (split_and!;
     [ split; [intros Hin|intros Hsome];
         [ try (by eexists); apply (bool_decide_pack _) in Hin; by vm_compute in Hin
         | try (by computed); by destruct Hsome ]
     | split; [intros Hin|intros [Hsome Hsome']];
         [ try (split; by eexists); apply (bool_decide_pack _) in Hin; by vm_compute in Hin
         | try (by computed); first [by destruct Hsome | by destruct Hsome'] ]
     | reflexivity
     | destruct (uef && can_use_external_feature name);
         repeat first [ rewrite lookup_insert_eq | rewrite lookup_insert_ne by done
                      | rewrite lookup_update_if_ne by done ]; done ]).
Qed.

Lemma sum_list_bounds {A} (f : A → nat) (l : list A) (lo hi : nat) :
  (∀ x, x ∈ l → (lo ≤ f x ≤ hi)%nat) →
  (length l * lo ≤ sum_list (f <$> l) ≤ length l * hi)%nat.
Proof.
  induction l as [|x l IH]; intros Hl; csimpl; [lia|].
  destruct (Hl x) as [? ?]; [by left|].
  destruct IH as [? ?]; [intros; apply Hl; by right|]. lia.
Qed.

(** X19, lines 229-237 of model.py: the "timeseries_average_length" of the
    parameters JSON lies between the shortest and the longest target of
    the dataset; it is the common length when all targets have one. *)
Theorem average_length_between (self : Model) (ds : ListDataset) (s : string)
    (lo hi : nat) :
  _get_model_parameters_json self ds = Ok s →
  (∀ ts, ts ∈ list_data ds → (lo ≤ length (target ts) ≤ hi)%nat) →
  ∃ fields average,
    s = json_dumps (JObject fields)
    ∧ dict_get "timeseries_average_length" fields = Some (JInt average)
    ∧ (Z.of_nat lo ≤ average ≤ Z.of_nat hi)%Z.
Proof.
  intros Hs Hbounds.
  destruct (model_parameters_fields self ds s Hs)
    as (fields & average & -> & Havg & _ & _ & Hfield).
  exists fields, average. split; [done|]. split; [done|].
  pose proof (sum_list_bounds (λ ts, length (target ts)) (list_data ds) lo hi Hbounds)
    as [Hlo Hhi].
  fold (total_target_length ds) in Hlo, Hhi.
  destruct (decide (length (list_data ds) = 0)) as [Hzero|Hpos].
  { unfold round_div in Havg. rewrite Hzero in Havg. by rewrite decide_True in Havg. }
  destruct (round_div_nearest (Z.of_nat (total_target_length ds))
              (Z.of_nat (length (list_data ds)))) as (r & Hr & Hnear & _); [lia..|].
  rewrite Hr in Havg. injection Havg as <-.
  apply Nat2Z.inj_le in Hlo, Hhi. rewrite Nat2Z.inj_mul in Hlo, Hhi.
  assert (0 < Z.of_nat (length (list_data ds)))%Z as Hn by lia.
  revert Hnear Hlo Hhi Hn.
  generalize (Z.of_nat (length (list_data ds))) (Z.of_nat (total_target_length ds))
    (Z.of_nat lo) (Z.of_nat hi).
  intros n total l h Hnear Hlo Hhi Hn.
  assert (- n ≤ 2 * (n * r - total) ≤ n)%Z as [Hleft Hright] by lia.
  split; apply Z.nlt_ge; intros Hlt.
  - assert (n * r ≤ n * (l - 1))%Z by (apply Z.mul_le_mono_nonneg_l; lia). lia.
  - assert (n * (h + 1) ≤ n * r)%Z by (apply Z.mul_le_mono_nonneg_l; lia). lia.
Qed.
End parameters_fields_properties.

Lemma parameters_json_keys_witness :
  ∃ fields, keys fields =
    [ "model_name"; "frequency"; "prediction_length"; "use_external_features";
      "timeseries_number"; "timeseries_average_length"; "model_parameters";
      "epoch"; "batch_size"; "num_batches_per_epoch"; "mxnet.context" ]
    ∧ dict_get "num_batches_per_epoch" fields = Some JNull.
Proof.
  destruct (parameters_json_keys (H0 := Sample.external) Sample.deepar_model Sample.sales
              _ eq_refl) as (fields & _ & Hkeys & _ & _ & _ & Htrainer & _).
  exists fields. split; [exact Hkeys|]. apply Htrainer. by eexists.
Defined.

Lemma parameters_json_context_with_epoch_witness :
  ∃ fields, ("mxnet.context" ∉ keys fields) ∧ ("epoch" ∉ keys fields)
    ∧ _get_model_parameters_json (H0 := Seasonal.external)
        (Seasonal.seasonal_model None) Sample.sales
      = Ok (@json_dumps _ Seasonal.external (JObject fields)).
Proof.
  destruct (parameters_json_context_with_epoch (H0 := Seasonal.external) "seasonal_naive"
              (JObject []) "W-MON" 7 10 true None None None (Some "cpu")
              (Seasonal.seasonal_model None) Sample.sales _ eq_refl eq_refl)
    as (fields & Hs & Hepoch & Hctx & _).
  exists fields. split_and!.
  - intros [[t Ht] _]%Hctx. by vm_compute in Ht.
  - intros [t Ht]%Hepoch. by vm_compute in Ht.
  - rewrite <-Hs. reflexivity.
Defined.

Lemma average_length_between_witness :
  ∃ fields average,
    dict_get "timeseries_average_length" fields = Some (JInt average)
    ∧ (4 ≤ average ≤ 5)%Z.
Proof.
  destruct (average_length_between (H0 := Sample.external) Sample.deepar_model
              Sample.sales _ 4 5 eq_refl) as (fields & average & _ & Hfield & Hbounds).
  - intros ts Hts. simpl in Hts.
    repeat (apply elem_of_cons in Hts as [->|Hts]); [simpl; lia..|].
    by apply elem_of_nil in Hts.
  - by exists fields, average.
Defined.

Section grouping_properties.
Context `{External}.
Implicit Types (d : list (option (list (string * cell)) * list Series)).

Lemma median_forecasts_loop_IndexError (self : Model) (ds : ListDataset) fs i d :
  (i ≤ length (list_data ds))%nat →
  (length (list_data ds) < i + length fs)%nat →
  median_forecasts_loop self ds i fs d = Raise IndexError.
Proof.
  revert i d. induction fs as [|f fs IH]; intros i d Hi Hlen; simpl in *; [lia|].
  unfold list_item. destruct (list_data ds !! i) as [ts|] eqn:Hts; simpl; [|done].
  apply lookup_lt_Some in Hts. apply IH; lia.
Qed.

(** X20, lines 261-263 of model.py: the forecasts are matched with the series
    by position.  With more forecasts than series
    _compute_median_forecasts_timeseries raises IndexError; with fewer it
    returns, and the series beyond the forecasts play no part. *)
Theorem median_forecasts_by_position (self : Model) (forecasts_list : list Forecast)
    (ds : ListDataset) :
  ((length (list_data ds) < length forecasts_list)%nat →
     _compute_median_forecasts_timeseries self forecasts_list ds = Raise IndexError)
  ∧ ((length forecasts_list ≤ length (list_data ds))%nat →
       is_Ok (_compute_median_forecasts_timeseries self forecasts_list ds)
       ∧ _compute_median_forecasts_timeseries self forecasts_list ds
         = _compute_median_forecasts_timeseries self forecasts_list
             {| list_data := take (length forecasts_list) (list_data ds) |}).
Proof.
  unfold _compute_median_forecasts_timeseries. split.
  - intros Hlen. apply median_forecasts_loop_IndexError; simpl; lia.
  - intros Hlen. rewrite !median_forecasts_loop_fold, !drop_0.
    + split; [by eexists|]. simpl. do 2 f_equal.
      clear. generalize (list_data ds). induction forecasts_list as [|f fs IH];
        intros [|ts tss]; simpl; [done..|]. by rewrite IH.
    + simpl. rewrite length_take. lia.
    + simpl. lia.
Qed.

Lemma foldl_add_ungrouped (self : Model) (ps : list (Forecast * timeseries))
    (l : list Series) :
  Forall (λ p, identifiers p.2 = None) ps →
  foldl (add_median_series self) [(None, l)] ps
    = [(None, l ++ ((λ p, median_series self p.1 p.2) <$> ps))].
Proof.
  revert l. induction ps as [|p ps IH]; intros l Hps; simpl.
  - by rewrite (right_id_L [] (++)).
  - apply Forall_cons in Hps as [Hp Hps].
    unfold add_median_series at 2. unfold timeseries_identifier_key. rewrite Hp. simpl.
    rewrite IH by done. by rewrite <-(assoc_L (++)).
Qed.

(** X21, lines 265-273 of model.py: when no series of the dataset has
    identifiers, the dictionary _compute_median_forecasts_timeseries returns
    for as many forecasts, at least one, has the single key None, under
    which all the median series stand in dataset order; without forecasts it
    is empty. *)
Theorem median_forecasts_ungrouped (self : Model) (forecasts_list : list Forecast)
    (ds : ListDataset) :
  length forecasts_list = length (list_data ds) →
  Forall (λ ts, identifiers ts = None) (list_data ds) →
  _compute_median_forecasts_timeseries self forecasts_list ds
    = Ok (match forecasts_list with
          | [] => []
          | _ => [(None, zip_with (median_series self) forecasts_list (list_data ds))]
          end).
Proof.
  intros Hlen Hnone. unfold _compute_median_forecasts_timeseries.
  rewrite median_forecasts_loop_fold by (simpl; lia). rewrite drop_0. f_equal.
  destruct forecasts_list as [|f fs], (list_data ds) as [|ts tss]; simplify_eq/=; [done|].
  apply Forall_cons in Hnone as [Hts Htss].
  unfold add_median_series at 2. unfold timeseries_identifier_key. simpl.
  rewrite Hts. simpl. rewrite foldl_add_ungrouped.
  - simpl. do 3 f_equal. clear. revert tss.
    induction fs as [|f' fs IH]; intros [|ts' tss]; csimpl; [done..|]. by rewrite IH.
  - clear -Htss. revert tss Htss.
    induction fs as [|f' fs IH]; intros [|ts' tss] Htss; simpl; [done..|].
    apply Forall_cons in Htss as [? ?]. constructor; [done|by apply IH].
Qed.


End grouping_properties.

Lemma median_forecasts_by_position_witness :
  _compute_median_forecasts_timeseries Sample.deepar_model ["f1"; "f2"; "f3"] Sample.ungrouped
    = Raise IndexError
  ∧ _compute_median_forecasts_timeseries Sample.deepar_model ["f1"] Sample.ungrouped
    = Ok [(None, ["deepar_revenue"])].
Proof.
  destruct (median_forecasts_by_position (H0 := Sample.external) Sample.deepar_model
              ["f1"; "f2"; "f3"] Sample.ungrouped) as [Hmore _].
  destruct (median_forecasts_by_position (H0 := Sample.external) Sample.deepar_model
              ["f1"] Sample.ungrouped) as [_ Hfewer].
  split.
  - apply Hmore. simpl. lia.
  - destruct Hfewer as [_ ->]; [simpl; lia|]. reflexivity.
Defined.

Lemma median_forecasts_ungrouped_witness :
  _compute_median_forecasts_timeseries Sample.deepar_model ["f1"; "f2"] Sample.ungrouped
    = Ok [(None, ["deepar_revenue"; "deepar_visits"])].
Proof.
  apply (median_forecasts_ungrouped (H0 := Sample.external) Sample.deepar_model
           ["f1"; "f2"] Sample.ungrouped eq_refl).
  by repeat constructor.
Defined.


Section recipe_run_properties.

Lemma run_outcome (raises : step → bool) (steps : list step) :
  match (run raises steps).2 with
  | Completed =>
      (run raises steps).1 = steps ∧ ∀ s, s ∈ steps → raises s = false
  | Crashed s =>
      raises s = true
      ∧ ∃ done rest, steps = done ++ s :: rest
          ∧ (run raises steps).1 = done ++ [s]
          ∧ ∀ s', s' ∈ done → raises s' = false
  end.
Proof.
  induction steps as [|s steps IH]; simpl.
  - split; [done|]. by intros s ?%elem_of_nil.
  - destruct (raises s) eqn:Hs; simpl.
    + split; [done|]. exists [], steps. split_and!; [done..|]. by intros s' ?%elem_of_nil.
    + destruct (run raises steps) as [calls o]. simpl in *. destruct o as [|s'].
      * destruct IH as [-> IH]. split; [done|].
        intros s' [->|?]%elem_of_cons; auto.
      * destruct IH as (Hs' & done & rest & -> & -> & Hdone).
        split; [done|]. exists (s :: done), rest. split_and!; [done..|].
        intros s'' [->|?]%elem_of_cons; auto.
Qed.

Lemma run_ext (raises raises' : step → bool) (steps : list step) :
  (∀ s, s ∈ steps → raises' s = raises s) → run raises' steps = run raises steps.
Proof.
  induction steps as [|s steps IH]; intros Hsame; simpl; [done|].
  rewrite Hsame by (by left). destruct (raises s); [done|].
  rewrite IH; [done|]. intros s' Hs'. apply Hsame. by right.
Qed.

(** X23, recipe.py: the recipe completes exactly when none of the fifteen
    calls of lines 9-46 raises and, with make_forecasts, none of the four
    calls of lines 49-53 that fetch, write and describe the forecasts.
    Without make_forecasts a run, its calls and its outcome, is the same
    whatever these four calls would do. *)
Theorem recipe_completes_iff (make_forecasts : bool) (raises : step → bool) :
  ((recipe make_forecasts raises).2 = Completed ↔
     (∀ s, s ∈ [ GetRecipeConfig; LoadTrainingConfig; UtcNow; GetModelsParameters;
                 GetDataframe; AssertContinuousTimeColumn; NewGlobalModels;
                 InitAllModels; EvaluateAll; FitAll; SaveAll; GetMetricsDf;
                 WriteWithSchema evaluation_dataset; CreateMetricsColumnDescription;
                 SetColumnDescription evaluation_dataset ] → raises s = false)
     ∧ (make_forecasts = true →
          ∀ s, s ∈ [ GetEvaluationForecastsDf; WriteWithSchema evaluation_forecasts;
                     CreateEvaluationForecastsColumnDescription;
                     SetColumnDescription evaluation_forecasts ] → raises s = false))
  ∧ (∀ raises',
       (∀ s, s ∉ [ GetEvaluationForecastsDf; WriteWithSchema evaluation_forecasts;
                   CreateEvaluationForecastsColumnDescription;
                   SetColumnDescription evaluation_forecasts ] → raises' s = raises s) →
       recipe false raises' = recipe false raises).
Proof.
  split.
  - assert ((recipe make_forecasts raises).2 = Completed ↔
              ∀ s, s ∈ recipe_steps make_forecasts → raises s = false) as ->.
    { unfold recipe.
      pose proof (run_outcome raises (recipe_steps make_forecasts)) as Hrun.
      destruct (run raises (recipe_steps make_forecasts)) as [calls o]. simpl in *.
      destruct o as [|s].
      + by destruct Hrun as [_ Hrun].
      + destruct Hrun as (Hs & done & rest & Hsteps & _). split; [done|].
        intros Hnone. rewrite Hnone in Hs; [done|]. rewrite Hsteps.
        apply elem_of_app. right. by left. }
    unfold recipe_steps. split.
    + intros Hnone. split.
      * intros s Hs. apply Hnone, elem_of_app. by left.
      * intros -> s Hs. apply Hnone, elem_of_app. by right.
    + intros [Hcommon Hforecasts] s [Hs|Hs]%elem_of_app; [by apply Hcommon|].
      destruct make_forecasts; [by apply Hforecasts|by apply elem_of_nil in Hs].
  - intros raises' Hsame. unfold recipe. apply run_ext.
    intros s Hs. apply Hsame. intros Hin.
    repeat (apply elem_of_cons in Hin as [->|Hin]);
      try (apply (bool_decide_pack _) in Hs; by vm_compute in Hs).
    by apply elem_of_nil in Hin.
Qed.

(** X24, recipe.py: a run that crashes stops at the call that raised: that
    call is the last one attempted, every call before it was on the path
    and did not raise, and when it comes before the writing of the
    evaluation dataset (the loading, the checks, evaluate_all, fit_all,
    save_all or get_metrics_df) no output dataset is written or
    described. *)
Theorem recipe_crash_stops (make_forecasts : bool) (raises : step → bool)
    (calls : list step) (s : step) :
  recipe make_forecasts raises = (calls, Crashed s) →
  raises s = true
  ∧ last calls = Some s
  ∧ (∃ done, calls = done ++ [s] ∧ ∀ s', s' ∈ done → raises s' = false)
  ∧ calls `prefix_of` recipe_steps make_forecasts
  ∧ (s ∈ [ GetRecipeConfig; LoadTrainingConfig; UtcNow; GetModelsParameters;
           GetDataframe; AssertContinuousTimeColumn; NewGlobalModels; InitAllModels;
           EvaluateAll; FitAll; SaveAll; GetMetricsDf ] →
       ∀ dataset, (WriteWithSchema dataset ∉ calls)
                  ∧ (SetColumnDescription dataset ∉ calls)).
Proof.
  unfold recipe. intros Hrun.
  pose proof (run_outcome raises (recipe_steps make_forecasts)) as Hout.
  pose proof (run_prefix raises (recipe_steps make_forecasts)) as Hpre.
  rewrite Hrun in Hout, Hpre. simpl in *.
  destruct Hout as (Hs & done & rest & Hsteps & -> & Hdone).
  split; [done|]. split; [apply last_snoc|]. split; [by exists done|].
  split; [done|].
  intros Hin dataset.
  assert (∀ s', s' ∈ done ++ [s] →
            s' ∈ [ GetRecipeConfig; LoadTrainingConfig; UtcNow; GetModelsParameters;
                   GetDataframe; AssertContinuousTimeColumn; NewGlobalModels;
                   InitAllModels; EvaluateAll; FitAll; SaveAll; GetMetricsDf ]) as Hearly.
  { clear -Hin Hsteps.
    assert (done ++ [s] `prefix_of` recipe_steps make_forecasts) as Hpre.
    { exists rest. by rewrite Hsteps, <-(assoc_L (++)). }
    assert (NoDup (recipe_steps make_forecasts)) as Hnodup
      by (destruct make_forecasts; by computed).
    intros s' Hs'.
    apply list_elem_of_lookup in Hs' as [i Hi].
    assert (i < length (done ++ [s]))%nat as Hlt by (by eapply lookup_lt_Some).
    pose proof (prefix_lookup_Some _ _ _ _ Hi Hpre) as Hi'.
    apply list_elem_of_lookup in Hin as [j Hj].
    assert (recipe_steps make_forecasts !! j = Some s) as Hj'.
    { destruct make_forecasts; do 12 (destruct j as [|j]; [by simplify_eq/=|]);
        by simplify_eq/=. }
    assert (recipe_steps make_forecasts !! length done = Some s) as Hlast.
    { eapply prefix_lookup_Some; [|exact Hpre].
      by rewrite lookup_app_r, Nat.sub_diag by lia. }
    assert (j = length done) as -> by (by eapply NoDup_lookup).
    assert (length done < 12)%nat by (apply lookup_lt_Some in Hj; simpl in Hj; lia).
    rewrite length_app in Hlt. simpl in Hlt.
    apply list_elem_of_lookup. exists i.
    destruct make_forecasts; do 12 (destruct i as [|i]; [by simplify_eq/=|]); lia. }
  split; intros Hcall%Hearly; apply (bool_decide_pack _) in Hcall;
    destruct dataset; by vm_compute in Hcall.
Qed.

(** X25, recipe.py: in every run the models are fitted before they are saved
    and saved before an output dataset is written, the time column is
    checked before the models are built, the evaluation dataset is written
    before the forecasts dataset, and no call is made twice. *)
Theorem recipe_order (make_forecasts : bool) (raises : step → bool) :
  let calls := (recipe make_forecasts raises).1 in
  before AssertContinuousTimeColumn NewGlobalModels calls
  ∧ before FitAll SaveAll calls
  ∧ (∀ dataset, before SaveAll (WriteWithSchema dataset) calls)
  ∧ before (WriteWithSchema evaluation_dataset) (WriteWithSchema evaluation_forecasts) calls
  ∧ NoDup calls.
Proof.
  simpl. pose proof (run_prefix raises (recipe_steps make_forecasts)) as Hpre.
  split_and!; [| |intros dataset| |].
  - apply (before_prefix _ _ _ _ Hpre), before_steps with 5;
      [by destruct make_forecasts|].
    intros j Hle. do 6 (destruct j as [|j]; [by destruct make_forecasts|]). lia.
  - apply (before_prefix _ _ _ _ Hpre), before_steps with 9;
      [by destruct make_forecasts|].
    intros j Hle. do 10 (destruct j as [|j]; [by destruct make_forecasts|]). lia.
  - apply (before_prefix _ _ _ _ Hpre), before_steps with 10;
      [by destruct make_forecasts|].
    intros j Hle. do 11 (destruct j as [|j]; [by destruct make_forecasts|]). lia.
  - apply (before_prefix _ _ _ _ Hpre), before_steps with 12;
      [by destruct make_forecasts|].
    intros j Hle. do 13 (destruct j as [|j]; [by destruct make_forecasts|]). lia.
  - destruct Hpre as [rest Hrest].
    assert (NoDup (recipe_steps make_forecasts)) as Hnodup
      by (destruct make_forecasts; by computed).
    unfold recipe. rewrite Hrest in Hnodup. by apply NoDup_app in Hnodup as [? _].
Qed.
End recipe_run_properties.

Lemma recipe_crash_stops_witness :
  (recipe true (λ s, bool_decide (s = FitAll))).1
    = [ GetRecipeConfig; LoadTrainingConfig; UtcNow; GetModelsParameters; GetDataframe;
        AssertContinuousTimeColumn; NewGlobalModels; InitAllModels; EvaluateAll; FitAll ]
  ∧ (WriteWithSchema evaluation_dataset
       ∉ (recipe true (λ s, bool_decide (s = FitAll))).1).
Proof.
  split; [reflexivity|].
  destruct (recipe_crash_stops true (λ s, bool_decide (s = FitAll))
              (recipe true (λ s, bool_decide (s = FitAll))).1 FitAll)
    as (_ & _ & _ & _ & Hnone); [reflexivity|].
  apply Hnone. by computed.
Defined.

Lemma recipe_completes_iff_witness :
  (recipe false (λ s, bool_decide (s = WriteWithSchema evaluation_forecasts))).2
    = Completed
  ∧ (recipe true (λ s, bool_decide (s = WriteWithSchema evaluation_forecasts))).2
    ≠ Completed
  ∧ recipe false (λ s, bool_decide (s = WriteWithSchema evaluation_forecasts))
    = recipe false (λ _, false).
Proof.
  split_and!.
  - apply (recipe_completes_iff false). split; [|done].
    intros s Hs. apply bool_decide_eq_false. intros ->.
    apply (bool_decide_pack _) in Hs. by vm_compute in Hs.
  - intros [_ Hforecasts]%(recipe_completes_iff true).
    specialize (Hforecasts eq_refl (WriteWithSchema evaluation_forecasts)).
    rewrite bool_decide_eq_false in Hforecasts. apply Hforecasts; [|done].
    by computed.
  - apply (recipe_completes_iff false (λ _, false)).
    intros s Hs. apply bool_decide_eq_false. intros ->. apply Hs. by computed.
Defined.
